(** * LittleVSX: package ingestion and gallery protocol emulation

    A shallow embedding of the Go sources of LittleVSX (the storage layer,
    the extension manager, the readme asset processor, the upstream
    marketplace providers, the gallery HTTP handlers with the asset route
    and the middleware, the download command and the file utilities),
    followed by the properties established about them.

    Conventions of the embedding.
    - A Go [string] is a byte sequence and is modelled by [string], whose
      characters are bytes ([ascii]).
    - A Go [interface{}] holding decoded JSON, or a value about to be
      encoded as JSON, is a [value]; a type assertion [x.(T)] is a match on
      the constructor.
    - A Go pointer that may be nil is an [option]; dereferencing nil panics,
      which is modelled by the [Panic] outcome.
    - [time.Time] is an integer instant; [int] and [int64] are [Z].
    - Log output ([log.Printf], [fmt.Printf]) is not part of the model. *)

From Stdlib Require Import Floats ZArith Ascii String.
From stdpp Require Import gmap strings list fin_maps sorting pretty.

Open Scope string_scope.

(* ===================================================================== *)
(** * Part I: the embedding                                               *)
(* ===================================================================== *)

(** ** Dynamically typed values ([interface{}]) *)

#[warnings="-register-all"]
Inductive value : Type :=
  | VNil
  | VBool (b : bool)
  | VFloat (f : float)                  (* float64; every JSON number *)
  | VInt (n : Z)                        (* int, as in [len(results)] *)
  | VString (s : string)
  | VTime (t : Z)                       (* time.Time *)
  | VStrings (l : list string)          (* []string *)
  | VList (l : list value)              (* []interface{}, []map[string]interface{} *)
  | VMap (m : gmap string value).       (* map[string]interface{} *)

(** The double quote character, written by its code. *)
Definition dquote : ascii := "034"%char.

(** ** The parts of Go's [strings] package the sources use *)

Module gostrings.

(** Membership of a byte in a cutset or character set. *)
Fixpoint inb (c : ascii) (cs : string) : bool :=
  match cs with
  | EmptyString => false
  | String d cs' => Ascii.eqb c d || inb c cs'
  end.

Fixpoint HasPrefix (s prefix : string) {struct prefix} : bool :=
  match prefix with
  | EmptyString => true
  | String p prefix' =>
      match s with
      | EmptyString => false
      | String c s' => Ascii.eqb c p && HasPrefix s' prefix'
      end
  end.

Fixpoint Contains (s substr : string) : bool :=
  HasPrefix s substr ||
  match s with
  | EmptyString => false
  | String _ s' => Contains s' substr
  end.

Fixpoint dropn (n : nat) (s : string) : string :=
  match n, s with
  | S n', String _ s' => dropn n' s'
  | _, _ => s
  end.

Fixpoint taken (n : nat) (s : string) : string :=
  match n, s with
  | S n', String c s' => String c (taken n' s')
  | _, _ => EmptyString
  end.

Definition HasSuffix (s suffix : string) : bool :=
  HasPrefix (String.rev s) (String.rev suffix).

Definition TrimSuffix (s suffix : string) : string :=
  if HasSuffix s suffix
  then taken (String.length s - String.length suffix) s
  else s.

Fixpoint TrimLeft (s cutset : string) : string :=
  match s with
  | EmptyString => EmptyString
  | String c s' => if inb c cutset then TrimLeft s' cutset else s
  end.

Fixpoint TrimRight (s cutset : string) : string :=
  match s with
  | EmptyString => EmptyString
  | String c s' =>
      match TrimRight s' cutset with
      | EmptyString => if inb c cutset then EmptyString else String c EmptyString
      | t => String c t
      end
  end.

(** [strings.Trim(s, cutset)]: all leading and trailing bytes of the
    cutset removed. *)
Definition Trim (s cutset : string) : string :=
  TrimRight (TrimLeft s cutset) cutset.

(** [strings.Replace(s, old, new, 1)]: the first occurrence only. *)
Fixpoint Replace1 (s old new : string) : string :=
  if HasPrefix s old then new ++ dropn (String.length old) s
  else match s with
       | EmptyString => EmptyString
       | String c s' => String c (Replace1 s' old new)
       end.

Definition lower (c : ascii) : ascii :=
  let n := nat_of_ascii c in
  if (65 <=? n)%nat && (n <=? 90)%nat then ascii_of_nat (n + 32) else c.

Fixpoint ToLower (s : string) : string :=
  match s with
  | EmptyString => EmptyString
  | String c s' => String (lower c) (ToLower s')
  end.

End gostrings.

(** ** [path/filepath] *)

Module filepath.
Import gostrings.

Fixpoint lastElement (s : string) : string :=
  match s with
  | EmptyString => EmptyString
  | String c s' =>
      if inb "/" s' then lastElement s'
      else if Ascii.eqb c "/" then s' else s
  end.

(** [filepath.Base]: the last element of the path, after trailing
    separators are removed; "." for the empty path and "/" for a path
    of separators only. *)
Definition Base (path : string) : string :=
  if String.eqb path "" then "."
  else match lastElement (TrimRight path "/") with
       | EmptyString => "/"
       | e => e
       end.

Fixpoint fromLastDot (s : string) : string :=
  match s with
  | EmptyString => EmptyString
  | String c s' =>
      if inb "." s' then fromLastDot s'
      else if Ascii.eqb c "." then s else EmptyString
  end.

(** [filepath.Ext]: the suffix beginning at the final dot of the final
    element, empty if there is no dot. *)
Definition Ext (path : string) : string :=
  fromLastDot (lastElement path).

End filepath.

(** ** [net/http] status texts used by the handlers *)

Module http.
Definition StatusOK : Z := 200.
Definition StatusBadRequest : Z := 400.
Definition StatusNotFound : Z := 404.
Definition StatusMethodNotAllowed : Z := 405.

Definition StatusText (code : Z) : string :=
  if (code =? 200)%Z then "OK"
  else if (code =? 400)%Z then "Bad Request"
  else if (code =? 404)%Z then "Not Found"
  else if (code =? 405)%Z then "Method Not Allowed"
  else if (code =? 500)%Z then "Internal Server Error"
  else "".
End http.

(** ** Regular expressions ([regexp])

    The six patterns of the asset processor are sequences of literals,
    single characters from a set, and greedy repetitions of a character
    class, some of them captured.  [run] is the backtracking search that
    defines Go's leftmost-first matching: a repetition first takes as many
    bytes as it can and gives them back one at a time.

    Matching works on bytes.  For these patterns this agrees with Go's
    matching on UTF-8 runes: every literal is ASCII, every class is either
    the complement of a set of ASCII characters (which contains every byte
    of a multi-byte rune) or ASCII white space. *)

Module regexp.
Import gostrings.

Inductive cclass : Type :=
  | NoneOf (cs : string)      (* [^cs] *)
  | Space.                    (* \s = [\t\n\f\r ] *)

Definition accepts (k : cclass) (c : ascii) : bool :=
  match k with
  | NoneOf cs => negb (inb c cs)
  | Space =>
      let n := nat_of_ascii c in
      (n =? 9)%nat || (n =? 10)%nat || (n =? 12)%nat || (n =? 13)%nat || (n =? 32)%nat
  end.

Inductive item : Type :=
  | Lit (l : string)                               (* literal text *)
  | AnyOf (cs : string)                            (* [cs], one byte *)
  | Rep (k : cclass) (min : nat) (capture : bool).  (* k* (min 0), k+ (min 1), in a group or not *)

Definition Regexp : Type := list item.

(** Greedy repetition with backtracking: [cont taken rest] is tried with
    the longest run first. *)
Fixpoint star {R} (acc : ascii → bool) (cont : string → string → option R)
    (taken : string) (s : string) : option R :=
  match s with
  | String c s' =>
      if acc c then
        match star acc cont (taken ++ String c EmptyString) s' with
        | Some r => Some r
        | None => cont taken s
        end
      else cont taken s
  | EmptyString => cont taken s
  end.

(** [run re caps s]: match [re] at the start of [s]; the result is the
    captured groups (appended to [caps]) and the unread rest. *)
Fixpoint run (re : Regexp) (caps : list string) (s : string)
    : option (list string * string) :=
  match re with
  | [] => Some (caps, s)
  | Lit l :: re' =>
      if HasPrefix s l then run re' caps (dropn (String.length l) s) else None
  | AnyOf cs :: re' =>
      match s with
      | String c s' => if inb c cs then run re' caps s' else None
      | EmptyString => None
      end
  | Rep k min capture :: re' =>
      star (accepts k)
        (fun taken rest =>
           if (min <=? String.length taken)%nat
           then run re' (if capture then caps ++ [taken] else caps) rest
           else None)
        EmptyString s
  end.

(** A match at the start of [s]: matched text, groups, rest. *)
Definition matchHere (re : Regexp) (s : string)
    : option (string * list string * string) :=
  match run re [] s with
  | Some (caps, rest) =>
      Some (taken (String.length s - String.length rest) s, caps, rest)
  | None => None
  end.

(** The leftmost match. *)
Fixpoint search (re : Regexp) (s : string) : option (string * list string * string) :=
  match matchHere re s with
  | Some r => Some r
  | None =>
      match s with
      | EmptyString => None
      | String _ s' => search re s'
      end
  end.

(** [re.FindStringSubmatch(s)]: the leftmost match followed by its
    groups, or nil. *)
Definition FindStringSubmatch (re : Regexp) (s : string) : list string :=
  match search re s with
  | Some (whole, caps, _) => whole :: caps
  | None => []
  end.

(** The input cut into successive non-overlapping matches and the bytes
    between them, as [ReplaceAllStringFunc] visits them.  An empty match
    directly after a match is not a match. *)
Inductive piece : Type :=
  | Text (c : ascii)
  | Match (m : string).

Fixpoint pieces (fuel : nat) (re : Regexp) (afterMatch : bool) (s : string) : list piece :=
  match fuel with
  | O => []
  | S fuel' =>
      let skip :=
        match s with
        | EmptyString => []
        | String c s' => Text c :: pieces fuel' re false s'
        end in
      match matchHere re s with
      | Some (EmptyString, _, _) => (if afterMatch then [] else [Match EmptyString]) ++ skip
      | Some (whole, _, rest) => Match whole :: pieces fuel' re true rest
      | None => skip
      end
  end.

Definition allPieces (re : Regexp) (s : string) : list piece :=
  pieces (S (String.length s)) re false s.

End regexp.

(** ** internal/models

    The records [Extension] and [Engines] of package [models], field for
    field; [Engines_] is the field [Engines] of [Extension], which holds
    the target engine version. *)

Module models.

Record Engines : Type := mkEngines {
  VSCode : string
}.

Record Extension : Type := mkExtension {
  ID : string;
  Name : string;
  DisplayName : string;
  Description : string;
  Version : string;
  Publisher : string;
  Engines_ : Engines;
  Categories : list string;
  Tags : list string;
  Icon : string;
  Repository : string;
  Homepage : string;
  Bugs : string;
  License : string;
  FileSize : Z;
  LastUpdated : Z;
  FilePath : string;
  Verified : bool;
  AverageRating : float;
  ReviewCount : Z;
  DownloadCount : Z;
  Namespace : string;
  ExtensionID : string;
  ShortDescription : string;
  PublishedDate : Z;
  ReleaseDate : Z;
  PreRelease : bool;
  Deprecated : bool;
  TargetPlatform : string;
  ReadmeContent : string
}.

End models.

(** A call either returns or panics (a nil pointer dereference). *)
Inductive outcome (A : Type) : Type :=
  | Return (a : A)
  | Panic (msg : string).
Arguments Return {A} a.
Arguments Panic {A} msg.

(** ** The world outside the process: file system and network

    The file system is a set of directories and a map from paths to file
    contents; the network is an oracle answering the n-th request of the
    run; every request made is recorded.  Whether a directory or a file can
    be created at a path (permissions, missing parents) is an oracle too. *)

Record Response : Type := mkResponse {
  StatusCode : Z;
  ContentType : string;        (* the Content-Type header *)
  Body : string;               (* the bytes the body delivers *)
  BodyErr : bool               (* reading the body fails after those bytes *)
}.

Record World : Type := mkWorld {
  files : gmap string string;
  dirs : gset string;
  requests : list string       (* URLs requested so far, oldest first *)
}.

Class Environment : Type := {
  http_Get : nat → string → option Response;   (* None: transport error *)
  mkdir_ok : string → bool;
  create_ok : string → bool;
  rand_uuid : nat → string                      (* the n-th generateUUID *)
}.

(** Library functions that are not part of the repository. *)
Class Platform : Type := {
  (* json.Unmarshal into a map[string]interface{}; None on an error *)
  json_Unmarshal_object : string → option (gmap string value);
  (* json.NewDecoder(body).Decode into a map[string]interface{} *)
  json_Decode_object : string → option (gmap string value);
  (* the entries of a zip archive, in the order of its file table, each
     with its name and its content (None when it cannot be opened or
     read); None when the bytes are no archive *)
  zip_Read : string → option (list (string * option string));
  (* SQLite's [text LIKE pattern] *)
  sql_like : string → string → bool;
  (* url.Parse(u): the Path of the parsed URL, None on a parse error *)
  url_Parse_Path : string → option string;
  (* fmt.Sprintf("%x", md5.Sum([]byte(s))) *)
  md5_hex : string → string;
  filepath_Join : string → string → string;
  (* json.Marshal and json.Unmarshal of []string; a failed Unmarshal
     leaves the zero value *)
  json_Marshal_strings : list string → string;
  json_Unmarshal_strings : string → list string;
  (* the same for models.Engines *)
  json_Marshal_engines : models.Engines → string;
  json_Unmarshal_engines : string → models.Engines
}.

(** Go's [(T, error)] results. *)
Inductive result (A : Type) : Type :=
  | Ok (a : A)
  | Err (e : string).
Arguments Ok {A} a.
Arguments Err {A} e.

(** Computations on the world. *)
Definition IO (A : Type) : Type := World → A * World.

Definition ret {A} (a : A) : IO A := fun w => (a, w).

Definition bind {A B} (c : IO A) (k : A → IO B) : IO B :=
  fun w => let (a, w') := c w in k a w'.

Notation "'let*' x ':=' c 'in' k" := (bind c (fun x => k))
  (at level 10, x name, c at level 200, k at level 200).

Section os.
Context `{Environment}.

(** [client.Get(url)]: the request is recorded whatever its outcome. *)
Definition httpGet (url : string) : IO (option Response) :=
  fun w =>
    (http_Get (length (requests w)) url,
     mkWorld (files w) (dirs w) (requests w ++ [url])).

(** [os.MkdirAll]: fails on a path that is a file. *)
Definition osMkdirAll (path : string) : IO bool :=
  fun w =>
    if mkdir_ok path && negb (bool_decide (is_Some (files w !! path)))
    then (true, mkWorld (files w) (dirs w ∪ {[path]}) (requests w))
    else (false, w).

(** [os.Stat(path)] returned no error. *)
Definition osStat (path : string) : IO bool :=
  fun w =>
    (bool_decide (is_Some (files w !! path)) || bool_decide (path ∈ dirs w), w).

(** [os.Create]: creates or truncates the file; fails on a directory. *)
Definition osCreate (path : string) : IO bool :=
  fun w =>
    if create_ok path && negb (bool_decide (path ∈ dirs w))
    then (true, mkWorld (<[path := ""]> (files w)) (dirs w) (requests w))
    else (false, w).

(** [io.Copy(file, resp.Body)]: the delivered bytes are written even when
    the copy ends in an error. *)
Definition ioCopy (path : string) (resp : Response) : IO bool :=
  fun w =>
    (negb (BodyErr resp),
     mkWorld (<[path := Body resp]> (files w)) (dirs w) (requests w)).
End os.

(** ** internal/extensions: the readme asset processor *)

Module assets.
Import gostrings regexp.

Record AssetProcessor : Type := NewAssetProcessor {
  assetsDir : string;
  baseURL : string
}.

Definition quotes : string := String dquote "'".

(** The patterns are shown with their tokens spaced out and with dq for
    the double quote character.

    Markdown image:   ! \[ ( [^\]]* ) \] \( ( [^)]+ ) \)   *)
Definition mdImage : Regexp :=
  [Lit "!["; Rep (NoneOf "]") 0 true; Lit "]("; Rep (NoneOf ")") 1 true; Lit ")"].

(** Inline image tag:   <img [^>]+ src= [dq'] ( [^dq']+ ) [dq'] [^>]* >   *)
Definition htmlImg : Regexp :=
  [Lit "<img"; Rep (NoneOf ">") 1 false; Lit "src="; AnyOf quotes;
   Rep (NoneOf quotes) 1 true; AnyOf quotes; Rep (NoneOf ">") 0 false; Lit ">"].

(** Markdown image with a title:
    ! \[ ( [^\]]* ) \] \( ( [^)]+ ) \s* dq ( [^dq]* ) dq \)   *)
Definition mdImageTitle : Regexp :=
  [Lit "!["; Rep (NoneOf "]") 0 true; Lit "]("; Rep (NoneOf ")") 1 true;
   Rep Space 0 false; Lit (String dquote ""); Rep (NoneOf (String dquote "")) 0 true;
   Lit (String dquote ""); Lit ")"].

(** Stylesheet link:   <link [^>]+ href= [dq'] ( [^dq']+ ) [dq'] [^>]* >   *)
Definition htmlLink : Regexp :=
  [Lit "<link"; Rep (NoneOf ">") 1 false; Lit "href="; AnyOf quotes;
   Rep (NoneOf quotes) 1 true; AnyOf quotes; Rep (NoneOf ">") 0 false; Lit ">"].

(** Script tag:   <script [^>]+ src= [dq'] ( [^dq']+ ) [dq'] [^>]* >   *)
Definition htmlScript : Regexp :=
  [Lit "<script"; Rep (NoneOf ">") 1 false; Lit "src="; AnyOf quotes;
   Rep (NoneOf quotes) 1 true; AnyOf quotes; Rep (NoneOf ">") 0 false; Lit ">"].

(** Markdown link:   \[ ( [^\]]+ ) \] \( ( [^)]+ ) \)   *)
Definition mdLink : Regexp :=
  [Lit "["; Rep (NoneOf "]") 1 true; Lit "]("; Rep (NoneOf ")") 1 true; Lit ")"].

Definition imagePatterns : list Regexp := [mdImage; htmlImg; mdImageTitle].
Definition otherPatterns : list Regexp := [htmlLink; htmlScript; mdLink].

(** [matches[i]] for an index known to be in range; the guards on
    [len(matches)] precede every use. *)
Definition at_ (matches : list string) (i : nat) : string :=
  default "" (matches !! i).

(** The reference a match carries: [matches[2]] when there are at least
    two groups, else [matches[1]]. *)
Definition reference (matches : list string) : string :=
  if (3 <=? length matches)%nat then at_ matches 2 else at_ matches 1.

Section processor.
Context `{Environment} `{Platform}.

Definition generateFileName (assetURL contentType : string) : string :=
  let fromPath :=
    match url_Parse_Path assetURL with
    | Some path =>
        if negb (String.eqb path "") then
          let fileName := filepath.Base path in
          if negb (String.eqb fileName "") && negb (String.eqb fileName ".")
          then Some fileName else None
        else None
    | None => None
    end in
  match fromPath with
  | Some fileName => fileName
  | None =>
      let hash := md5_hex assetURL in
      let ext :=
        if Contains contentType "image/png" then ".png"
        else if Contains contentType "image/jpeg" then ".jpg"
        else if Contains contentType "image/gif" then ".gif"
        else if Contains contentType "image/svg+xml" then ".svg"
        else if Contains contentType "text/css" then ".css"
        else if Contains contentType "application/javascript" then ".js"
        else ".bin" in
      hash ++ ext
  end.

Definition downloadAsset (assetURL assetsDir : string) : IO (result string) :=
  let* got := httpGet assetURL in
  match got with
  | None => ret (Err "http request error")
  | Some resp =>
      if negb (StatusCode resp =? http.StatusOK)%Z
      then ret (Err "invalid status code")
      else
        let fileName := generateFileName assetURL (ContentType resp) in
        let filePath := filepath_Join assetsDir fileName in
        let* created := osCreate filePath in
        if negb created then ret (Err "file creation error")
        else
          let* copied := ioCopy filePath resp in
          if negb copied then ret (Err "file copy error")
          else ret (Ok fileName)
  end.

Definition localURLOf (ap : AssetProcessor) (extensionID localPath : string) : string :=
  baseURL ap ++ "/_assets/" ++ extensionID ++ "/" ++ filepath.Base localPath.

Definition processImageMatch (ap : AssetProcessor) (match_ : string)
    (pattern : Regexp) (assetsDir extensionID : string) : IO string :=
  let matches := FindStringSubmatch pattern match_ in
  if (length matches <? 2)%nat then ret match_
  else
    let imageURL := reference matches in
    if HasPrefix imageURL "data:" || HasPrefix imageURL "#" then ret match_
    else
      let* r := downloadAsset imageURL assetsDir in
      match r with
      | Err _ => ret match_
      | Ok localPath =>
          let localURL := localURLOf ap extensionID localPath in
          if Contains match_ "![" then
            if (3 <=? length matches)%nat
            then ret ("![" ++ at_ matches 1 ++ "](" ++ localURL ++ ")")
            else ret ("![](" ++ localURL ++ ")")
          else ret (Replace1 match_ imageURL localURL)
      end.

Definition processAssetMatch (ap : AssetProcessor) (match_ : string)
    (pattern : Regexp) (assetsDir extensionID : string) : IO string :=
  let matches := FindStringSubmatch pattern match_ in
  if (length matches <? 2)%nat then ret match_
  else
    let assetURL := reference matches in
    if HasPrefix assetURL "data:" || HasPrefix assetURL "#" || HasPrefix assetURL "http"
    then ret match_
    else
      let* r := downloadAsset assetURL assetsDir in
      match r with
      | Err _ => ret match_
      | Ok localPath =>
          let localURL := localURLOf ap extensionID localPath in
          if Contains match_ "<link" || Contains match_ "<script"
          then ret (Replace1 match_ assetURL localURL)
          else ret ("[" ++ at_ matches 1 ++ "](" ++ localURL ++ ")")
      end.

(** [pattern.ReplaceAllStringFunc(src, repl)]: the callback runs on the
    matches from left to right; the text between them is copied. *)
Fixpoint replacePieces (ps : list piece) (repl : string → IO string) : IO string :=
  match ps with
  | [] => ret ""
  | Text c :: ps' =>
      let* out := replacePieces ps' repl in ret (String c out)
  | Match m :: ps' =>
      let* r := repl m in let* out := replacePieces ps' repl in ret (r ++ out)
  end.

Definition ReplaceAllStringFunc (re : Regexp) (src : string)
    (repl : string → IO string) : IO string :=
  replacePieces (allPieces re src) repl.

(** The loop [for _, pattern := range patterns] of both passes. *)
Fixpoint eachPattern (patterns : list Regexp)
    (f : string → Regexp → IO string) (content : string) : IO string :=
  match patterns with
  | [] => ret content
  | pattern :: rest =>
      let* content' := ReplaceAllStringFunc pattern content (fun m => f m pattern) in
      eachPattern rest f content'
  end.

Definition processImages (ap : AssetProcessor)
    (content assetsDir extensionID : string) : IO string :=
  eachPattern imagePatterns
    (fun m pattern => processImageMatch ap m pattern assetsDir extensionID) content.

Definition processOtherAssets (ap : AssetProcessor)
    (content assetsDir extensionID : string) : IO string :=
  eachPattern otherPatterns
    (fun m pattern => processAssetMatch ap m pattern assetsDir extensionID) content.

Definition ProcessReadme (ap : AssetProcessor)
    (readmeContent extensionID : string) : IO (result string) :=
  if String.eqb readmeContent "" then ret (Ok "")
  else
    let extensionAssetsDir := filepath_Join (assetsDir ap) extensionID in
    let* made := osMkdirAll extensionAssetsDir in
    if negb made then ret (Err "failed to create asset directory")
    else
      let* processedContent := processImages ap readmeContent extensionAssetsDir extensionID in
      let* processedContent := processOtherAssets ap processedContent extensionAssetsDir extensionID in
      ret (Ok processedContent).
End processor.
End assets.

(** ** internal/marketplace: the upstream providers *)

Module marketplace.

Record ExtensionInfo : Type := mkExtensionInfo {
  ID : string;
  Name : string;
  DisplayName : string;
  Description : string;
  Version : string;
  Publisher : string;
  DownloadURL : string;
  FileSize : Z
}.

Record DownloadResult : Type := mkDownloadResult {
  FilePath : string;
  WasDownloaded : bool
}.

(** The two provider structs hold an HTTP client only. *)
Inductive Marketplace : Type := New.
Inductive OpenVSXMarketplace : Type := NewOpenVSX.

(** The [MarketplaceProvider] interface, restricted to the download
    capability. *)
Class MarketplaceProvider (T : Type) : Type := {
  DownloadExtension : T → ExtensionInfo → string → IO (result DownloadResult)
}.

Definition OpenVSXMarketplace_GetName (m : OpenVSXMarketplace) : string :=
  "Open VSX Registry".

Section providers.
Context `{Environment} `{Platform}.

(** [downloadFile] has the same body in both providers. *)
Definition downloadFile (downloadURL filePath : string) : IO (result unit) :=
  let* got := httpGet downloadURL in
  match got with
  | None => ret (Err "request error")
  | Some resp =>
      if negb (StatusCode resp =? http.StatusOK)%Z
      then ret (Err "invalid status code")
      else
        let* created := osCreate filePath in
        if negb created then ret (Err "failed to create file")
        else
          let* copied := ioCopy filePath resp in
          if negb copied then ret (Err "failed to write file")
          else ret (Ok tt)
  end.

Definition Marketplace_downloadFile (m : Marketplace) := downloadFile.
Definition OpenVSXMarketplace_downloadFile (m : OpenVSXMarketplace) := downloadFile.

Definition Marketplace_DownloadExtension (m : Marketplace)
    (info : ExtensionInfo) (targetDir : string) : IO (result DownloadResult) :=
  let* made := osMkdirAll targetDir in
  if negb made then ret (Err "failed to create directory")
  else
    let fileName := Name info ++ "-" ++ Version info ++ ".vsix" in
    let filePath := filepath_Join targetDir fileName in
    let* present := osStat filePath in
    if present then ret (Ok (mkDownloadResult filePath false))
    else
      let* r := Marketplace_downloadFile m (DownloadURL info) filePath in
      match r with
      | Err e => ret (Err e)
      | Ok _ => ret (Ok (mkDownloadResult filePath true))
      end.

Definition OpenVSXMarketplace_DownloadExtension (m : OpenVSXMarketplace)
    (info : ExtensionInfo) (targetDir : string) : IO (result DownloadResult) :=
  let* made := osMkdirAll targetDir in
  if negb made then ret (Err "failed to create directory")
  else
    let fileName := Name info ++ "-" ++ Version info ++ ".vsix" in
    let filePath := filepath_Join targetDir fileName in
    let* present := osStat filePath in
    if present then ret (Ok (mkDownloadResult filePath false))
    else
      let* r := OpenVSXMarketplace_downloadFile m (DownloadURL info) filePath in
      match r with
      | Err e => ret (Err e)
      | Ok _ => ret (Ok (mkDownloadResult filePath true))
      end.

#[global] Instance Marketplace_provider : MarketplaceProvider Marketplace := {
  DownloadExtension := Marketplace_DownloadExtension
}.

#[global] Instance OpenVSX_provider : MarketplaceProvider OpenVSXMarketplace := {
  DownloadExtension := OpenVSXMarketplace_DownloadExtension
}.
End providers.
End marketplace.

(** ** internal/database: the storage layer (the database/sql revision)

    The [extensions] table is the list of its rows in insertion order; [id]
    is its primary key.  [broken] stands for a handle on which every
    statement fails (closed connection, I/O error). *)

Module database.

Record ExtensionDB : Type := mkExtensionDB {
  ID : string;
  Name : string;
  DisplayName : string;
  Description : string;
  Version : string;
  Publisher : string;
  Engines : string;
  Categories : string;
  Tags : string;
  Icon : string;
  Repository : string;
  Homepage : string;
  Bugs : string;
  License : string;
  FileSize : Z;
  LastUpdated : Z;
  FilePath : string;
  CreatedAt : Z;
  UpdatedAt : Z;
  Verified : bool;
  AverageRating : float;
  ReviewCount : Z;
  DownloadCount : Z;
  Namespace : string;
  ExtensionID : string;
  ShortDescription : string;
  PublishedDate : Z;
  ReleaseDate : Z;
  PreRelease : bool;
  Deprecated : bool;
  TargetPlatform : string;
  ReadmeContent : string
}.

Record Database : Type := mkDatabase {
  rows : list ExtensionDB;
  broken : bool
}.

Definition hasID (id : string) (r : ExtensionDB) : bool := String.eqb (ID r) id.

(** Go's [int] arithmetic wraps around at 64 bits. *)
Definition wrap64 (z : Z) : Z := ((z + 2 ^ 63) mod 2 ^ 64 - 2 ^ 63)%Z.

(** [INSERT OR REPLACE INTO extensions (...) VALUES (...)]: the row that
    holds the primary key is deleted and the new row is inserted. *)
Definition UpsertExtension (d : Database) (ext : ExtensionDB)
    : Database * option string :=
  if broken d then (d, Some "sql: statement failed")
  else
    (mkDatabase (filter (fun r => negb (hasID (ID ext) r)) (rows d) ++ [ext]) false,
     None).

(** [SELECT * FROM extensions WHERE id = ?], one row scanned; an absent
    row ([sql.ErrNoRows]) is reported as [(nil, nil)]. *)
Definition GetExtensionByID (d : Database) (id : string)
    : option ExtensionDB * option string :=
  if broken d then (None, Some "sql: statement failed")
  else
    match List.find (hasID id) (rows d) with
    | Some ext => (Some ext, None)
    | None => (None, None)
    end.

(** [ORDER BY last_updated DESC] *)
Definition newerFirst (a b : ExtensionDB) : Prop :=
  (LastUpdated b ≤ LastUpdated a)%Z.

#[global] Instance newerFirst_dec a b : Decision (newerFirst a b).
Proof. unfold newerFirst. apply _. Defined.

(** [LIMIT ? OFFSET ?]: a negative limit is no limit, a negative offset
    is no offset. *)
Definition limitOffset {A} (limit offset : Z) (l : list A) : list A :=
  let l' := drop (Z.to_nat offset) l in
  if (limit <? 0)%Z then l' else take (Z.to_nat limit) l'.

Definition GetAllExtensions (d : Database) (page limit : Z)
    : list ExtensionDB * Z * option string :=
  if broken d then ([], 0%Z, Some "sql: statement failed")
  else
    let total := Z.of_nat (length (rows d)) in
    let offset := wrap64 ((page - 1) * limit) in
    (limitOffset limit offset (merge_sort newerFirst (rows d)), total, None).

Section search.
Context `{Platform}.

Definition matchesSearch (searchPattern : string) (r : ExtensionDB) : bool :=
  sql_like (Name r) searchPattern || sql_like (DisplayName r) searchPattern ||
  sql_like (Description r) searchPattern || sql_like (Publisher r) searchPattern.

Definition SearchExtensions (d : Database) (query : string) (page limit : Z)
    : list ExtensionDB * Z * option string :=
  if broken d then ([], 0%Z, Some "sql: statement failed")
  else
    let searchPattern := "%" ++ query ++ "%" in
    let found := filter (matchesSearch searchPattern) (rows d) in
    let total := Z.of_nat (length found) in
    let offset := wrap64 ((page - 1) * limit) in
    (limitOffset limit offset (merge_sort newerFirst found), total, None).
End search.

Definition DeleteExtension (d : Database) (id : string) : Database * option string :=
  if broken d then (d, Some "sql: statement failed")
  else (mkDatabase (filter (fun r => negb (hasID id r)) (rows d)) false, None).

(** *** The converters *)

Section converter.
Context `{Platform}.

Definition ToDBExtension (ext : models.Extension) : ExtensionDB :=
  {| ID := models.ID ext;
     Name := models.Name ext;
     DisplayName := models.DisplayName ext;
     Description := models.Description ext;
     Version := models.Version ext;
     Publisher := models.Publisher ext;
     Engines := json_Marshal_engines (models.Engines_ ext);
     Categories := json_Marshal_strings (models.Categories ext);
     Tags := json_Marshal_strings (models.Tags ext);
     Icon := models.Icon ext;
     Repository := models.Repository ext;
     Homepage := models.Homepage ext;
     Bugs := models.Bugs ext;
     License := models.License ext;
     FileSize := models.FileSize ext;
     LastUpdated := models.LastUpdated ext;
     FilePath := models.FilePath ext;
     CreatedAt := 0;
     UpdatedAt := 0;
     Verified := models.Verified ext;
     AverageRating := models.AverageRating ext;
     ReviewCount := models.ReviewCount ext;
     DownloadCount := models.DownloadCount ext;
     Namespace := models.Namespace ext;
     ExtensionID := models.ExtensionID ext;
     ShortDescription := models.ShortDescription ext;
     PublishedDate := models.PublishedDate ext;
     ReleaseDate := models.ReleaseDate ext;
     PreRelease := models.PreRelease ext;
     Deprecated := models.Deprecated ext;
     TargetPlatform := models.TargetPlatform ext;
     ReadmeContent := models.ReadmeContent ext |}.

(** The body of [ToExtension] on a record that is there. *)
Definition convert (dbExt : ExtensionDB) : models.Extension :=
  {| models.ID := ID dbExt;
     models.Name := Name dbExt;
     models.DisplayName := DisplayName dbExt;
     models.Description := Description dbExt;
     models.Version := Version dbExt;
     models.Publisher := Publisher dbExt;
     models.Engines_ := json_Unmarshal_engines (Engines dbExt);
     models.Categories := json_Unmarshal_strings (Categories dbExt);
     models.Tags := json_Unmarshal_strings (Tags dbExt);
     models.Icon := Icon dbExt;
     models.Repository := Repository dbExt;
     models.Homepage := Homepage dbExt;
     models.Bugs := Bugs dbExt;
     models.License := License dbExt;
     models.FileSize := FileSize dbExt;
     models.LastUpdated := LastUpdated dbExt;
     models.FilePath := FilePath dbExt;
     models.Verified := Verified dbExt;
     models.AverageRating := AverageRating dbExt;
     models.ReviewCount := ReviewCount dbExt;
     models.DownloadCount := DownloadCount dbExt;
     models.Namespace := Namespace dbExt;
     models.ExtensionID := ExtensionID dbExt;
     models.ShortDescription := ShortDescription dbExt;
     models.PublishedDate := PublishedDate dbExt;
     models.ReleaseDate := ReleaseDate dbExt;
     models.PreRelease := PreRelease dbExt;
     models.Deprecated := Deprecated dbExt;
     models.TargetPlatform := TargetPlatform dbExt;
     models.ReadmeContent := ReadmeContent dbExt |}.

(** [ToExtension(dbExt *ExtensionDB)]: the first statement reads
    [dbExt.Engines], which faults on a nil pointer. *)
Definition ToExtension (dbExt : option ExtensionDB) : outcome models.Extension :=
  match dbExt with
  | None => Panic "invalid memory address or nil pointer dereference"
  | Some r => Return (convert r)
  end.

(** [ToExtensionSlice]: every element is the result of [ToExtension]
    on the address of a record, hence a non-nil pointer. *)
Definition ToExtensionSlice (dbExtensions : list ExtensionDB)
    : list (option models.Extension) :=
  map (fun dbExt => Some (convert dbExt)) dbExtensions.
End converter.

End database.

(** ** internal/extensions: the manager *)

Module extensions.
Import gostrings.

Definition packageJSONPath : string := "extension/package.json".
Definition packageNLSPath : string := "extension/package.nls.json".
Definition maxExtensionsLimit : Z := 10000.
Definition maxSearchLimit : Z := 1000.

Record Manager : Type := mkManager {
  directory : string;
  db : database.Database
}.

Record packageInfo : Type := mkPackageInfo {
  Name : string;
  DisplayName : string;
  Description : string;
  Version : string;
  Publisher : string;
  Engines : models.Engines;
  Categories : list string;
  Keywords : list string;
  Icon : string;
  Repository : value;
  Homepage : string;
  Bugs : value;
  License : string
}.

(** The files of an open archive ([reader.File]). *)
Abbreviation zipFiles := (list (string * option string)).

(** One entry of the localization table: a plain string or an object
    with a string [message]. *)
Definition nlsMessage (v : value) : option string :=
  match v with
  | VString s => Some s
  | VMap m =>
      match m !! "message" with
      | Some (VString msg) => Some msg
      | _ => None
      end
  | _ => None
  end.

(** [nls[key]] of a Go map: the zero value when the key is absent. *)
Definition index (nls : gmap string string) (key : string) : string :=
  default "" (nls !! key).

Definition setDisplayName (pkg : packageInfo) (s : string) : packageInfo :=
  mkPackageInfo (Name pkg) s (Description pkg) (Version pkg) (Publisher pkg)
    (Engines pkg) (Categories pkg) (Keywords pkg) (Icon pkg) (Repository pkg)
    (Homepage pkg) (Bugs pkg) (License pkg).

Definition setDescription (pkg : packageInfo) (s : string) : packageInfo :=
  mkPackageInfo (Name pkg) (DisplayName pkg) s (Version pkg) (Publisher pkg)
    (Engines pkg) (Categories pkg) (Keywords pkg) (Icon pkg) (Repository pkg)
    (Homepage pkg) (Bugs pkg) (License pkg).

Definition replaceLocalizedStrings (pkg : packageInfo) (nls : gmap string string)
    : packageInfo :=
  let pkg1 :=
    let key := Trim (DisplayName pkg) "%" in
    if negb (String.eqb (index nls key) "")
    then setDisplayName pkg (index nls key) else pkg in
  let key := Trim (Description pkg1) "%" in
  if negb (String.eqb (index nls key) "")
  then setDescription pkg1 (index nls key) else pkg1.

Section manager.
Context `{Platform}.

(** The first entry named [packageNLSPath] that opens, reads and parses
    decides; nil when there is none. *)
Fixpoint readNLSData (reader : zipFiles) : option (gmap string string) :=
  match reader with
  | [] => None
  | (name, data) :: rest =>
      if String.eqb name packageNLSPath then
        match data with
        | None => readNLSData rest
        | Some nlsBytes =>
            match json_Unmarshal_object nlsBytes with
            | None => readNLSData rest
            | Some raw => Some (omap nlsMessage raw)
            end
        end
      else readNLSData rest
  end.

Definition processLocalization (reader : zipFiles) (pkg : packageInfo) : packageInfo :=
  if negb (Contains (DisplayName pkg) "%") && negb (Contains (Description pkg) "%")
  then pkg
  else
    match readNLSData reader with
    | None => pkg
    | Some nlsData => replaceLocalizedStrings pkg nlsData
    end.

Definition extractRepository (repo : value) : string :=
  match repo with
  | VString v => v
  | VMap v =>
      match v !! "url" with
      | Some (VString url) => url
      | _ => ""
      end
  | _ => ""
  end.

Definition extractBugs (bugs : value) : string := extractRepository bugs.

(** [createExtension], given what [os.Stat] reported for the package
    file and the readme read from it. *)
Definition createExtension (pkg : packageInfo) (filePath : string)
    (size modTime : Z) (readme : string) : models.Extension :=
  let extID := Publisher pkg ++ "." ++ Name pkg in
  {| models.ID := extID;
     models.Name := Name pkg;
     models.DisplayName := DisplayName pkg;
     models.Description := Description pkg;
     models.Version := Version pkg;
     models.Publisher := Publisher pkg;
     models.Engines_ := Engines pkg;
     models.Categories := Categories pkg;
     models.Tags := Keywords pkg;
     models.Icon := Icon pkg;
     models.Repository := extractRepository (Repository pkg);
     models.Homepage := Homepage pkg;
     models.Bugs := extractBugs (Bugs pkg);
     models.License := License pkg;
     models.FileSize := size;
     models.LastUpdated := modTime;
     models.FilePath := filePath;
     models.Verified := true;
     models.AverageRating := 5%float;
     models.ReviewCount := 100;
     models.DownloadCount := 1000;
     models.Namespace := Publisher pkg;
     models.ExtensionID := extID;
     models.ShortDescription := Description pkg;
     models.PublishedDate := modTime;
     models.ReleaseDate := modTime;
     models.PreRelease := false;
     models.Deprecated := false;
     models.TargetPlatform := "universal";
     models.ReadmeContent := readme |}.

Definition GetAll (m : Manager) : list (option models.Extension) :=
  match database.GetAllExtensions (db m) 1 maxExtensionsLimit with
  | (_, _, Some _) => []
  | (extensions, _, None) => database.ToExtensionSlice extensions
  end.

Definition GetByID (m : Manager) (id : string)
    : outcome (option models.Extension * bool) :=
  match database.GetExtensionByID (db m) id with
  | (_, Some _) => Return (None, false)
  | (dbExt, None) =>
      match database.ToExtension dbExt with
      | Return ext => Return (Some ext, true)
      | Panic msg => Panic msg
      end
  end.

Definition Search (m : Manager) (query : string) : list (option models.Extension) :=
  match database.SearchExtensions (db m) query 1 maxSearchLimit with
  | (_, _, Some _) => []
  | (extensions, _, None) => database.ToExtensionSlice extensions
  end.
End manager.
End extensions.

(** ** internal/server: the gallery handlers *)

Module server.
Import gostrings.

Definition HTTPAPIVersion : string := "application/json;api-version=3.0-preview.1".
Definition contentTypeHeader : string := "Content-Type".
Definition contentDispositionHeader : string := "Content-Disposition".
Definition jsonContentType : string := "application/json".
Definition xmlContentType : string := "application/xml".
Definition markdownContentType : string := "text/markdown".
Definition octetStreamContentType : string := "application/octet-stream".
Definition packageJSONPath : string := "extension/package.json".
Definition vsixManifestPath : string := "extension.vsixmanifest".
Definition readmePaths : string := "extension/README.md".

Record Server : Type := mkServer {
  extManager : extensions.Manager;
  baseURL : string
}.

(** The request as the handlers read it: method, route variables
    ([mux.Vars]) and body. *)
Record Request : Type := mkRequest {
  Method : string;
  Vars : gmap string string;
  RequestBody : string
}.

(** What a handler leaves in the [http.ResponseWriter]. *)
Inductive payload : Type :=
  | JSONBody (v : value)            (* json.NewEncoder(w).Encode(v) *)
  | RawBody (s : string)            (* w.Write *)
  | FileBody (path : string).       (* http.ServeFile *)

Record ResponseWriter : Type := mkResponseWriter {
  status : Z;
  header : gmap string string;
  body : payload
}.

Definition var (vars : gmap string string) (k : string) : string :=
  default "" (vars !! k).

Definition obj (fields : list (string * value)) : value :=
  VMap (list_to_map fields).

Definition writeJSON (hdr : gmap string string) (status : Z) (data : value)
    : ResponseWriter :=
  let contentType := default "" (hdr !! contentTypeHeader) in
  let hdr' :=
    if String.eqb contentType "" || negb (Contains contentType "api-version")
    then <[contentTypeHeader := jsonContentType]> hdr else hdr in
  mkResponseWriter status hdr' (JSONBody data).

Definition writeError (hdr : gmap string string) (status : Z) (message : string)
    : ResponseWriter :=
  let errorResponse :=
    obj [("error", VString (http.StatusText status));
         ("message", VString message);
         ("status", VInt status)] in
  writeJSON hdr status errorResponse.

(** The answer to an OPTIONS request and the empty-body answers. *)
Definition justStatus (status : Z) : ResponseWriter :=
  mkResponseWriter status ∅ (RawBody "").

Definition write (hdr : gmap string string) (s : string) : ResponseWriter :=
  mkResponseWriter http.StatusOK hdr (RawBody s).

(** *** Query decoding (the first part of [handleExtensionQuery]) *)

(** One turn of the loop over the criteria; the state is
    [(searchQuery, extensionId)]. *)
Definition scanCriterion (st : string * string) (criterion : value) : string * string :=
  match criterion with
  | VMap criterionMap =>
      match criterionMap !! "filterType" with
      | Some (VFloat filterType) =>
          if PrimFloat.eqb filterType 10 then
            match criterionMap !! "value" with
            | Some (VString v) => (v, snd st)
            | _ => st
            end
          else if PrimFloat.eqb filterType 4 then
            match criterionMap !! "value" with
            | Some (VString v) => (fst st, v)
            | _ => st
            end
          else st
      | _ => st
      end
  | _ => st
  end.

Definition scanCriteria (criteria : list value) : string * string :=
  foldl scanCriterion ("", "") criteria.

Definition decodeQuery (query : gmap string value) : string * string :=
  match query !! "query" with
  | Some (VString (String c q)) => (String c q, "")
  | _ =>
      match query !! "filters" with
      | Some (VList (VMap filter :: _)) =>
          match filter !! "criteria" with
          | Some (VList criteria) => scanCriteria criteria
          | _ => ("", "")
          end
      | _ => ("", "")
      end
  end.

Section handlers.
Context `{Environment} `{Platform}.

Definition generateUUID (n : nat) : string * nat := (rand_uuid n, S n).

Definition assetBase (s : Server) (ext : models.Extension) : string :=
  baseURL s ++ "/_assets/" ++ models.Publisher ext ++ "/" ++ models.Name ext
    ++ "/" ++ models.Version ext.

Definition galleryBase (s : Server) (ext : models.Extension) : string :=
  baseURL s ++ "/_gallery/" ++ models.Publisher ext ++ "/" ++ models.Name ext
    ++ "/" ++ models.Version ext.

Definition fileEntry (assetType source : string) : value :=
  obj [("assetType", VString assetType); ("source", VString source)].

Definition property (key val : string) : value :=
  obj [("key", VString key); ("value", VString val)].

(** [createExtensionInfo]; [n] counts the UUIDs drawn so far. *)
Definition createExtensionInfo (s : Server) (ext : models.Extension) (n : nat)
    : value * nat :=
  let '(extensionId, n1) :=
    if String.eqb (models.ID ext) "" then generateUUID n else (models.ID ext, n) in
  let '(publicKey, n2) := generateUUID n1 in
  let vsix := filepath.Base (models.FilePath ext) in
  let files0 :=
    [fileEntry "Microsoft.VisualStudio.Code.Manifest"
       (galleryBase s ext ++ "/file/package.json");
     fileEntry "Microsoft.VisualStudio.Services.VSIXPackage"
       (galleryBase s ext ++ "/file/" ++ vsix);
     fileEntry "Microsoft.VisualStudio.Services.VsixManifest"
       (galleryBase s ext ++ "/file/extension.vsixmanifest");
     fileEntry "Microsoft.VisualStudio.Services.VsixSignature"
       (galleryBase s ext ++ "/file/" ++ TrimSuffix vsix ".vsix" ++ ".sigzip");
     fileEntry "Microsoft.VisualStudio.Services.PublicKey"
       (baseURL s ++ "/_gallery/-/public-key/" ++ publicKey)] in
  let files1 :=
    if negb (String.eqb (models.ReadmeContent ext) "")
       || negb (String.eqb (models.Description ext) "")
    then (files0 ++ [fileEntry "Microsoft.VisualStudio.Services.Content.Details"
           (assetBase s ext ++ "/Microsoft.VisualStudio.Services.Content.Details")])%list
    else files0 in
  let files2 :=
    if negb (String.eqb (models.License ext) "")
    then (files1 ++ [fileEntry "Microsoft.VisualStudio.Services.Content.License"
           (assetBase s ext ++ "/file/LICENSE.md")])%list
    else files1 in
  let files3 :=
    if negb (String.eqb (models.Icon ext) "")
    then (files2 ++ [fileEntry "Microsoft.VisualStudio.Services.Icons.Default"
           (assetBase s ext ++ "/file/" ++ filepath.Base (models.Icon ext))])%list
    else files2 in
  let version :=
    obj [("version", VString (models.Version ext));
         ("lastUpdated", VTime (models.LastUpdated ext));
         ("assetUri", VString (assetBase s ext));
         ("fallbackAssetUri", VString (assetBase s ext));
         ("targetPlatform", VString "universal");
         ("files", VList files3);
         ("properties", VList
            [property "Microsoft.VisualStudio.Services.Branding.Color" "";
             property "Microsoft.VisualStudio.Services.Branding.Theme" "";
             property "Microsoft.VisualStudio.Services.Links.Source" (models.Repository ext);
             property "Microsoft.VisualStudio.Code.SponsorLink" "";
             property "Microsoft.VisualStudio.Code.Engine"
               (models.VSCode (models.Engines_ ext));
             property "Microsoft.VisualStudio.Code.ExtensionDependencies" "";
             property "Microsoft.VisualStudio.Code.ExtensionPack" "";
             property "Microsoft.VisualStudio.Code.LocalizedLanguages" "";
             property "Microsoft.VisualStudio.Code.PreRelease" "false"])] in
  let '(publisherId, n3) := generateUUID n2 in
  (obj [("extensionId", VString extensionId);
        ("extensionName", VString (models.Name ext));
        ("displayName", VString (models.DisplayName ext));
        ("shortDescription", VString (models.Description ext));
        ("publisher", obj
           [("displayName", VString (models.Publisher ext));
            ("publisherId", VString publisherId);
            ("publisherName", VString (models.Publisher ext));
            ("domain", VNil);
            ("isDomainVerified", VNil)]);
        ("versions", VList [version]);
        ("statistics", VList
           [obj [("statisticName", VString "install"); ("value", VFloat 0)];
            obj [("statisticName", VString "ratingcount"); ("value", VFloat 0)]]);
        ("tags", VStrings (models.Tags ext));
        ("releaseDate", VTime (models.LastUpdated ext));
        ("publishedDate", VTime (models.LastUpdated ext));
        ("lastUpdated", VTime (models.LastUpdated ext));
        ("categories", VStrings (models.Categories ext));
        ("flags", VString "")],
   n3).

(** The loops [for _, ext := range ...] that append one object for
    every non-nil record. *)
Fixpoint collect (s : Server) (exts : list (option models.Extension)) (n : nat)
    : list value * nat :=
  match exts with
  | [] => ([], n)
  | None :: rest => collect s rest n
  | Some ext :: rest =>
      let '(extensionInfo, n1) := createExtensionInfo s ext n in
      let '(results, n2) := collect s rest n1 in
      (extensionInfo :: results, n2)
  end.

(** The envelope around the results. *)
Definition queryResponse (results : list value) : value :=
  obj [("results", VList
          [obj [("extensions", VList results);
                ("resultMetadata", VList
                   [obj [("metadataType", VString "ResultCount");
                         ("metadataItems", VList
                            [obj [("name", VString "TotalCount");
                                  ("count", VInt (Z.of_nat (length results)))]])]])]])].

Definition handleExtensionQuery (s : Server) (r : Request) (n : nat)
    : outcome ResponseWriter :=
  if String.eqb (Method r) "OPTIONS" then Return (justStatus http.StatusOK)
  else
    match json_Decode_object (RequestBody r) with
    | None => Return (writeError ∅ http.StatusBadRequest "Invalid JSON format")
    | Some query =>
        let '(searchQuery, extensionId) := decodeQuery query in
        let hdr : gmap string string := {[contentTypeHeader := HTTPAPIVersion]} in
        let found : outcome (list value) :=
          if negb (String.eqb extensionId "") then
            match extensions.GetByID (extManager s) extensionId with
            | Panic msg => Panic msg
            | Return (Some ext, true) => Return [fst (createExtensionInfo s ext n)]
            | Return _ => Return []
            end
          else if negb (String.eqb searchQuery "") then
            Return (fst (collect s (extensions.Search (extManager s) searchQuery) n))
          else
            Return (fst (collect s (extensions.GetAll (extManager s)) n)) in
        match found with
        | Panic msg => Panic msg
        | Return results => Return (writeJSON hdr http.StatusOK (queryResponse results))
        end
    end.

(** *** Asset routing *)

Definition extractFileFromVSIX (w : World) (vsixPath filePath : string)
    : result string :=
  match files w !! vsixPath ≫= zip_Read with
  | None => Err "failed to open .vsix file"
  | Some reader =>
      match List.find (fun file => String.eqb (fst file) filePath) reader with
      | Some (_, Some content) => Ok content
      | Some (_, None) => Err "failed to open file"
      | None => Err "file not found in .vsix archive"
      end
  end.

Definition typed (contentType : string) : gmap string string :=
  {[contentTypeHeader := contentType]}.

Definition servePackageJSON (w : World) (ext : models.Extension) : ResponseWriter :=
  match extractFileFromVSIX w (models.FilePath ext) packageJSONPath with
  | Err _ =>
      mkResponseWriter http.StatusOK (typed "application/json")
        (JSONBody (obj
           [("name", VString (models.Name ext));
            ("displayName", VString (models.DisplayName ext));
            ("description", VString (models.Description ext));
            ("version", VString (models.Version ext));
            ("publisher", VString (models.Publisher ext));
            ("engines", obj [("vscode", VString (models.VSCode (models.Engines_ ext)))]);
            ("categories", VStrings (models.Categories ext));
            ("tags", VStrings (models.Tags ext));
            ("icon", VString (models.Icon ext));
            ("repository", VString (models.Repository ext));
            ("homepage", VString (models.Homepage ext));
            ("bugs", VString (models.Bugs ext));
            ("license", VString (models.License ext))]))
  | Ok packageJSON => write (typed "application/json") packageJSON
  end.

Definition serveVSIXFile (ext : models.Extension) : ResponseWriter :=
  let fileName := filepath.Base (models.FilePath ext) in
  mkResponseWriter http.StatusOK
    (<[contentTypeHeader := octetStreamContentType]>
       {[contentDispositionHeader :=
           "attachment; filename=" ++ String dquote fileName ++ String dquote ""]})
    (FileBody (models.FilePath ext)).

Definition nl : string := String "010"%char "".
Definition quoted (s : string) : string := String dquote s ++ String dquote "".

Definition basicManifest (ext : models.Extension) : string :=
  "<?xml version=" ++ quoted "1.0" ++ " encoding=" ++ quoted "utf-8" ++ "?>" ++ nl ++
  "<PackageManifest Version=" ++ quoted "2.0.0" ++ " xmlns="
    ++ quoted "http://schemas.microsoft.com/developer/vsx-schema/2011" ++ ">" ++ nl ++
  "  <Metadata>" ++ nl ++
  "    <Identity Id=" ++ quoted (models.ID ext) ++ " Version=" ++ quoted (models.Version ext)
    ++ " Publisher=" ++ quoted (models.Publisher ext) ++ " Language=" ++ quoted "en-US"
    ++ " />" ++ nl ++
  "    <DisplayName>" ++ models.DisplayName ext ++ "</DisplayName>" ++ nl ++
  "    <Description>" ++ models.Description ext ++ "</Description>" ++ nl ++
  "  </Metadata>" ++ nl ++
  "</PackageManifest>".

Definition serveVSIXManifest (w : World) (ext : models.Extension) : ResponseWriter :=
  match extractFileFromVSIX w (models.FilePath ext) vsixManifestPath with
  | Err _ => write (typed xmlContentType) (basicManifest ext)
  | Ok manifest => write (typed xmlContentType) manifest
  end.

Definition serveEmptySignature : ResponseWriter :=
  write (typed octetStreamContentType) "".

Definition serveEmptyPublicKey : ResponseWriter :=
  write (typed octetStreamContentType) "".

Definition serveREADME (w : World) (ext : models.Extension) : ResponseWriter :=
  if negb (String.eqb (models.ReadmeContent ext) "")
  then write (typed markdownContentType) (models.ReadmeContent ext)
  else
    match extractFileFromVSIX w (models.FilePath ext) readmePaths with
    | Err _ =>
        write (typed markdownContentType)
          ("# " ++ models.DisplayName ext ++ nl ++ nl ++
           "Description for this extension is not available." ++ nl ++ nl ++
           "**Publisher:** " ++ models.Publisher ext ++ nl ++
           "**Version:** " ++ models.Version ext)
    | Ok readme => write (typed markdownContentType) readme
    end.

Definition serveLICENSE (w : World) (ext : models.Extension) : ResponseWriter :=
  match extractFileFromVSIX w (models.FilePath ext) "extension/LICENSE.md" with
  | Err _ =>
      write (typed markdownContentType)
        ("# License" ++ nl ++ nl ++
         "License information for extension **" ++ models.DisplayName ext
           ++ "** is not available." ++ nl ++ nl ++
         "**Publisher:** " ++ models.Publisher ext ++ nl ++
         "**Version:** " ++ models.Version ext)
  | Ok license => write (typed markdownContentType) license
  end.

Definition serveIcon (w : World) (ext : models.Extension) : ResponseWriter :=
  if String.eqb (models.Icon ext) ""
  then write (typed "text/plain")
         ("Icon for extension " ++ models.DisplayName ext ++ " is not available")
  else
    let iconPath := "extension/" ++ models.Icon ext in
    match extractFileFromVSIX w (models.FilePath ext) iconPath with
    | Err _ =>
        write (typed "text/plain")
          ("Icon for extension " ++ models.DisplayName ext ++ " not found")
    | Ok icon =>
        let fileExt := ToLower (filepath.Ext (models.Icon ext)) in
        let mimeType :=
          if String.eqb fileExt ".png" then "image/png"
          else if String.eqb fileExt ".jpg" || String.eqb fileExt ".jpeg" then "image/jpeg"
          else if String.eqb fileExt ".gif" then "image/gif"
          else if String.eqb fileExt ".svg" then "image/svg+xml"
          else "image/png" in
        write (typed mimeType) icon
    end.

(** The table of asset type tokens. *)
Definition serveAsset (w : World) (assetType : string) (ext : models.Extension)
    : ResponseWriter :=
  if String.eqb assetType "Microsoft.VisualStudio.Code.Manifest"
  then servePackageJSON w ext
  else if String.eqb assetType "Microsoft.VisualStudio.Services.VSIXPackage"
  then serveVSIXFile ext
  else if String.eqb assetType "Microsoft.VisualStudio.Services.VsixManifest"
  then serveVSIXManifest w ext
  else if String.eqb assetType "Microsoft.VisualStudio.Services.VsixSignature"
  then serveEmptySignature
  else if String.eqb assetType "Microsoft.VisualStudio.Services.PublicKey"
  then serveEmptyPublicKey
  else if String.eqb assetType "Microsoft.VisualStudio.Services.Content.Details"
  then serveREADME w ext
  else if String.eqb assetType "Microsoft.VisualStudio.Services.Content.License"
  then serveLICENSE w ext
  else if String.eqb assetType "Microsoft.VisualStudio.Services.Icons.Default"
  then serveIcon w ext
  else writeError ∅ http.StatusNotFound "Asset type not supported".

Definition handleVSCodeAsset (s : Server) (w : World) (r : Request)
    : outcome ResponseWriter :=
  if String.eqb (Method r) "OPTIONS" then Return (justStatus http.StatusOK)
  else
    let publisher := var (Vars r) "publisher" in
    let name := var (Vars r) "name" in
    let version := var (Vars r) "version" in
    let assetType := var (Vars r) "assetType" in
    let extensionID := publisher ++ "." ++ name in
    match extensions.GetByID (extManager s) extensionID with
    | Panic msg => Panic msg
    | Return (_, false) =>
        Return (writeError ∅ http.StatusNotFound "Extension not found")
    | Return (None, true) =>
        Panic "invalid memory address or nil pointer dereference"
    | Return (Some ext, true) =>
        if negb (String.eqb (models.Version ext) version)
        then Return (writeError ∅ http.StatusNotFound "Version not found")
        else Return (serveAsset w assetType ext)
    end.
End handlers.
End server.

(** ** Vocabulary of the properties *)

(** A criterion [{filterType, value}] of the query protocol and a query
    body whose first filter holds the given criteria. *)
Definition criterion (filterType : float) (v : value) : value :=
  server.obj [("filterType", VFloat filterType); ("value", v)].

Definition queryOf (criteria : list value) : gmap string value :=
  {[ "filters" := VList [server.obj [("criteria", VList criteria)]] ]}.

(** The string a criterion carries under the filter type [t], if it has
    that type and a string value. *)
Definition tagged (t : float) (c : value) : option string :=
  match c with
  | VMap m =>
      match m !! "filterType", m !! "value" with
      | Some (VFloat f), Some (VString v) => if PrimFloat.eqb f t then Some v else None
      | _, _ => None
      end
  | _ => None
  end.

(** The values found under [t], in the order of the criteria. *)
Definition occurrences (t : float) (criteria : list value) : list string :=
  omap (tagged t) criteria.

(** The top-level [query] field is not a non-empty string. *)
Definition noQueryString (query : gmap string value) : Prop :=
  ∀ c q, query !! "query" ≠ Some (VString (String c q)).



(** Reading the gallery envelope: [results[0].extensions] and the
    [TotalCount] reported in [results[0].resultMetadata]. *)
Definition field (k : string) (v : value) : option value :=
  match v with
  | VMap m => m !! k
  | _ => None
  end.

Definition firstElem (v : value) : option value :=
  match v with
  | VList (x :: _) => Some x
  | _ => None
  end.

(** Following a path of field names and first elements into a value. *)
Inductive step : Type := Field (k : string) | First.

Fixpoint follow (path : list step) (v : value) : option value :=
  match path with
  | [] => Some v
  | Field k :: path' =>
      match field k v with Some v' => follow path' v' | None => None end
  | First :: path' =>
      match firstElem v with Some v' => follow path' v' | None => None end
  end.

Definition responseExtensions (v : value) : option (list value) :=
  match follow [Field "results"; First; Field "extensions"] v with
  | Some (VList exts) => Some exts
  | _ => None
  end.

Definition responseTotalCount (v : value) : option Z :=
  match follow [Field "results"; First; Field "resultMetadata"; First;
                Field "metadataItems"; First] v with
  | Some item =>
      match field "name" item, field "count" item with
      | Some (VString "TotalCount"), Some (VInt n) => Some n
      | _, _ => None
      end
  | None => None
  end.

Section vocabulary.
Context `{Environment} `{Platform}.

(** The gallery extension object built for a stored row (with the UUIDs
    drawn from some point of the random stream). *)
Definition entryOf (s : server.Server) (e : value) (row : database.ExtensionDB) : Prop :=
  ∃ k, e = fst (server.createExtensionInfo s (database.convert row) k).
End vocabulary.

(** ** Sample data *)

Definition sampleRow (publisher name version : string) (updated : Z)
    : database.ExtensionDB :=
  {| database.ID := publisher ++ "." ++ name;
     database.Name := name;
     database.DisplayName := name;
     database.Description := "";
     database.Version := version;
     database.Publisher := publisher;
     database.Engines := "";
     database.Categories := "";
     database.Tags := "";
     database.Icon := "";
     database.Repository := "";
     database.Homepage := "";
     database.Bugs := "";
     database.License := "";
     database.FileSize := 0;
     database.LastUpdated := updated;
     database.FilePath := "extensions/" ++ name ++ "-" ++ version ++ ".vsix";
     database.CreatedAt := 0;
     database.UpdatedAt := 0;
     database.Verified := true;
     database.AverageRating := 5%float;
     database.ReviewCount := 100;
     database.DownloadCount := 1000;
     database.Namespace := publisher;
     database.ExtensionID := publisher ++ "." ++ name;
     database.ShortDescription := "";
     database.PublishedDate := updated;
     database.ReleaseDate := updated;
     database.PreRelease := false;
     database.Deprecated := false;
     database.TargetPlatform := "universal";
     database.ReadmeContent := "" |}.


(** A platform and an environment to evaluate examples in.  The JSON
    texts it knows are the empty object, one query body (written "{id}",
    a query for the identifier no.such under filter type 4) and one
    localization table; the only URL it parses is that of the sample
    image, and nothing can be fetched but that image. *)
Definition sampleTable : gmap string value :=
  {[ "name" := VString "Ext" ]}.

Definition samplePlatform : Platform := {|
  json_Unmarshal_object := fun s =>
    if String.eqb s "{}" then Some ∅
    else if String.eqb s "{name: Ext}" then Some sampleTable
    else None;
  json_Decode_object := fun s =>
    if String.eqb s "{}" then Some ∅
    else if String.eqb s "{id}"
    then Some (queryOf [criterion 4 (VString "no.such")])
    else None;
  zip_Read := fun _ => None;
  sql_like := fun _ _ => false;
  url_Parse_Path := fun u =>
    if String.eqb u "http://x/img.png" then Some "/img.png" else None;
  md5_hex := fun _ => "d41d8cd98f00b204e9800998ecf8427e";
  filepath_Join := fun a b => a ++ "/" ++ b;
  json_Marshal_strings := fun _ => "null";
  json_Unmarshal_strings := fun _ => [];
  json_Marshal_engines := fun e => models.VSCode e;
  json_Unmarshal_engines := fun s => models.mkEngines s
|}.

Definition sampleEnvironment : Environment := {|
  http_Get := fun _ u =>
    if String.eqb u "http://x/img.png"
    then Some (mkResponse 200 "image/png" "PNG" false) else None;
  mkdir_ok := fun _ => true;
  create_ok := fun _ => true;
  rand_uuid := fun _ => "00000000-0000-0000-0000-000000000000"
|}.

Definition emptyWorld : World := mkWorld ∅ ∅ [].

Definition serverOn (rows : list database.ExtensionDB) : server.Server :=
  server.mkServer (extensions.mkManager "extensions" (database.mkDatabase rows false))
    "https://domain:8080".




(** The message the localization table [raw] gives for [key]: its entry
    when that is a plain string, or the [message] of its entry when that
    is an object with a string [message]. *)
Definition tableMessage (raw : gmap string value) (key : string) : option string :=
  match raw !! key with
  | Some (VString s) => Some s
  | Some (VMap m) =>
      match m !! "message" with
      | Some (VString s) => Some s
      | _ => None
      end
  | _ => None
  end.

(** The placeholder for [key]. *)
Definition placeholder (key : string) : string := "%" ++ key ++ "%".

Definition samplePackage (displayName description : string) : extensions.packageInfo :=
  extensions.mkPackageInfo "ext" displayName description "1.0.0" "pub"
    (models.mkEngines "^1.80.0") [] [] "" VNil "" VNil "MIT".


(** The text a list of pieces stands for, and its matches. *)
Fixpoint joinPieces (ps : list regexp.piece) : string :=
  match ps with
  | [] => ""
  | regexp.Text c :: ps' => String c (joinPieces ps')
  | regexp.Match m :: ps' => m ++ joinPieces ps'
  end.

Fixpoint matchesIn (ps : list regexp.piece) : list string :=
  match ps with
  | [] => []
  | regexp.Text _ :: ps' => matchesIn ps'
  | regexp.Match m :: ps' => m :: matchesIn ps'
  end.

(** The references of a content under one pattern: for every match of the
    pattern, the reference the processor reads off it. *)
Definition referencesOf (pattern : regexp.Regexp) (content : string) : list string :=
  map (fun m => assets.reference (regexp.FindStringSubmatch pattern m))
      (matchesIn (regexp.allPieces pattern content)).

(** A data URI or an in-page anchor. *)
Definition isLocalRef (u : string) : bool :=
  gostrings.HasPrefix u "data:" || gostrings.HasPrefix u "#".

(** Every image, link, script and stylesheet reference of the content is a
    data URI or an anchor. *)
Definition onlyLocalRefs (content : string) : bool :=
  forallb (fun pattern => forallb isLocalRef (referencesOf pattern content))
    (assets.imagePatterns ++ assets.otherPatterns).

(** No byte of [s] is in the set [cs]. *)
Fixpoint free (cs : string) (s : string) : bool :=
  match s with
  | EmptyString => true
  | String c s' => negb (gostrings.inb c cs) && free cs s'
  end.


(** The characters of markdown and HTML markup the patterns look for, and
    texts free of them. *)
Definition markupChars : string := "[]()<" ++ String dquote "".

Definition plain (s : string) : bool := free markupChars s.

(** A pattern needs the byte [c] when one of its literals holds it. *)
Definition needs (c : ascii) (re : regexp.Regexp) : bool :=
  existsb (fun it => match it with
                     | regexp.Lit l => gostrings.inb c l
                     | _ => false
                     end) re.


(** The markdown image and markdown link patterns have one shape: an
    opening literal, a captured text without closing bracket of at least
    [min] bytes, the literal between text and reference, a captured
    non-empty reference without closing parenthesis, the closing
    parenthesis. *)
Definition bracketed (open : string) (min : nat) : regexp.Regexp :=
  [regexp.Lit open; regexp.Rep (regexp.NoneOf "]") min true; regexp.Lit "](";
   regexp.Rep (regexp.NoneOf ")") 1 true; regexp.Lit ")"].


(** The URL under which a downloaded asset is served. *)
Definition servedURL (ap : assets.AssetProcessor) (extensionID fileName : string) : string :=
  assets.baseURL ap ++ "/_assets/" ++ extensionID ++ "/" ++ fileName.


(** The world [w'] is reached from [w] by requests of URLs that all
    satisfy [ok], in some number. *)
Definition requestsOnly (ok : string → bool) (w w' : World) : Prop :=
  ∃ new, requests w' = (requests w ++ new)%list ∧ forallb ok new = true.

(** Neither a data URI nor an anchor; and, for the pass over the other
    assets, not an absolute http reference either. *)
Definition remoteRef (u : string) : bool := negb (isLocalRef u).

Definition relativeRef (u : string) : bool :=
  negb (isLocalRef u) && negb (gostrings.HasPrefix u "http").

Section fetch_vocabulary.
Context `{Environment}.

(** No request of the run is answered with status 200. *)
Definition noFetchSucceeds : Prop :=
  ∀ n url, match http_Get n url with
           | Some resp => StatusCode resp ≠ 200%Z
           | None => True
           end.
End fetch_vocabulary.


(** An environment without network: every request fails in transport. *)
Definition offlineEnvironment : Environment := {|
  http_Get := fun _ _ => None;
  mkdir_ok := fun _ => true;
  create_ok := fun _ => true;
  rand_uuid := fun _ => "00000000-0000-0000-0000-000000000000"
|}.


(** An environment whose downloads break off: every request is answered
    with status 200 and the bytes PART, and reading the body fails after
    them. *)
Definition flakyEnvironment : Environment := {|
  http_Get := fun _ _ => Some (mkResponse 200 "application/octet-stream" "PART" true);
  mkdir_ok := fun _ => true;
  create_ok := fun _ => true;
  rand_uuid := fun _ => "00000000-0000-0000-0000-000000000000"
|}.

(** The path at which a provider stores the package of [info]. *)
Definition packagePath `{Platform} (info : marketplace.ExtensionInfo)
    (targetDir : string) : string :=
  filepath_Join targetDir
    (marketplace.Name info ++ "-" ++ marketplace.Version info ++ ".vsix").

Definition sampleInfo : marketplace.ExtensionInfo :=
  marketplace.mkExtensionInfo "pub.ext" "ext" "Ext" "An extension" "1.0.0" "pub"
    "https://upstream/ext.vsix" 0.


(** ** internal/database: the remaining statements *)

Module database_queries.
Import database.

(** [DELETE FROM extensions] *)
Definition DeleteAllExtensions (d : Database) : Database * option string :=
  if broken d then (d, Some "sql: statement failed")
  else (mkDatabase [] false, None).

(** [SELECT * FROM extensions WHERE file_path = ?], one row scanned; an
    absent row is reported as [(nil, nil)]. *)
Definition GetExtensionByFilePath (d : Database) (filePath : string)
    : option ExtensionDB * option string :=
  if broken d then (None, Some "sql: statement failed")
  else
    match List.find (fun r => String.eqb (FilePath r) filePath) (rows d) with
    | Some ext => (Some ext, None)
    | None => (None, None)
    end.

(** [... WHERE publisher = ? ORDER BY last_updated DESC LIMIT ? OFFSET ?] *)
Definition GetExtensionsByPublisher (d : Database) (publisher : string)
    (page limit : Z) : list ExtensionDB * Z * option string :=
  if broken d then ([], 0%Z, Some "sql: statement failed")
  else
    let found := filter (fun r => String.eqb (Publisher r) publisher) (rows d) in
    let total := Z.of_nat (length found) in
    let offset := wrap64 ((page - 1) * limit) in
    (limitOffset limit offset (merge_sort newerFirst found), total, None).

(** [GetStats]: the number of rows, the number of rows of every publisher
    ([GROUP BY publisher], one entry of the map for every group) and the
    number of rows whose categories column is not the empty text. *)
Record Stats : Type := mkStats {
  total_extensions : Z;
  publishers : gmap string Z;
  categories_total : Z
}.

Definition publisherCount (rows : list ExtensionDB) (publisher : string) : Z :=
  Z.of_nat (length (filter (fun r => String.eqb (Publisher r) publisher) rows)).

Definition GetStats (d : Database) : result Stats :=
  if broken d then Err "sql: statement failed"
  else
    let groups := remove_dups (map Publisher (rows d)) in
    Ok {| total_extensions := Z.of_nat (length (rows d));
          publishers :=
            list_to_map (map (fun p => (p, publisherCount (rows d) p)) groups);
          categories_total :=
            Z.of_nat (length (filter (fun r => negb (String.eqb (Categories r) ""))
                                (rows d))) |}.

End database_queries.

(** ** Further library functions and oracles *)

Class Library : Type := {
  (* json.Unmarshal into a packageInfo; None on an error *)
  json_Unmarshal_package : string → option extensions.packageInfo;
  (* fmt.Sscanf(s, "%d", &n): the number stored in n, None when nothing is
     stored *)
  fmt_Sscanf_int : string → option Z;
  (* os.Stat(path).ModTime() *)
  stat_ModTime : string → Z;
  (* http.DetectContentType *)
  http_DetectContentType : string → string
}.

(** ** internal/extensions: the manager, continued *)

Module manager.
Import gostrings.

Definition maxQueryLimit : Z := 100.

Definition readmePaths : list string :=
  ["extension/README.md"; "extension/readme.md"; "extension/README";
   "extension/readme"; "README.md"; "readme.md"; "README"; "readme"].

(** [models.QueryResult] *)
Record QueryResult : Type := mkQueryResult {
  Offset : Z;
  TotalSize : Z;
  Extensions : list models.Extension
}.

(** The first entry named [packageJSONPath] decides. *)
Fixpoint readPackageJSON (reader : extensions.zipFiles) : result string :=
  match reader with
  | [] => Err "package.json not found in .vsix file"
  | (name, data) :: rest =>
      if String.eqb name extensions.packageJSONPath then
        match data with
        | Some packageJSON => Ok packageJSON
        | None => Err "failed to open package.json"
        end
      else readPackageJSON rest
  end.

Definition isReadmeFile (name : string) : bool :=
  let lower := ToLower name in
  Contains lower "readme" &&
  (HasSuffix lower ".md" || HasSuffix lower ".txt" || negb (Contains name ".")).

Definition readFileContent (file : string * option string) : string :=
  default "" (snd file).

(** The loop of [readReadmeFromVSIX] over the files of the open archive:
    the first file that is named by one of the [readmePaths] or that
    [isReadmeFile] accepts is read. *)
Fixpoint readReadme (reader : extensions.zipFiles) : string :=
  match reader with
  | [] => ""
  | file :: rest =>
      if existsb (fun path => String.eqb (fst file) path || isReadmeFile (fst file))
           readmePaths
      then readFileContent file
      else readReadme rest
  end.

(** [applyPagination]: the slice expression [exts[offset:end]] faults on
    a negative offset and on an end before the offset. *)
Definition applyPagination {A} (exts : list A) (offset size : Z) : outcome (list A) :=
  let len := Z.of_nat (length exts) in
  if (len <=? offset)%Z then Return []
  else
    let end0 := database.wrap64 (offset + size) in
    let end_ := if (len <? end0)%Z then len else end0 in
    if (offset <? 0)%Z || (end_ <? offset)%Z
    then Panic "slice bounds out of range"
    else Return (take (Z.to_nat (end_ - offset)) (drop (Z.to_nat offset) exts)).

(** One test of [matchesQuery]: the record is read only when the
    parameter is not empty. *)
Definition mismatch (ext : option models.Extension) (val : string)
    (differs : models.Extension → bool) (otherwise : outcome bool) : outcome bool :=
  if negb (String.eqb val "") then
    match ext with
    | None => Panic "invalid memory address or nil pointer dereference"
    | Some e => if differs e then Return false else otherwise
    end
  else otherwise.

Definition matchesQuery (ext : option models.Extension) (params : gmap string string)
    : outcome bool :=
  let param := extensions.index params in
  mismatch ext (param "namespaceName")
    (fun e => negb (String.eqb (models.Namespace e) (param "namespaceName")))
  (mismatch ext (param "extensionName")
    (fun e => negb (String.eqb (models.Name e) (param "extensionName")))
  (mismatch ext (param "extensionVersion")
    (fun e => negb (String.eqb (models.Version e) (param "extensionVersion")))
  (mismatch ext (param "extensionId")
    (fun e => negb (String.eqb (models.ExtensionID e) (param "extensionId")))
  (mismatch ext (param "targetPlatform")
    (fun e => negb (String.eqb (models.TargetPlatform e) (param "targetPlatform"))
              && negb (String.eqb (models.TargetPlatform e) "universal"))
  (Return true))))).

Fixpoint filterExtensions (exts : list (option models.Extension))
    (params : gmap string string) : outcome (list (option models.Extension)) :=
  match exts with
  | [] => Return []
  | ext :: rest =>
      match matchesQuery ext params with
      | Panic msg => Panic msg
      | Return keep =>
          match filterExtensions rest params with
          | Panic msg => Panic msg
          | Return filtered => Return (if keep then ext :: filtered else filtered)
          end
      end
  end.

(** [toExtensionSlice]: every pointer is dereferenced. *)
Fixpoint toExtensionSlice (extensions : list (option models.Extension))
    : outcome (list models.Extension) :=
  match extensions with
  | [] => Return []
  | None :: _ => Panic "invalid memory address or nil pointer dereference"
  | Some ext :: rest =>
      match toExtensionSlice rest with
      | Panic msg => Panic msg
      | Return result => Return (ext :: result)
      end
  end.

Definition GetExtensionsDir (m : extensions.Manager) : string :=
  extensions.directory m.

Section manager.
Context `{Platform} `{Library}.

Definition parsePackageJSON (packageJSON : string) : result extensions.packageInfo :=
  match json_Unmarshal_package packageJSON with
  | Some pkg => Ok pkg
  | None => Err "failed to parse package.json"
  end.

Definition readReadmeFromVSIX (w : World) (filePath : string) : string :=
  match files w !! filePath ≫= zip_Read with
  | None => ""
  | Some reader => readReadme reader
  end.

(** [ReadExtensionInfo]; the size that [os.Stat] reports is the number of
    bytes of the file. *)
Definition ReadExtensionInfo (w : World) (filePath : string)
    : result models.Extension :=
  match files w !! filePath ≫= zip_Read with
  | None => Err "failed to open .vsix file"
  | Some reader =>
      match readPackageJSON reader with
      | Err e => Err e
      | Ok packageJSON =>
          match parsePackageJSON packageJSON with
          | Err e => Err e
          | Ok pkg =>
              let pkg' := extensions.processLocalization reader pkg in
              match files w !! filePath with
              | None => Err "failed to stat file"
              | Some bytes =>
                  Ok (extensions.createExtension pkg' filePath
                        (Z.of_nat (String.length bytes)) (stat_ModTime filePath)
                        (readReadmeFromVSIX w filePath))
              end
          end
      end
  end.

(** [GetFile] reads [dbExt.FilePath] without a nil check. *)
Definition GetFile (m : extensions.Manager) (id : string) : outcome (string * bool) :=
  match database.GetExtensionByID (extensions.db m) id with
  | (_, Some _) => Return ("", false)
  | (None, None) => Panic "invalid memory address or nil pointer dereference"
  | (Some dbExt, None) => Return (database.FilePath dbExt, true)
  end.

Definition GetByNamespace (m : extensions.Manager) (namespace : string)
    : list (option models.Extension) :=
  match database_queries.GetExtensionsByPublisher (extensions.db m) namespace 1
          extensions.maxSearchLimit with
  | (_, _, Some _) => []
  | (exts, _, None) => database.ToExtensionSlice exts
  end.

Definition GetByNamespaceAndName (m : extensions.Manager) (namespace name : string)
    : outcome (option models.Extension * bool) :=
  extensions.GetByID m (namespace ++ "." ++ name).

Definition getPaginationParams (params : gmap string string) : Z * Z :=
  let offset := default 0%Z (fmt_Sscanf_int (extensions.index params "offset")) in
  let size := default maxQueryLimit (fmt_Sscanf_int (extensions.index params "size")) in
  (offset, if (maxQueryLimit <? size)%Z then maxQueryLimit else size).

Definition QueryExtensions (m : extensions.Manager) (params : gmap string string)
    : outcome QueryResult :=
  let all := extensions.GetAll m in
  match filterExtensions all params with
  | Panic msg => Panic msg
  | Return filtered =>
      let '(offset, size) := getPaginationParams params in
      match applyPagination filtered offset size with
      | Panic msg => Panic msg
      | Return paged =>
          match toExtensionSlice paged with
          | Panic msg => Panic msg
          | Return exts =>
              Return {| Offset := offset;
                        TotalSize := Z.of_nat (length filtered);
                        Extensions := exts |}
          end
      end
  end.
End manager.
End manager.

(** ** cmd: the download command after the package is in place *)

Module download.

(** The fields of [config.Config] that the command reads. *)
Record Config : Type := mkConfig {
  ExtensionsDir : string;
  AssetsDir : string;
  BaseURL : string
}.

Definition extractExtensionID (filePath : string) : string := "".

Section download.
Context `{Environment} `{Platform} `{Library}.

(** [processReadmeAssets] replaces the readme of [ext] when the processor
    succeeds; the record as it is afterwards is returned with the error. *)
Definition processReadmeAssets (ext : models.Extension) (config : Config)
    : IO (models.Extension * option string) :=
  if String.eqb (models.ReadmeContent ext) "" then ret (ext, None)
  else
    let assetProcessor := assets.NewAssetProcessor (AssetsDir config) (BaseURL config) in
    let* r := assets.ProcessReadme assetProcessor (models.ReadmeContent ext)
                (models.ID ext) in
    match r with
    | Err e => ret (ext, Some e)
    | Ok processedReadme =>
        ret ({| models.ID := models.ID ext;
                models.Name := models.Name ext;
                models.DisplayName := models.DisplayName ext;
                models.Description := models.Description ext;
                models.Version := models.Version ext;
                models.Publisher := models.Publisher ext;
                models.Engines_ := models.Engines_ ext;
                models.Categories := models.Categories ext;
                models.Tags := models.Tags ext;
                models.Icon := models.Icon ext;
                models.Repository := models.Repository ext;
                models.Homepage := models.Homepage ext;
                models.Bugs := models.Bugs ext;
                models.License := models.License ext;
                models.FileSize := models.FileSize ext;
                models.LastUpdated := models.LastUpdated ext;
                models.FilePath := models.FilePath ext;
                models.Verified := models.Verified ext;
                models.AverageRating := models.AverageRating ext;
                models.ReviewCount := models.ReviewCount ext;
                models.DownloadCount := models.DownloadCount ext;
                models.Namespace := models.Namespace ext;
                models.ExtensionID := models.ExtensionID ext;
                models.ShortDescription := models.ShortDescription ext;
                models.PublishedDate := models.PublishedDate ext;
                models.ReleaseDate := models.ReleaseDate ext;
                models.PreRelease := models.PreRelease ext;
                models.Deprecated := models.Deprecated ext;
                models.TargetPlatform := models.TargetPlatform ext;
                models.ReadmeContent := processedReadme |}, None)
    end.

(** [addExtensionToDatabase]: the error, the manager with its database
    as it is afterwards, and the world. *)
Definition addExtensionToDatabase (filePath : string) (extManager : extensions.Manager)
    (config : Config) (w : World) : option string * extensions.Manager * World :=
  match manager.ReadExtensionInfo w filePath with
  | Err e => (Some "error reading extension information", extManager, w)
  | Ok ext =>
      let '((ext', _), w') := processReadmeAssets ext config w in
      let dbExt := database.ToDBExtension ext' in
      match database.UpsertExtension (extensions.db extManager) dbExt with
      | (d, Some e) =>
          (Some "error saving extension to database",
           extensions.mkManager (extensions.directory extManager) d, w')
      | (d, None) =>
          (None, extensions.mkManager (extensions.directory extManager) d, w')
      end
  end.

Definition processNewDownload (result : marketplace.DownloadResult)
    (extManager : extensions.Manager) (config : Config) (w : World)
    : option string * extensions.Manager * World :=
  addExtensionToDatabase (marketplace.FilePath result) extManager config w.

Definition processExistingFile (result : marketplace.DownloadResult)
    (extManager : extensions.Manager) (config : Config) (w : World)
    : outcome (option string * extensions.Manager * World) :=
  let extensionID := extractExtensionID (marketplace.FilePath result) in
  match extensions.GetByID extManager extensionID with
  | Panic msg => Panic msg
  | Return (_, false) =>
      Return (addExtensionToDatabase (marketplace.FilePath result) extManager config w)
  | Return (None, true) => Panic "invalid memory address or nil pointer dereference"
  | Return (Some existingExt, true) => Return (None, extManager, w)
  end.

Definition processDownloadResult (result : marketplace.DownloadResult)
    (extManager : extensions.Manager) (config : Config) (w : World)
    : outcome (option string * extensions.Manager * World) :=
  if marketplace.WasDownloaded result
  then Return (processNewDownload result extManager config w)
  else processExistingFile result extManager config w.
End download.
End download.

(** ** internal/server: the remaining handlers and the middleware *)

Module server_routes.
Import gostrings server.

(** [http.StatusNoContent] *)
Definition StatusNoContent : Z := 204.

Definition corsHeaders : gmap string string :=
  <["Strict-Transport-Security" := "max-age=31536000 ; includeSubDomains"]>
  (<["X-Frame-Options" := "DENY"]>
  (<["X-XSS-Protection" := "0"]>
  (<["X-Content-Type-Options" := "nosniff"]>
  (<["Expires" := "0"]>
  (<["Pragma" := "no-cache"]>
  (<["Cache-Control" := "no-cache, no-store, max-age=0, must-revalidate"]>
  (<["Access-Control-Max-Age" := "86400"]>
  (<["Access-Control-Allow-Credentials" := "true"]>
  (<["Access-Control-Allow-Headers" :=
       "Content-Type,Authorization,Accept,X-Requested-With,X-Market-Client-Id,X-Market-User-Id,X-Client-Commit,X-Client-Name,X-Client-Version,X-Machine-Id,VSCode-SessionId,accept"]>
  (<["Access-Control-Allow-Methods" := "OPTIONS,GET,POST,PATCH,PUT,DELETE"]>
  (<["Access-Control-Allow-Origin" := "*"]> ∅))))))))))).

(** What a handler of the router has done with a request: it has written
    the answer itself, or it has set headers and then called
    [http.ServeFile(w, r, name)], which decides the status (200 for a plain
    request of a regular file, a redirect for a URL path that ends in
    /index.html or for a directory, 206 or 304 for a range or a
    conditional request, an error when the file cannot be opened) and
    writes the rest. *)
Inductive handled : Type :=
  | Answered (w : ResponseWriter)
  | ServeFile (header : gmap string string) (name : string).

(** The headers that the handler has set. *)
Definition headersOf (h : handled) : gmap string string :=
  match h with
  | Answered w => header w
  | ServeFile hdr _ => hdr
  end.

(** [corsMiddleware]: the headers are set in the writer before the
    handler runs, so a header the handler sets replaces the one of the
    middleware, and the others stay. *)
Definition corsMiddleware (next : Request → outcome handled) (r : Request)
    : outcome handled :=
  if String.eqb (Method r) "OPTIONS"
  then Return (Answered (mkResponseWriter StatusNoContent corsHeaders (RawBody "")))
  else
    match next r with
    | Panic msg => Panic msg
    | Return (Answered w) =>
        Return (Answered (mkResponseWriter (status w) (header w ∪ corsHeaders) (body w)))
    | Return (ServeFile hdr name) => Return (ServeFile (hdr ∪ corsHeaders) name)
    end.

Definition handleRoot (r : Request) : ResponseWriter :=
  if String.eqb (Method r) "OPTIONS" then justStatus http.StatusOK
  else
    writeJSON ∅ http.StatusOK
      (obj [("name", VString "LittleVSX");
            ("description", VString "Local marketplace for Visual Studio Code");
            ("version", VString "1.0.0");
            ("endpoints", obj [("vscode", VString "/_apis/public/gallery/extensionquery")])]).

Definition handleNotFound (r : Request) : ResponseWriter :=
  if String.eqb (Method r) "OPTIONS" then justStatus http.StatusOK
  else writeError ∅ http.StatusNotFound "Page not found".

Definition handleMethodNotAllowed (r : Request) : ResponseWriter :=
  if String.eqb (Method r) "OPTIONS" then justStatus http.StatusOK
  else writeError ∅ http.StatusMethodNotAllowed "Method not supported".

Section assets.
Context `{Environment} `{Platform} `{Library}.

(** [detectContentType(filePath)]: the first 512 bytes of the file are
    sniffed; a path that cannot be opened or read gives the octet stream
    type. *)
Definition detectContentType (w : World) (filePath : string) : string :=
  match files w !! filePath with
  | None => "application/octet-stream"
  | Some content =>
      let buffer := taken 512 content in
      let contentType := http_DetectContentType buffer in
      if Contains buffer "<?xml" || Contains buffer "<svg"
      then "image/svg+xml; charset=utf-8"
      else contentType
  end.

(** The content type that [handleExtensionAssets] chooses. *)
Definition assetContentType (w : World) (filename filePath : string) : string :=
  let fileExt := ToLower (filepath.Ext filename) in
  if String.eqb fileExt ".png" then "image/png"
  else if String.eqb fileExt ".jpg" || String.eqb fileExt ".jpeg" then "image/jpeg"
  else if String.eqb fileExt ".gif" then "image/gif"
  else if String.eqb fileExt ".svg" then "image/svg+xml; charset=utf-8"
  else if String.eqb fileExt ".css" then "text/css; charset=utf-8"
  else if String.eqb fileExt ".js" then "application/javascript; charset=utf-8"
  else if String.eqb fileExt ".html" then "text/html; charset=utf-8"
  else if String.eqb fileExt ".ico" then "image/x-icon"
  else if String.eqb fileExt ".webp" then "image/webp"
  else detectContentType w filePath.

(** [handleExtensionAssets]; [filepath.Join] of three elements is the
    join of the first two with the third.  A file that [os.Stat] does not
    report as missing is left to [http.ServeFile]. *)
Definition handleExtensionAssets (s : Server) (w : World) (r : Request) : handled :=
  let extensionID := var (Vars r) "extensionID" in
  let filename := var (Vars r) "filename" in
  if String.eqb extensionID "" || String.eqb filename ""
  then Answered (writeError ∅ http.StatusBadRequest "Invalid request parameters")
  else
    let assetsDir :=
      filepath_Join
        (filepath_Join (manager.GetExtensionsDir (extManager s)) "assets")
        extensionID in
    let filePath := filepath_Join assetsDir filename in
    if negb (fst (osStat filePath w))
    then Answered (writeError ∅ http.StatusNotFound "Asset not found")
    else
      ServeFile
        (<["Cache-Control" := "public, max-age=300"]>
           {[contentTypeHeader := assetContentType w filename filePath]})
        filePath.
End assets.
End server_routes.

(** ** internal/utils: file utilities *)

Module utils.
Import gostrings.

Definition OctetStreamContentType : string := "application/octet-stream".

(** [data[i]], which faults beyond the end of the slice. *)
Definition at_ (data : string) (i : nat) : outcome ascii :=
  match String.get i data with
  | Some b => Return b
  | None => Panic "index out of range"
  end.

(** [data[i] == b] *)
Definition is_ (data : string) (i : nat) (b : ascii) : outcome bool :=
  match at_ data i with
  | Return c => Return (Ascii.eqb c b)
  | Panic msg => Panic msg
  end.

(** [a && b]: the right operand is evaluated only when the left one is
    true. *)
Definition and_ (a b : outcome bool) : outcome bool :=
  match a with
  | Return true => b
  | _ => a
  end.

Definition isText (data : string) : bool :=
  forallb (fun b =>
             let n := nat_of_ascii b in
             negb ((n <? 32)%nat && negb (n =? 9)%nat && negb (n =? 10)%nat
                   && negb (n =? 13)%nat))
    (list_ascii_of_string data).

Definition textOrBinary (data : string) : string :=
  if isText data then "text/plain; charset=utf-8" else OctetStreamContentType.

Definition detectContentType (data : string) : outcome string :=
  if (String.length data =? 0)%nat then Return OctetStreamContentType
  else if (2 <=? String.length data)%nat then
    match and_ (is_ data 0 "255") (is_ data 1 "216") with
    | Panic msg => Panic msg
    | Return true => Return "image/jpeg"
    | Return false =>
        match and_ (and_ (and_ (is_ data 0 "137") (is_ data 1 "080"))
                      (is_ data 2 "078")) (is_ data 3 "071") with
        | Panic msg => Panic msg
        | Return true => Return "image/png"
        | Return false =>
            match and_ (and_ (is_ data 0 "071") (is_ data 1 "073"))
                    (is_ data 2 "070") with
            | Panic msg => Panic msg
            | Return true => Return "image/gif"
            | Return false => Return (textOrBinary data)
            end
        end
    end
  else Return (textOrBinary data).

Definition GetMimeTypeByExtension (filename : string) : string :=
  let fileExt := ToLower (filepath.Ext filename) in
  if String.eqb fileExt ".png" then "image/png"
  else if String.eqb fileExt ".jpg" || String.eqb fileExt ".jpeg" then "image/jpeg"
  else if String.eqb fileExt ".gif" then "image/gif"
  else if String.eqb fileExt ".svg" then "image/svg+xml; charset=utf-8"
  else if String.eqb fileExt ".css" then "text/css; charset=utf-8"
  else if String.eqb fileExt ".js" then "application/javascript; charset=utf-8"
  else if String.eqb fileExt ".html" then "text/html; charset=utf-8"
  else if String.eqb fileExt ".ico" then "image/x-icon"
  else if String.eqb fileExt ".webp" then "image/webp"
  else OctetStreamContentType.

Definition IsVSIXFile (filePath : string) : bool :=
  HasSuffix (ToLower filePath) ".vsix".

Definition GetFileName (filePath : string) : string := filepath.Base filePath.

Section files.
Context `{Environment} `{Platform}.

Definition FileExists (w : World) (filePath : string) : bool :=
  fst (osStat filePath w).

Definition EnsureDirectory (dirPath : string) : IO bool :=
  fun w => if negb (fst (osStat dirPath w)) then osMkdirAll dirPath w else (true, w).

(** [FileUtils.DetectContentType]: the first 512 bytes of the file. *)
Definition DetectContentType (w : World) (filePath : string) : outcome string :=
  match files w !! filePath with
  | None => Return OctetStreamContentType
  | Some content =>
      let buffer := taken 512 content in
      match detectContentType buffer with
      | Panic msg => Panic msg
      | Return contentType =>
          if Contains buffer "<?xml" || Contains buffer "<svg"
          then Return "image/svg+xml; charset=utf-8"
          else Return contentType
      end
  end.

Definition ExtractFileFromVSIX (w : World) (vsixPath filePath : string)
    : result string :=
  match files w !! vsixPath ≫= zip_Read with
  | None => Err "failed to open .vsix file"
  | Some reader =>
      match List.find (fun file => String.eqb (fst file) filePath) reader with
      | Some (_, Some content) => Ok content
      | Some (_, None) => Err "failed to open file"
      | None => Err "file not found in .vsix archive"
      end
  end.
End files.
End utils.

(** ** Vocabulary of the further properties *)

(** The tables that the writing statements produce from the empty table;
    the handle may fail or recover at any time. *)
Inductive reachable : database.Database → Prop :=
  | reach_empty : reachable (database.mkDatabase [] false)
  | reach_handle d b : reachable d → reachable (database.mkDatabase (database.rows d) b)
  | reach_upsert d ext : reachable d → reachable (fst (database.UpsertExtension d ext))
  | reach_delete d id : reachable d → reachable (fst (database.DeleteExtension d id))
  | reach_clear d : reachable d → reachable (fst (database_queries.DeleteAllExtensions d)).

(** The identifiers of the rows, in the order of the rows. *)
Definition ids (d : database.Database) : list string :=
  map database.ID (database.rows d).



(** The three fields that the converters store as JSON text survive the
    way through [json.Marshal] and [json.Unmarshal]. *)
Definition roundTrips `{Platform} (ext : models.Extension) : Prop :=
  json_Unmarshal_engines (json_Marshal_engines (models.Engines_ ext))
  = models.Engines_ ext ∧
  json_Unmarshal_strings (json_Marshal_strings (models.Categories ext))
  = models.Categories ext ∧
  json_Unmarshal_strings (json_Marshal_strings (models.Tags ext))
  = models.Tags ext.

Definition sampleExtension : models.Extension :=
  {| models.ID := "pub.ext";
     models.Name := "ext";
     models.DisplayName := "Ext";
     models.Description := "An extension";
     models.Version := "1.0.0";
     models.Publisher := "pub";
     models.Engines_ := models.mkEngines "^1.80.0";
     models.Categories := [];
     models.Tags := [];
     models.Icon := "";
     models.Repository := "";
     models.Homepage := "";
     models.Bugs := "";
     models.License := "MIT";
     models.FileSize := 4;
     models.LastUpdated := 7;
     models.FilePath := "extensions/ext-1.0.0.vsix";
     models.Verified := true;
     models.AverageRating := 5%float;
     models.ReviewCount := 100;
     models.DownloadCount := 1000;
     models.Namespace := "pub";
     models.ExtensionID := "pub.ext";
     models.ShortDescription := "An extension";
     models.PublishedDate := 7;
     models.ReleaseDate := 7;
     models.PreRelease := false;
     models.Deprecated := false;
     models.TargetPlatform := "universal";
     models.ReadmeContent := "" |}.

(** A sample of the further library functions: [offset] and [size] texts
    of digits are scanned for the two numbers below only. *)
Definition sampleLibrary : Library := {|
  json_Unmarshal_package := fun s =>
    if String.eqb s "{ext}" then Some (samplePackage "Ext" "An extension") else None;
  fmt_Sscanf_int := fun s =>
    if String.eqb s "1" then Some 1%Z
    else if String.eqb s "-1" then Some (-1)%Z
    else None;
  stat_ModTime := fun _ => 7%Z;
  http_DetectContentType := fun _ => "text/plain; charset=utf-8"
|}.

(** A platform that reads the bytes ZIP as an archive holding a manifest
    and two readme files. *)
Definition archivePlatform : Platform := {|
  json_Unmarshal_object := fun _ => None;
  json_Decode_object := fun _ => None;
  zip_Read := fun bytes =>
    if String.eqb bytes "ZIP!"
    then Some [("extension/node_modules/dep/README.md", Some "dependency");
               ("extension/package.json", Some "{ext}");
               ("extension/README.md", Some "the readme")]
    else None;
  sql_like := fun _ _ => false;
  url_Parse_Path := fun _ => None;
  md5_hex := fun _ => "d41d8cd98f00b204e9800998ecf8427e";
  filepath_Join := fun a b => a ++ "/" ++ b;
  json_Marshal_strings := fun _ => "null";
  json_Unmarshal_strings := fun _ => [];
  json_Marshal_engines := fun e => models.VSCode e;
  json_Unmarshal_engines := fun s => models.mkEngines s
|}.

(** The record with another readme, as the assignment to
    [ext.ReadmeContent] leaves it. *)
Definition sameBut (ext ext' : models.Extension) : Prop :=
  models.ID ext' = models.ID ext ∧
  models.Name ext' = models.Name ext ∧
  models.Version ext' = models.Version ext ∧
  models.Publisher ext' = models.Publisher ext ∧
  models.Engines_ ext' = models.Engines_ ext ∧
  models.Categories ext' = models.Categories ext ∧
  models.Tags ext' = models.Tags ext ∧
  models.FilePath ext' = models.FilePath ext.


(** What the manifest says apart from the two texts that localization
    may replace. *)
Definition untranslated (pkg : extensions.packageInfo) :=
  (extensions.Name pkg, extensions.Version pkg, extensions.Publisher pkg,
   extensions.Engines pkg, extensions.Categories pkg, extensions.Keywords pkg,
   extensions.Icon pkg, extensions.Repository pkg, extensions.Homepage pkg,
   extensions.Bugs pkg, extensions.License pkg).

(** The record passes the filters of [params]. *)
Definition accepted (params : gmap string string) (ext : models.Extension) : bool :=
  match manager.matchesQuery (Some ext) params with
  | Return keep => keep
  | Panic _ => false
  end.

(** The content of the first entry of the archive whose name
    [isReadmeFile] accepts. *)
Definition firstReadme (reader : extensions.zipFiles) : string :=
  match List.find (fun file => manager.isReadmeFile (fst file)) reader with
  | Some file => manager.readFileContent file
  | None => ""
  end.


(** The asset type tokens that [handleVSCodeAsset] serves. *)
Definition knownAssetTypes : list string :=
  ["Microsoft.VisualStudio.Code.Manifest";
   "Microsoft.VisualStudio.Services.VSIXPackage";
   "Microsoft.VisualStudio.Services.VsixManifest";
   "Microsoft.VisualStudio.Services.VsixSignature";
   "Microsoft.VisualStudio.Services.PublicKey";
   "Microsoft.VisualStudio.Services.Content.Details";
   "Microsoft.VisualStudio.Services.Content.License";
   "Microsoft.VisualStudio.Services.Icons.Default"].

(** The request for an asset of a record, as the router hands it to
    [handleVSCodeAsset]. *)
Definition assetRequest (publisher name version assetType : string) : server.Request :=
  server.mkRequest "GET"
    (<["publisher" := publisher]> (<["name" := name]> (<["version" := version]>
       {[ "assetType" := assetType ]}))) "".



(** A platform that decodes two query bodies, both with the identifier
    pub.a, one of them with a search text besides. *)
Definition queryPlatform : Platform := {|
  json_Unmarshal_object := fun _ => None;
  json_Decode_object := fun s =>
    if String.eqb s "{id}" then Some (queryOf [criterion 4 (VString "pub.a")])
    else if String.eqb s "{id,search}"
    then Some (queryOf [criterion 10 (VString "python"); criterion 4 (VString "pub.a")])
    else if String.eqb s "{search}"
    then Some (queryOf [criterion 10 (VString "python")])
    else None;
  zip_Read := fun _ => None;
  sql_like := fun text pattern => gostrings.Contains ("%" ++ text ++ "%") pattern;
  url_Parse_Path := fun _ => None;
  md5_hex := fun _ => "d41d8cd98f00b204e9800998ecf8427e";
  filepath_Join := fun a b => a ++ "/" ++ b;
  json_Marshal_strings := fun _ => "null";
  json_Unmarshal_strings := fun _ => [];
  json_Marshal_engines := fun e => models.VSCode e;
  json_Unmarshal_engines := fun s => models.mkEngines s
|}.


(** The three inputs that start like a PNG or GIF signature and end
    before the last byte it compares. *)
Definition truncatedSignatures : list string :=
  [String "137" "P"; String "137" "PN"; "GI"].


(** An environment whose upstream is unavailable: every request is
    answered with status 503. *)
Definition unavailableEnvironment : Environment := {|
  http_Get := fun _ _ => Some (mkResponse 503 "text/plain" "unavailable" false);
  mkdir_ok := fun _ => true;
  create_ok := fun _ => true;
  rand_uuid := fun _ => "00000000-0000-0000-0000-000000000000"
|}.


(* ===================================================================== *)
(** * Part II: properties                                                 *)
(* ===================================================================== *)

(** ** Floats *)

Lemma float_eqb_10_4 (f : float) :
  PrimFloat.eqb f 10 = true → PrimFloat.eqb f 4 = false.
Proof.
  rewrite !FloatAxioms.eqb_spec.
  change (Prim2SF 10) with (S754_finite false 5629499534213120 (-49)).
  change (Prim2SF 4) with (S754_finite false 4503599627370496 (-50)).
  unfold SFeqb, SFcompare.
  destruct (Prim2SF f) as [s| s | |s m e]; try discriminate.
  - destruct s; discriminate.
  - destruct s; try discriminate.
    destruct (Z.compare_spec e (-49)) as [-> | |]; try discriminate.
    reflexivity.
Qed.

(** ** C1: decoding the criteria *)

Lemma scanCriterion_spec (st : string * string) (c : value) :
  server.scanCriterion st c =
    (default (fst st) (tagged 10 c), default (snd st) (tagged 4 c)).
Proof.
  destruct st as [sq id]. unfold server.scanCriterion, tagged.
  destruct c as [| | | | | | | |m]; try reflexivity.
  destruct (m !! "filterType") as [[| |f| | | | | |]|]; try reflexivity.
  destruct (PrimFloat.eqb f 10) eqn:E10.
  - rewrite (float_eqb_10_4 f E10).
    destruct (m !! "value") as [[| | | |v| | | |]|]; reflexivity.
  - destruct (PrimFloat.eqb f 4);
      destruct (m !! "value") as [[| | | |v| | | |]|]; reflexivity.
Qed.

Lemma foldl_scanCriterion (criteria : list value) (st : string * string) :
  foldl server.scanCriterion st criteria =
    (default (fst st) (last (occurrences 10 criteria)),
     default (snd st) (last (occurrences 4 criteria))).
Proof.
  revert st. induction criteria as [|c cs IH]; intros [sq id]; simpl.
  - reflexivity.
  - rewrite IH, scanCriterion_spec. unfold occurrences. simpl.
    destruct (tagged 10 c) as [v|], (tagged 4 c) as [v'|]; simpl;
      repeat match goal with
      | |- context [last (?x :: ?l)] =>
          rewrite (last_cons x l); destruct (last l)
      end; reflexivity.
Qed.

Lemma decodeQuery_scan (query filter : gmap string value) (rest criteria : list value) :
  noQueryString query →
  query !! "filters" = Some (VList (VMap filter :: rest)) →
  filter !! "criteria" = Some (VList criteria) →
  server.decodeQuery query = server.scanCriteria criteria.
Proof.
  intros Hq Hf Hc. unfold server.decodeQuery. rewrite Hf, Hc.
  destruct (query !! "query") as [[| | | |[|c q]| | | |]|] eqn:E; try reflexivity.
  exfalso. exact (Hq c q E).
Qed.

(** C1 (as stated, refuted): with two criteria of filter type 10 and two of
    filter type 4 in the first filter, the first occurrences are "first"
    and "pub.a", yet the decoded search string and identifier are those of
    the last occurrences. *)
Lemma C1_first_occurrence_does_not_win :
  let criteria :=
    [criterion 10 (VString "first"); criterion 4 (VString "pub.a");
     criterion 10 (VString "second"); criterion 4 (VString "pub.b")] in
  head (occurrences 10 criteria) = Some "first" ∧
  head (occurrences 4 criteria) = Some "pub.a" ∧
  server.decodeQuery (queryOf criteria) = ("second", "pub.b").
Proof. vm_compute. repeat split. Qed.

(** C1 (amended): when the body has no non-empty top-level query string and
    its first filter is an object with a criteria list, the decoded search
    string is the string value of the last criterion of filter type 10 and
    the decoded identifier that of the last criterion of filter type 4
    (empty when there is none). *)
Theorem C1_last_occurrence_wins
    (query filter : gmap string value) (rest criteria : list value) :
  noQueryString query →
  query !! "filters" = Some (VList (VMap filter :: rest)) →
  filter !! "criteria" = Some (VList criteria) →
  server.decodeQuery query =
    (default "" (last (occurrences 10 criteria)),
     default "" (last (occurrences 4 criteria))).
Proof.
  intros Hq Hf Hc.
  rewrite (decodeQuery_scan query filter rest criteria Hq Hf Hc).
  unfold server.scanCriteria. apply foldl_scanCriterion.
Qed.

Lemma C1_last_occurrence_wins_witness :
  server.decodeQuery
    (queryOf [criterion 10 (VString "first"); criterion 10 (VString "second")])
  = (default "" (last (occurrences 10
       [criterion 10 (VString "first"); criterion 10 (VString "second")])),
     default "" (last (occurrences 4
       [criterion 10 (VString "first"); criterion 10 (VString "second")]))).
Proof.
  apply (C1_last_occurrence_wins _
           (list_to_map [("criteria",
              VList [criterion 10 (VString "first"); criterion 10 (VString "second")])])
           []).
  - intros c q. vm_compute. discriminate.
  - reflexivity.
  - reflexivity.
Defined.

(** ** C2: one record per identifier *)

Lemma filter_hasID_excluded (id : string) (l : list database.ExtensionDB) :
  filter (database.hasID id)
    (filter (fun r => negb (database.hasID id r)) l) = [].
Proof.
  induction l as [|r l IH]; [reflexivity|].
  rewrite (filter_cons (λ r, negb (database.hasID id r))).
  case_decide as Hr; [|exact IH].
  rewrite filter_cons. case_decide as Hr'; [|exact IH].
  destruct (database.hasID id r); simpl in *; contradiction.
Qed.

Lemma filter_excluded_idemp (id : string) (l : list database.ExtensionDB) :
  filter (fun r => negb (database.hasID id r))
    (filter (fun r => negb (database.hasID id r)) l)
  = filter (fun r => negb (database.hasID id r)) l.
Proof.
  induction l as [|r l IH]; [reflexivity|].
  rewrite (filter_cons _ r l). case_decide as Hr; [|exact IH].
  rewrite filter_cons. case_decide; [|contradiction]. by rewrite IH.
Qed.

Lemma find_hasID_excluded (id : string) (l : list database.ExtensionDB) :
  List.find (database.hasID id)
    (filter (fun r => negb (database.hasID id r)) l) = None.
Proof.
  induction l as [|r l IH]; [reflexivity|].
  rewrite filter_cons. case_decide as Hr; [|exact IH].
  simpl. destruct (database.hasID id r); simpl in *; [contradiction|exact IH].
Qed.

Lemma find_app_none {A} (p : A → bool) (l1 l2 : list A) :
  List.find p l1 = None → List.find p (l1 ++ l2) = List.find p l2.
Proof.
  induction l1 as [|x l1 IH]; simpl; [reflexivity|].
  destruct (p x); [discriminate|exact IH].
Qed.

(** C2: on a working store, ingesting a record leaves exactly one row
    under its identifier, which is the ingested record itself, field for
    field; that row is what a lookup of the identifier returns; the rows
    under other identifiers are the same as before, in the same order.
    This holds whether or not the identifier was present before. *)
Theorem C2_upsert_replaces (d : database.Database) (ext : database.ExtensionDB) :
  database.broken d = false →
  let d' := fst (database.UpsertExtension d ext) in
  snd (database.UpsertExtension d ext) = None ∧
  filter (database.hasID (database.ID ext)) (database.rows d') = [ext] ∧
  database.GetExtensionByID d' (database.ID ext) = (Some ext, None) ∧
  filter (fun r => negb (database.hasID (database.ID ext) r)) (database.rows d')
  = filter (fun r => negb (database.hasID (database.ID ext) r)) (database.rows d).
Proof.
  intros Hok. unfold database.UpsertExtension, database.GetExtensionByID.
  rewrite Hok. simpl.
  assert (Hself : database.hasID (database.ID ext) ext = true)
    by apply String.eqb_refl.
  repeat split.
  - rewrite filter_app, filter_hasID_excluded. simpl.
    rewrite filter_cons. case_decide as Hx; [reflexivity|].
    rewrite Hself in Hx. simpl in Hx. contradiction.
  - rewrite find_app_none by apply find_hasID_excluded.
    simpl. by rewrite Hself.
  - rewrite filter_app, filter_excluded_idemp.
    rewrite (filter_cons _ ext []). case_decide as Hx.
    + rewrite Hself in Hx. simpl in Hx. contradiction.
    + by rewrite filter_nil, app_nil_r.
Qed.

Lemma C2_upsert_replaces_witness :
  let d := database.mkDatabase
             [sampleRow "pub" "ext" "1.0.0" 1; sampleRow "pub" "other" "0.1.0" 2] false in
  let ext := sampleRow "pub" "ext" "2.0.0" 3 in
  let d' := fst (database.UpsertExtension d ext) in
  snd (database.UpsertExtension d ext) = None ∧
  filter (database.hasID (database.ID ext)) (database.rows d') = [ext] ∧
  database.GetExtensionByID d' (database.ID ext) = (Some ext, None) ∧
  filter (fun r => negb (database.hasID (database.ID ext) r)) (database.rows d')
  = filter (fun r => negb (database.hasID (database.ID ext) r)) (database.rows d).
Proof.
  intros d ext. apply (C2_upsert_replaces d ext). reflexivity.
Defined.

(** ** C10: looking up an identifier *)

Section lookup.
Context `{Platform}.

Lemma GetByID_present (m : extensions.Manager) (id : string) (row : database.ExtensionDB) :
  database.broken (extensions.db m) = false →
  List.find (database.hasID id) (database.rows (extensions.db m)) = Some row →
  extensions.GetByID m id = Return (Some (database.convert row), true).
Proof.
  intros Hok Hrow. unfold extensions.GetByID, database.GetExtensionByID.
  by rewrite Hok, Hrow.
Qed.

Lemma GetByID_absent (m : extensions.Manager) (id : string) :
  database.broken (extensions.db m) = false →
  List.find (database.hasID id) (database.rows (extensions.db m)) = None →
  extensions.GetByID m id
  = Panic "invalid memory address or nil pointer dereference".
Proof.
  intros Hok Hrow. unfold extensions.GetByID, database.GetExtensionByID.
  by rewrite Hok, Hrow.
Qed.

Lemma GetByID_broken (m : extensions.Manager) (id : string) :
  database.broken (extensions.db m) = true →
  extensions.GetByID m id = Return (None, false).
Proof.
  intros Hbad. unfold extensions.GetByID, database.GetExtensionByID.
  by rewrite Hbad.
Qed.

(** C10 (the code at the failing input): on a working store that holds
    no row under [id], the storage layer answers [(nil, nil)] and
    [GetByID] does not return [(nil, false)]: it faults in
    [ToExtension]. *)
Theorem C10_GetByID_faults_on_absent_row (m : extensions.Manager) (id : string) :
  database.broken (extensions.db m) = false →
  List.find (database.hasID id) (database.rows (extensions.db m)) = None →
  database.GetExtensionByID (extensions.db m) id = (None, None) ∧
  extensions.GetByID m id ≠ Return (None, false) ∧
  extensions.GetByID m id
  = Panic "invalid memory address or nil pointer dereference".
Proof.
  intros Hok Hrow. rewrite (GetByID_absent m id Hok Hrow).
  split; [|split; [discriminate|reflexivity]].
  unfold database.GetExtensionByID. by rewrite Hok, Hrow.
Qed.
End lookup.


(** ** The gallery handlers: C5, C4, C3 *)






Lemma writeJSON_api_version (v : value) :
  server.writeJSON {[ server.contentTypeHeader := server.HTTPAPIVersion ]} http.StatusOK v
  = server.mkResponseWriter 200
      {[ "Content-Type" := "application/json;api-version=3.0-preview.1" ]}
      (server.JSONBody v).
Proof. reflexivity. Qed.

Section gallery.
Context `{Environment} `{Platform}.



End gallery.

Section gallery_claims.
Context `{Environment} `{Platform}.


(** C4 (the code on both halves of the claim): a POST query whose first
    filter carries the identifier [id] under filter type 4 is answered,
    when a record is stored under [id], with status 200 and exactly one
    extension object, built from that record; when no record is stored
    under [id], the handler does not answer with an empty result: it
    faults inside [GetByID]. *)
Theorem C4_identifier_query (s : server.Server) (r : server.Request) (n : nat)
    (query filter : gmap string value) (rest criteria : list value) (id : string) :
  server.Method r = "POST" →
  json_Decode_object (server.RequestBody r) = Some query →
  noQueryString query →
  query !! "filters" = Some (VList (VMap filter :: rest)) →
  filter !! "criteria" = Some (VList criteria) →
  last (occurrences 4 criteria) = Some id →
  id ≠ "" →
  database.broken (extensions.db (server.extManager s)) = false →
  let stored := database.rows (extensions.db (server.extManager s)) in
  (∀ row, List.find (database.hasID id) stored = Some row →
     ∃ e, entryOf s e row ∧
       server.handleExtensionQuery s r n
       = Return (server.mkResponseWriter 200
                   {[ "Content-Type" := "application/json;api-version=3.0-preview.1" ]}
                   (server.JSONBody (server.queryResponse [e]))) ∧
       responseExtensions (server.queryResponse [e]) = Some [e] ∧
       responseTotalCount (server.queryResponse [e]) = Some 1%Z) ∧
  (List.find (database.hasID id) stored = None →
     server.handleExtensionQuery s r n
     = Panic "invalid memory address or nil pointer dereference").
Proof.
  intros Hm Hbody Hq Hf Hc Hid Hne Hok stored.
  assert (Hdec : server.decodeQuery query
                 = (default "" (last (occurrences 10 criteria)), id)).
  { rewrite (decodeQuery_scan query filter rest criteria Hq Hf Hc).
  unfold server.scanCriteria. rewrite foldl_scanCriterion. by rewrite Hid. }
  apply String.eqb_neq in Hne.
  split.
  - intros row Hrow.
    exists (fst (server.createExtensionInfo s (database.convert row) n)).
    split; [by exists n|]. split; [|split; reflexivity].
    unfold server.handleExtensionQuery. rewrite Hm, Hbody, Hdec. simpl String.eqb.
    cbv iota. rewrite Hne. simpl negb. cbv iota.
    rewrite (GetByID_present _ id row Hok Hrow).
    by rewrite writeJSON_api_version.
  - intros Hrow.
    unfold server.handleExtensionQuery. rewrite Hm, Hbody, Hdec. simpl String.eqb.
    cbv iota. rewrite Hne. simpl negb. cbv iota.
    by rewrite (GetByID_absent _ id Hok Hrow).
Qed.

(** C5: for a stored record, a GET request for any asset type under the
    record's publisher and name with a version that differs from the
    record's version is answered with status 404 and the error envelope
    [{error, message, status}], status being 404; the envelope is the
    whole body, no asset content is written. *)
Theorem C5_version_mismatch_not_found (s : server.Server) (w : World)
    (r : server.Request) (row : database.ExtensionDB) :
  server.Method r = "GET" →
  database.broken (extensions.db (server.extManager s)) = false →
  List.find
    (database.hasID
       (server.var (server.Vars r) "publisher" ++ "." ++ server.var (server.Vars r) "name"))
    (database.rows (extensions.db (server.extManager s))) = Some row →
  database.Version row ≠ server.var (server.Vars r) "version" →
  server.handleVSCodeAsset s w r
  = Return (server.mkResponseWriter 404
              {[ "Content-Type" := "application/json" ]}
              (server.JSONBody
                 (server.obj [("error", VString "Not Found");
                              ("message", VString "Version not found");
                              ("status", VInt 404)]))).
Proof.
  intros Hm Hok Hrow Hver. unfold server.handleVSCodeAsset.
  rewrite Hm. simpl String.eqb. cbv iota.
  rewrite (GetByID_present _ _ row Hok Hrow). simpl models.Version.
  apply String.eqb_neq in Hver. rewrite Hver. reflexivity.
Qed.
End gallery_claims.

(** ** The handlers at sample inputs *)




Section examples.
#[local] Existing Instance samplePlatform.
#[local] Existing Instance sampleEnvironment.

Lemma C10_GetByID_faults_on_absent_row_witness :
  let m := extensions.mkManager "extensions" (database.mkDatabase [] false) in
  database.GetExtensionByID (extensions.db m) "no.such" = (None, None) ∧
  extensions.GetByID m "no.such" ≠ Return (None, false) ∧
  extensions.GetByID m "no.such"
  = Panic "invalid memory address or nil pointer dereference".
Proof.
  intros m. apply (C10_GetByID_faults_on_absent_row m "no.such"); reflexivity.
Defined.



Lemma C5_version_mismatch_not_found_witness :
  server.handleVSCodeAsset
    (serverOn [sampleRow "pub" "ext" "2.0.0" 1]) emptyWorld
    (server.mkRequest "GET"
       (list_to_map [("publisher", "pub"); ("name", "ext"); ("version", "1.0.0");
                     ("assetType", "Microsoft.VisualStudio.Services.VSIXPackage")])
       "")
  = Return (server.mkResponseWriter 404
              {[ "Content-Type" := "application/json" ]}
              (server.JSONBody
                 (server.obj [("error", VString "Not Found");
                              ("message", VString "Version not found");
                              ("status", VInt 404)]))).
Proof.
  apply (C5_version_mismatch_not_found _ _ _ (sampleRow "pub" "ext" "2.0.0" 1)).
  - reflexivity.
  - reflexivity.
  - reflexivity.
  - vm_compute. discriminate.
Defined.

Lemma C4_identifier_query_witness :
  let s := serverOn [sampleRow "pub" "ext" "1.0.0" 1] in
  let r := server.mkRequest "POST" ∅ "{id}" in
  let stored := database.rows (extensions.db (server.extManager s)) in
  (∀ row, List.find (database.hasID "no.such") stored = Some row →
     ∃ e, entryOf s e row ∧
       server.handleExtensionQuery s r 0
       = Return (server.mkResponseWriter 200
                   {[ "Content-Type" := "application/json;api-version=3.0-preview.1" ]}
                   (server.JSONBody (server.queryResponse [e]))) ∧
       responseExtensions (server.queryResponse [e]) = Some [e] ∧
       responseTotalCount (server.queryResponse [e]) = Some 1%Z) ∧
  (List.find (database.hasID "no.such") stored = None →
     server.handleExtensionQuery s r 0
     = Panic "invalid memory address or nil pointer dereference").
Proof.
  intros s r.
  apply (C4_identifier_query s r 0
           (queryOf [criterion 4 (VString "no.such")])
           (list_to_map [("criteria", VList [criterion 4 (VString "no.such")])])
           [] [criterion 4 (VString "no.such")] "no.such").
  - reflexivity.
  - reflexivity.
  - intros c q. vm_compute. discriminate.
  - reflexivity.
  - reflexivity.
  - reflexivity.
  - discriminate.
  - reflexivity.
Defined.
End examples.

(** ** C9: fetching a package twice *)

Lemma union_singleton_absorb (d : gset string) (p : string) :
  d ∪ {[p]} ∪ {[p]} = d ∪ {[p]}.
Proof. by rewrite <- (assoc_L (∪)), (idemp_L (∪) {[p]}). Qed.

Section fetch.
Context `{Environment} `{Platform}.


End fetch.

(** ** C6: localization of the manifest *)

Lemma TrimRight_percent (s : string) :
  gostrings.TrimRight (s ++ "%") "%" = gostrings.TrimRight s "%".
Proof.
  induction s as [|c s IH]; [reflexivity|].
  simpl. rewrite IH. reflexivity.
Qed.

Lemma Trim_percent_right (s : string) :
  gostrings.Trim (s ++ "%") "%" = gostrings.Trim s "%".
Proof.
  unfold gostrings.Trim. induction s as [|c s IH]; [reflexivity|].
  simpl. destruct (Ascii.eqb c "%" || false); [exact IH|].
  exact (TrimRight_percent (String c s)).
Qed.

Lemma Trim_placeholder (key : string) :
  gostrings.Trim (placeholder key) "%" = gostrings.Trim key "%".
Proof. exact (Trim_percent_right key). Qed.

Lemma Contains_placeholder (key : string) :
  gostrings.Contains (placeholder key) "%" = true.
Proof. unfold placeholder. simpl. reflexivity. Qed.

Section localization.
Context `{Platform}.

Lemma readNLSData_first (before after : extensions.zipFiles) (nlsBytes : string)
    (raw : gmap string value) :
  Forall (fun file => fst file ≠ extensions.packageNLSPath) before →
  json_Unmarshal_object nlsBytes = Some raw →
  extensions.readNLSData (before ++ (extensions.packageNLSPath, Some nlsBytes) :: after)
  = Some (omap extensions.nlsMessage raw).
Proof.
  intros Hbefore Hraw. induction Hbefore as [|[name data] l Hname _ IH]; simpl.
  - by rewrite Hraw.
  - simpl in Hname. apply String.eqb_neq in Hname. by rewrite Hname.
Qed.

Lemma index_omap (raw : gmap string value) (key : string) :
  extensions.index (omap extensions.nlsMessage raw) key
  = default "" (tableMessage raw key).
Proof.
  unfold extensions.index, tableMessage. rewrite lookup_omap.
  destruct (raw !! key) as [[| | | | | | | |m]|]; reflexivity.
Qed.

Lemma replaceLocalizedStrings_DisplayName (pkg : extensions.packageInfo)
    (nls : gmap string string) :
  extensions.DisplayName (extensions.replaceLocalizedStrings pkg nls)
  = (let m := extensions.index nls (gostrings.Trim (extensions.DisplayName pkg) "%") in
     if String.eqb m "" then extensions.DisplayName pkg else m).
Proof.
  unfold extensions.replaceLocalizedStrings.
  destruct (String.eqb (extensions.index nls
              (gostrings.Trim (extensions.DisplayName pkg) "%")) ""); simpl;
    repeat case_match; reflexivity.
Qed.

Lemma replaceLocalizedStrings_Description (pkg : extensions.packageInfo)
    (nls : gmap string string) :
  extensions.Description (extensions.replaceLocalizedStrings pkg nls)
  = (let m := extensions.index nls (gostrings.Trim (extensions.Description pkg) "%") in
     if String.eqb m "" then extensions.Description pkg else m).
Proof.
  unfold extensions.replaceLocalizedStrings.
  destruct (String.eqb (extensions.index nls
              (gostrings.Trim (extensions.DisplayName pkg) "%")) ""); simpl;
    destruct (String.eqb (extensions.index nls
              (gostrings.Trim (extensions.Description pkg) "%")) ""); reflexivity.
Qed.

(** C6 (amended): let the archive hold a localization table, its first
    entry named extension/package.nls.json, that reads and parses to [raw].
    For a displayName or description that consists of a placeholder only,
    percent sign, key, percent sign: if [raw] gives a non-empty message for
    the trimmed key (as a plain string or as the message of an object), the
    field becomes that message; if [raw] has no entry for the trimmed key,
    the field keeps the placeholder. *)
Theorem C6_whole_field_placeholder (before after : extensions.zipFiles)
    (nlsBytes : string) (raw : gmap string value) (pkg : extensions.packageInfo) :
  Forall (fun file => fst file ≠ extensions.packageNLSPath) before →
  json_Unmarshal_object nlsBytes = Some raw →
  let reader := (before ++ (extensions.packageNLSPath, Some nlsBytes) :: after)%list in
  let pkg' := extensions.processLocalization reader pkg in
  (∀ key, extensions.DisplayName pkg = placeholder key →
     (∀ msg, tableMessage raw (gostrings.Trim key "%") = Some msg → msg ≠ "" →
        extensions.DisplayName pkg' = msg) ∧
     (raw !! gostrings.Trim key "%" = None →
        extensions.DisplayName pkg' = placeholder key)) ∧
  (∀ key, extensions.Description pkg = placeholder key →
     (∀ msg, tableMessage raw (gostrings.Trim key "%") = Some msg → msg ≠ "" →
        extensions.Description pkg' = msg) ∧
     (raw !! gostrings.Trim key "%" = None →
        extensions.Description pkg' = placeholder key)).
Proof.
  intros Hbefore Hraw reader pkg'.
  assert (Hload : extensions.readNLSData reader = Some (omap extensions.nlsMessage raw))
    by exact (readNLSData_first before after nlsBytes raw Hbefore Hraw).
  split; intros key Hfield.
  - assert (Hpkg' : pkg' = extensions.replaceLocalizedStrings pkg
                              (omap extensions.nlsMessage raw)).
    { unfold pkg', extensions.processLocalization.
      rewrite Hfield, Contains_placeholder, Hload. reflexivity. }
    rewrite Hpkg', replaceLocalizedStrings_DisplayName, Hfield, Trim_placeholder,
      index_omap. simpl. split.
    + intros msg -> Hne. simpl. apply String.eqb_neq in Hne. by rewrite Hne.
    + intros Hnone. unfold tableMessage. rewrite Hnone. reflexivity.
  - assert (Hpkg' : pkg' = extensions.replaceLocalizedStrings pkg
                              (omap extensions.nlsMessage raw)).
    { unfold pkg', extensions.processLocalization.
      rewrite Hfield, Contains_placeholder, Hload.
      by rewrite andb_false_r. }
    rewrite Hpkg', replaceLocalizedStrings_Description, Hfield, Trim_placeholder,
      index_omap. simpl. split.
    + intros msg -> Hne. simpl. apply String.eqb_neq in Hne. by rewrite Hne.
    + intros Hnone. unfold tableMessage. rewrite Hnone. reflexivity.
Qed.
End localization.

Section localization_examples.
#[local] Existing Instance samplePlatform.

(** C6 (as stated, refuted): the display name contains the placeholder
    for the key name inside other text, and the table maps name to the
    message Ext; the field is left as it is, the placeholder is not
    substituted. *)
Lemma C6_embedded_placeholder_not_substituted :
  let reader := [(extensions.packageNLSPath, Some "{name: Ext}")] in
  let pkg := samplePackage "My %name%" "" in
  extensions.DisplayName pkg = "My " ++ placeholder "name" ∧
  json_Unmarshal_object "{name: Ext}" = Some sampleTable ∧
  tableMessage sampleTable (gostrings.Trim "name" "%") = Some "Ext" ∧
  extensions.DisplayName (extensions.processLocalization reader pkg) = "My %name%" ∧
  extensions.DisplayName (extensions.processLocalization reader pkg) ≠ "My Ext".
Proof. vm_compute. repeat split; discriminate. Qed.

Lemma C6_whole_field_placeholder_witness :
  let reader := ([] ++ [(extensions.packageNLSPath, Some "{name: Ext}")])%list in
  let pkg := samplePackage "%name%" "%description%" in
  let pkg' := extensions.processLocalization reader pkg in
  (∀ key, extensions.DisplayName pkg = placeholder key →
     (∀ msg, tableMessage sampleTable (gostrings.Trim key "%") = Some msg → msg ≠ "" →
        extensions.DisplayName pkg' = msg) ∧
     (sampleTable !! gostrings.Trim key "%" = None →
        extensions.DisplayName pkg' = placeholder key)) ∧
  (∀ key, extensions.Description pkg = placeholder key →
     (∀ msg, tableMessage sampleTable (gostrings.Trim key "%") = Some msg → msg ≠ "" →
        extensions.Description pkg' = msg) ∧
     (sampleTable !! gostrings.Trim key "%" = None →
        extensions.Description pkg' = placeholder key)).
Proof.
  apply (C6_whole_field_placeholder [] [] "{name: Ext}" sampleTable
           (samplePackage "%name%" "%description%")).
  - constructor.
  - reflexivity.
Defined.

(** The witness evaluated: the display name is replaced by the message,
    the description, whose key has no entry, keeps its placeholder. *)
Example localization_sample :
  let pkg' := extensions.processLocalization
                [(extensions.packageNLSPath, Some "{name: Ext}")]
                (samplePackage "%name%" "%description%") in
  extensions.DisplayName pkg' = "Ext" ∧ extensions.Description pkg' = "%description%".
Proof. vm_compute. split; reflexivity. Qed.
End localization_examples.

Section fetch_examples.
#[local] Existing Instance samplePlatform.
#[local] Existing Instance sampleEnvironment.

End fetch_examples.

Section fetch_refused.
#[local] Existing Instance samplePlatform.
#[local] Existing Instance unavailableEnvironment.

End fetch_refused.

(** ** Strings *)

Lemma app_cons (c : ascii) (a b : string) : String c a ++ b = String c (a ++ b).
Proof. reflexivity. Qed.

Lemma app_empty_l (s : string) : "" ++ s = s.
Proof. reflexivity. Qed.

Lemma app_empty_r (s : string) : s ++ "" = s.
Proof.
  induction s as [|c s IH]; [reflexivity|]. by rewrite app_cons, IH.
Qed.

Lemma app_assoc_s (a b c : string) : (a ++ b) ++ c = a ++ b ++ c.
Proof.
  induction a as [|x a IH]; [reflexivity|]. by rewrite !app_cons, IH.
Qed.

Lemma length_app_s (a b : string) :
  String.length (a ++ b) = (String.length a + String.length b)%nat.
Proof.
  induction a as [|x a IH]; [reflexivity|]. rewrite app_cons. simpl. by rewrite IH.
Qed.

Lemma taken_app (a b : string) :
  gostrings.taken (String.length (a ++ b) - String.length b) (a ++ b) = a.
Proof.
  rewrite length_app_s.
  replace (String.length a + String.length b - String.length b)%nat
    with (String.length a) by lia.
  induction a as [|x a IH]; simpl.
  - destruct b; reflexivity.
  - by rewrite IH.
Qed.

Lemma taken_all (s : string) :
  gostrings.taken (String.length s - String.length "") s = s.
Proof.
  simpl. rewrite Nat.sub_0_r.
  induction s as [|c s IH]; simpl; [reflexivity|by rewrite IH].
Qed.

Lemma dropn_app (a b : string) : gostrings.dropn (String.length a) (a ++ b) = b.
Proof. induction a as [|x a IH]; simpl; [by destruct b|exact IH]. Qed.

Lemma HasPrefix_app (a b : string) : gostrings.HasPrefix (a ++ b) a = true.
Proof.
  induction a as [|x a IH]; simpl; [reflexivity|].
  by rewrite Ascii.eqb_refl, IH.
Qed.

Lemma HasPrefix_split (s p : string) :
  gostrings.HasPrefix s p = true → s = p ++ gostrings.dropn (String.length p) s.
Proof.
  revert s. induction p as [|x p IH]; intros s Hp; simpl in *.
  - by destruct s.
  - destruct s as [|c s]; [discriminate|].
    apply andb_true_iff in Hp as [Hc Hp]. apply Ascii.eqb_eq in Hc as ->.
    simpl gostrings.dropn. rewrite app_cons. f_equal. exact (IH s Hp).
Qed.

(** ** The matcher *)

Section matcher.
Import regexp.

(** Whatever a repetition hands to its continuation is a split of its
    input. *)
Lemma star_sound {R} (acc : ascii → bool) (cont : string → string → option R)
    (s taken : string) (r : R) :
  star acc cont taken s = Some r →
  ∃ t rest, s = t ++ rest ∧ cont (taken ++ t) rest = Some r.
Proof.
  assert (Hhere : ∀ s taken, cont taken s = Some r →
            ∃ t rest, s = t ++ rest ∧ cont (taken ++ t) rest = Some r).
  { intros s0 tk Hr. exists "", s0. split; [reflexivity|]. by rewrite app_empty_r. }
  revert taken. induction s as [|c s IH]; intros taken; simpl.
  - apply Hhere.
  - destruct (acc c); [|apply Hhere].
    destruct (star acc cont (taken ++ String c "") s) as [r'|] eqn:Hs; [|apply Hhere].
    intros Hr. injection Hr as ->. destruct (IH _ Hs) as (t & rest & -> & Hc).
    exists (String c t), rest. split; [reflexivity|].
    by rewrite app_assoc_s in Hc.
Qed.

(** A repetition fails when its continuation fails on every split. *)
Lemma star_none {R} (acc : ascii → bool) (cont : string → string → option R)
    (s taken : string) :
  (∀ t rest, s = t ++ rest → cont (taken ++ t) rest = None) →
  star acc cont taken s = None.
Proof.
  revert taken. induction s as [|c s IH]; intros taken Hall; simpl.
  - rewrite <- (app_empty_r taken). by apply Hall.
  - assert (Hhere : cont taken (String c s) = None).
    { rewrite <- (app_empty_r taken) at 1. by apply Hall. }
    destruct (acc c); [|exact Hhere].
    rewrite IH; [exact Hhere|].
    intros t rest ->. rewrite app_assoc_s. by apply (Hall (String c t) rest).
Qed.

(** The longest run is tried first: when the class accepts all of [t] and
    the continuation succeeds right after it, that is the result. *)
Lemma star_greedy {R} (acc : ascii → bool) (cont : string → string → option R)
    (t rest taken : string) (r : R) :
  (∀ c, gostrings.inb c t = true → acc c = true) →
  match rest with EmptyString => True | String c _ => acc c = false end →
  cont (taken ++ t) rest = Some r →
  star acc cont taken (t ++ rest) = Some r.
Proof.
  revert taken. induction t as [|c t IH]; intros taken Hacc Hstop Hcont; simpl.
  - rewrite app_empty_r in Hcont.
    destruct rest as [|c rest]; simpl; [exact Hcont|]. by rewrite Hstop.
  - assert (Hrec : star acc cont (taken ++ String c "") (t ++ rest) = Some r).
    { apply IH; [|exact Hstop|by rewrite app_assoc_s].
      intros c' Hin. apply Hacc. simpl. rewrite Hin. by rewrite orb_true_r. }
    rewrite (Hacc c) by (simpl; by rewrite Ascii.eqb_refl).
    by rewrite Hrec.
Qed.

(** The rest a match leaves is a suffix of the input. *)
Lemma run_sound (re : Regexp) (caps caps' : list string) (s rest : string) :
  run re caps s = Some (caps', rest) → ∃ whole, s = whole ++ rest.
Proof.
  revert caps s. induction re as [|[l|cs|k min capture] re IH]; intros caps s; simpl.
  - intros [= _ ->]. by exists "".
  - destruct (gostrings.HasPrefix s l) eqn:Hp; [|discriminate].
    intros Hr. destruct (IH _ _ Hr) as [whole Hw].
    exists (l ++ whole). rewrite app_assoc_s, <- Hw. by apply HasPrefix_split.
  - destruct s as [|c s]; [discriminate|].
    destruct (gostrings.inb c cs); [|discriminate].
    intros Hr. destruct (IH _ _ Hr) as [whole ->]. by exists (String c whole).
  - intros Hr. apply star_sound in Hr as (t & rest' & -> & Hc).
    destruct (min <=? String.length ("" ++ t))%nat; [|discriminate].
    destruct (IH _ _ Hc) as [whole ->]. exists (t ++ whole).
    by rewrite app_assoc_s.
Qed.

Lemma matchHere_split (re : Regexp) (s whole rest : string) (caps : list string) :
  matchHere re s = Some (whole, caps, rest) → s = whole ++ rest.
Proof.
  unfold matchHere. destruct (run re [] s) as [[caps' rest']|] eqn:Hr; [|discriminate].
  intros [= <- _ <-]. destruct (run_sound _ _ _ _ _ Hr) as [whole ->].
  by rewrite taken_app.
Qed.

(** The pieces of a content spell the content. *)
Lemma joinPieces_pieces (re : Regexp) (fuel : nat) (after : bool) (s : string) :
  (String.length s < fuel)%nat → joinPieces (pieces fuel re after s) = s.
Proof.
  revert after s. induction fuel as [|fuel IH]; intros after s Hlen; [lia|].
  simpl.
  assert (Hskip : joinPieces
            match s with
            | EmptyString => []
            | String c s' => Text c :: pieces fuel re false s'
            end = s).
  { destruct s as [|c s']; simpl; [reflexivity|]. rewrite IH; [reflexivity|].
    simpl in Hlen. lia. }
  destruct (matchHere re s) as [[[whole caps] rest]|] eqn:Hm; [|exact Hskip].
  destruct whole as [|c whole].
  - destruct after; simpl; exact Hskip.
  - simpl. apply matchHere_split in Hm. rewrite IH; [by rewrite Hm|].
    rewrite Hm in Hlen. simpl in Hlen. rewrite length_app_s in Hlen. lia.
Qed.

Lemma joinPieces_allPieces (re : Regexp) (s : string) :
  joinPieces (allPieces re s) = s.
Proof. apply joinPieces_pieces. lia. Qed.
End matcher.

(** ** Contents with local references only *)

Section rewriter.
Context `{Environment} `{Platform}.

(** A callback that leaves every match and the world as they are makes
    [ReplaceAllStringFunc] the identity. *)
Lemma replacePieces_id (ps : list regexp.piece) (repl : string → IO string) (w : World) :
  (∀ m, m ∈ matchesIn ps → ∀ w', repl m w' = (m, w')) →
  assets.replacePieces ps repl w = (joinPieces ps, w).
Proof.
  revert w. induction ps as [|[c|m] ps IH]; intros w Hid; simpl.
  - reflexivity.
  - unfold bind. rewrite IH; [reflexivity|exact Hid].
  - unfold bind. rewrite (Hid m) by (simpl; left).
    rewrite IH; [reflexivity|]. intros m' Hin. apply Hid. simpl. by right.
Qed.

Lemma ReplaceAllStringFunc_id (re : regexp.Regexp) (src : string)
    (repl : string → IO string) (w : World) :
  (∀ m, m ∈ matchesIn (regexp.allPieces re src) → ∀ w', repl m w' = (m, w')) →
  assets.ReplaceAllStringFunc re src repl w = (src, w).
Proof.
  intros Hid. unfold assets.ReplaceAllStringFunc.
  by rewrite (replacePieces_id _ _ _ Hid), joinPieces_allPieces.
Qed.

Lemma processImageMatch_skip (ap : assets.AssetProcessor) (m : string)
    (pattern : regexp.Regexp) (assetsDir extensionID : string) (w : World) :
  isLocalRef (assets.reference (regexp.FindStringSubmatch pattern m)) = true →
  assets.processImageMatch ap m pattern assetsDir extensionID w = (m, w).
Proof.
  intros Hlocal. unfold assets.processImageMatch.
  destruct (length (regexp.FindStringSubmatch pattern m) <? 2)%nat; [reflexivity|].
  unfold isLocalRef in Hlocal. by rewrite Hlocal.
Qed.

Lemma processAssetMatch_skip (ap : assets.AssetProcessor) (m : string)
    (pattern : regexp.Regexp) (assetsDir extensionID : string) (w : World) :
  isLocalRef (assets.reference (regexp.FindStringSubmatch pattern m)) = true
  ∨ gostrings.HasPrefix (assets.reference (regexp.FindStringSubmatch pattern m)) "http"
    = true →
  assets.processAssetMatch ap m pattern assetsDir extensionID w = (m, w).
Proof.
  intros Hskip. unfold assets.processAssetMatch.
  destruct (length (regexp.FindStringSubmatch pattern m) <? 2)%nat; [reflexivity|].
  unfold isLocalRef in Hskip.
  destruct Hskip as [-> | ->]; [reflexivity|by rewrite orb_true_r].
Qed.

(** One pass over a list of patterns, every match of which is skipped. *)
Lemma eachPattern_id (patterns : list regexp.Regexp)
    (f : string → regexp.Regexp → IO string) (content : string) (w : World) :
  (∀ pattern m, pattern ∈ patterns →
     m ∈ matchesIn (regexp.allPieces pattern content) →
     ∀ w', f m pattern w' = (m, w')) →
  assets.eachPattern patterns f content w = (content, w).
Proof.
  induction patterns as [|pattern rest IH]; intros Hid; simpl; [reflexivity|].
  unfold bind. rewrite ReplaceAllStringFunc_id.
  - apply IH. intros p m Hp. apply Hid. by right.
  - intros m Hm. apply Hid; [by left|exact Hm].
Qed.

Lemma onlyLocalRefs_match (content : string) (pattern : regexp.Regexp) (m : string) :
  onlyLocalRefs content = true →
  pattern ∈ (assets.imagePatterns ++ assets.otherPatterns)%list →
  m ∈ matchesIn (regexp.allPieces pattern content) →
  isLocalRef (assets.reference (regexp.FindStringSubmatch pattern m)) = true.
Proof.
  unfold onlyLocalRefs. rewrite forallb_forall. intros Hall Hp Hm.
  specialize (Hall pattern (proj1 (list_elem_of_In _ _) Hp)).
  rewrite forallb_forall in Hall. apply Hall. unfold referencesOf.
  apply list_elem_of_In.
  exact (list_elem_of_fmap_2
           (fun m => assets.reference (regexp.FindStringSubmatch pattern m)) _ _ Hm).
Qed.

(** On a content all of whose image, link, script and stylesheet
    references are data URIs or anchors, and given that the asset
    directory of the extension can be created, [ProcessReadme] returns the
    content unchanged, makes no request and writes no file. *)
Theorem ProcessReadme_local_references_untouched (ap : assets.AssetProcessor)
    (content extensionID : string) (w : World) :
  onlyLocalRefs content = true →
  fst (osMkdirAll (filepath_Join (assets.assetsDir ap) extensionID) w) = true →
  ∃ w',
    assets.ProcessReadme ap content extensionID w = (Ok content, w') ∧
    requests w' = requests w ∧
    files w' = files w.
Proof.
  intros Hlocal Hmk. unfold assets.ProcessReadme.
  destruct (String.eqb content "") eqn:Hempty.
  { apply String.eqb_eq in Hempty as ->. by exists w. }
  unfold bind.
  destruct (osMkdirAll (filepath_Join (assets.assetsDir ap) extensionID) w)
    as [made w1] eqn:Hdir.
  simpl in Hmk. subst made. simpl.
  assert (Hw1 : requests w1 = requests w ∧ files w1 = files w).
  { unfold osMkdirAll in Hdir.
    case_match; [injection Hdir as <-; by split | discriminate]. }
  unfold assets.processImages, assets.processOtherAssets.
  rewrite eachPattern_id.
  - rewrite eachPattern_id.
    + exists w1. by split.
    + intros pattern m Hp Hm w'. apply processAssetMatch_skip. left.
      apply (onlyLocalRefs_match content); [exact Hlocal| |exact Hm].
      apply elem_of_app. by right.
  - intros pattern m Hp Hm w'. apply processImageMatch_skip.
    apply (onlyLocalRefs_match content); [exact Hlocal| |exact Hm].
    apply elem_of_app. by left.
Qed.
End rewriter.

(** ** Patterns on texts without markup *)

Lemma inb_app (c : ascii) (a b : string) :
  gostrings.inb c (a ++ b) = gostrings.inb c a || gostrings.inb c b.
Proof.
  induction a as [|x a IH]; [reflexivity|].
  rewrite app_cons. simpl. by rewrite IH, orb_assoc.
Qed.

Lemma inb_dropn (c : ascii) (n : nat) (s : string) :
  gostrings.inb c s = false → gostrings.inb c (gostrings.dropn n s) = false.
Proof.
  revert s. induction n as [|n IH]; intros s Hs; [by destruct s|].
  destruct s as [|x s]; [reflexivity|]. simpl in *.
  apply orb_false_iff in Hs as [_ Hs]. by apply IH.
Qed.

Lemma free_app (cs a b : string) : free cs (a ++ b) = free cs a && free cs b.
Proof.
  induction a as [|x a IH]; [reflexivity|].
  rewrite app_cons. simpl. by rewrite IH, andb_assoc.
Qed.

Lemma free_inb (cs s : string) (c : ascii) :
  free cs s = true → gostrings.inb c cs = true → gostrings.inb c s = false.
Proof.
  intros Hfree Hc. induction s as [|x s IH]; [reflexivity|].
  simpl in *. apply andb_true_iff in Hfree as [Hx Hfree].
  rewrite (IH Hfree), orb_false_r.
  destruct (Ascii.eqb_spec c x) as [->|]; [|reflexivity].
  by rewrite Hc in Hx.
Qed.

Lemma free_accepts (cs t : string) :
  (∀ c, gostrings.inb c cs = true → gostrings.inb c t = false) →
  ∀ c, gostrings.inb c t = true → regexp.accepts (regexp.NoneOf cs) c = true.
Proof.
  intros Hfree c Hin. simpl. destruct (gostrings.inb c cs) eqn:Hc; [|reflexivity].
  by rewrite (Hfree c Hc) in Hin.
Qed.

Lemma HasPrefix_inb (s l : string) (c : ascii) :
  gostrings.HasPrefix s l = true → gostrings.inb c l = true → gostrings.inb c s = true.
Proof.
  intros Hp Hc. rewrite (HasPrefix_split s l Hp), inb_app, Hc. reflexivity.
Qed.

Section without_markup.
Import regexp.

(** A pattern that needs a byte the text does not hold matches nowhere. *)
Lemma run_needs (c : ascii) (re : Regexp) (caps : list string) (s : string) :
  needs c re = true → gostrings.inb c s = false → run re caps s = None.
Proof.
  revert caps s. induction re as [|it re IH]; intros caps s Hneeds Hs; [discriminate|].
  simpl in Hneeds. destruct it as [l|cs|k min capture]; simpl.
  - destruct (gostrings.HasPrefix s l) eqn:Hp; [|reflexivity].
    destruct (gostrings.inb c l) eqn:Hl.
    + by rewrite (HasPrefix_inb s l c Hp Hl) in Hs.
    + apply IH; [exact Hneeds|by apply inb_dropn].
  - destruct s as [|x s]; [reflexivity|]. destruct (gostrings.inb x cs); [|reflexivity].
    apply IH; [exact Hneeds|]. simpl in Hs. by apply orb_false_iff in Hs as [_ Hs].
  - apply star_none. intros t rest ->.
    destruct (min <=? String.length ("" ++ t))%nat; [|reflexivity].
    apply IH; [exact Hneeds|]. rewrite inb_app in Hs.
    by apply orb_false_iff in Hs as [_ Hs].
Qed.

Lemma matchHere_needs (c : ascii) (re : Regexp) (s : string) :
  needs c re = true → gostrings.inb c s = false → matchHere re s = None.
Proof.
  intros Hneeds Hs. unfold matchHere. by rewrite (run_needs c re [] s Hneeds Hs).
Qed.

Lemma pieces_needs (c : ascii) (re : Regexp) (fuel : nat) (after : bool) (s : string) :
  needs c re = true → gostrings.inb c s = false →
  matchesIn (pieces fuel re after s) = [].
Proof.
  intros Hneeds. revert after s. induction fuel as [|fuel IH]; intros after s Hs;
    [reflexivity|].
  simpl. rewrite (matchHere_needs c re s Hneeds Hs).
  destruct s as [|x s]; [reflexivity|]. simpl. apply IH.
  simpl in Hs. by apply orb_false_iff in Hs as [_ Hs].
Qed.
End without_markup.

(** ** The markdown image and link patterns on a well-formed reference *)

Section brackets.
Import regexp.

Lemma accepts_NoneOf_one (x : ascii) (t : string) :
  gostrings.inb x t = false →
  ∀ c, gostrings.inb c t = true → accepts (NoneOf (String x "")) c = true.
Proof.
  intros Hx c Hc. simpl. destruct (Ascii.eqb_spec c x) as [->|]; [|reflexivity].
  by rewrite Hx in Hc.
Qed.

Lemma run_bracketed (open : string) (min : nat) (text url : string) :
  gostrings.inb "]" text = false →
  gostrings.inb ")" url = false →
  (min ≤ String.length text)%nat →
  url ≠ "" →
  run (bracketed open min) [] (open ++ text ++ "](" ++ url ++ ")")
  = Some ([text; url], "").
Proof.
  intros Htext Hurl Hmin Hne. unfold bracketed.
  cbn [run]. rewrite HasPrefix_app, dropn_app.
  apply (star_greedy _ _ text ("](" ++ url ++ ")")).
  - exact (accepts_NoneOf_one "]" text Htext).
  - reflexivity.
  - rewrite app_empty_l. apply Nat.leb_le in Hmin. rewrite Hmin.
    cbn [run]. simpl gostrings.HasPrefix. cbv iota. simpl gostrings.dropn.
    apply (star_greedy _ _ url ")").
    + exact (accepts_NoneOf_one ")" url Hurl).
    + reflexivity.
    + rewrite app_empty_l.
      destruct url as [|c url]; [done|]. reflexivity.
Qed.

Lemma matchHere_bracketed (open : string) (min : nat) (text url : string) :
  gostrings.inb "]" text = false →
  gostrings.inb ")" url = false →
  (min ≤ String.length text)%nat →
  url ≠ "" →
  matchHere (bracketed open min) (open ++ text ++ "](" ++ url ++ ")")
  = Some (open ++ text ++ "](" ++ url ++ ")", [text; url], "").
Proof.
  intros Htext Hurl Hmin Hne. unfold matchHere.
  rewrite (run_bracketed open min text url Htext Hurl Hmin Hne).
  by rewrite taken_all.
Qed.

Lemma search_here (re : Regexp) (s : string) (r : string * list string * string) :
  matchHere re s = Some r → search re s = Some r.
Proof. intros Hm. destruct s; simpl; by rewrite Hm. Qed.

Lemma FindStringSubmatch_bracketed (open : string) (min : nat) (text url : string) :
  gostrings.inb "]" text = false →
  gostrings.inb ")" url = false →
  (min ≤ String.length text)%nat →
  url ≠ "" →
  FindStringSubmatch (bracketed open min) (open ++ text ++ "](" ++ url ++ ")")
  = [open ++ text ++ "](" ++ url ++ ")"; text; url].
Proof.
  intros Htext Hurl Hmin Hne. unfold FindStringSubmatch.
  by rewrite (search_here _ _ _
                (matchHere_bracketed open min text url Htext Hurl Hmin Hne)).
Qed.
End brackets.

(** ** A remote image *)

Lemma HasPrefix_app_l (a b p : string) :
  gostrings.HasPrefix a p = true → gostrings.HasPrefix (a ++ b) p = true.
Proof.
  revert a. induction p as [|x p IH]; intros a Hp; [reflexivity|].
  destruct a as [|c a]; [discriminate|]. rewrite app_cons. simpl in *.
  apply andb_true_iff in Hp as [-> Hp]. by rewrite (IH a Hp).
Qed.

Lemma plain_inb (s : string) (c : ascii) :
  plain s = true → gostrings.inb c markupChars = true → gostrings.inb c s = false.
Proof. apply free_inb. Qed.

Section bracket_pieces.
Import regexp.

Lemma matchesIn_after_end (re : Regexp) (fuel : nat) :
  matchHere re "" = None → matchesIn (pieces fuel re true "") = [].
Proof. intros Hm. destruct fuel; simpl; [reflexivity|by rewrite Hm]. Qed.

Lemma matchHere_bracketed_empty (open : string) (min : nat) :
  open ≠ "" → matchHere (bracketed open min) "" = None.
Proof. intros Hopen. destruct open; [done|reflexivity]. Qed.

(** A content that is one well-formed image or link as a whole. *)
Lemma matchesIn_bracketed (open : string) (min : nat) (text url : string)
    (fuel : nat) (after : bool) :
  open ≠ "" →
  gostrings.inb "]" text = false →
  gostrings.inb ")" url = false →
  (min ≤ String.length text)%nat →
  url ≠ "" →
  matchesIn (pieces (S fuel) (bracketed open min) after
               (open ++ text ++ "](" ++ url ++ ")"))
  = [open ++ text ++ "](" ++ url ++ ")"].
Proof.
  intros Hopen Htext Hurl Hmin Hne. cbn [pieces].
  rewrite (matchHere_bracketed open min text url Htext Hurl Hmin Hne).
  destruct open as [|o open]; [done|]. rewrite !app_cons. cbn [matchesIn].
  rewrite matchesIn_after_end; [reflexivity|].
  exact (matchHere_bracketed_empty (String o open) min ltac:(done)).
Qed.
End bracket_pieces.

Lemma reference_two_groups (whole text ref : string) :
  assets.reference [whole; text; ref] = ref.
Proof. reflexivity. Qed.

Lemma at_first_group (whole text ref : string) :
  assets.at_ [whole; text; ref] 1 = text.
Proof. reflexivity. Qed.

Lemma lastElement_no_separator (s : string) :
  gostrings.inb "/" (filepath.lastElement s) = false.
Proof.
  induction s as [|c s IH]; [reflexivity|]. cbn [filepath.lastElement].
  destruct (gostrings.inb "/" s) eqn:Hs; [exact IH|].
  destruct (Ascii.eqb_spec c "/") as [->|Hc]; [exact Hs|].
  cbn [gostrings.inb]. rewrite Hs, orb_false_r.
  destruct (Ascii.eqb_spec "/" c) as [<-|]; [done|reflexivity].
Qed.

Lemma TrimRight_no_separator (s : string) :
  gostrings.inb "/" s = false → gostrings.TrimRight s "/" = s.
Proof.
  induction s as [|c s IH]; [reflexivity|].
  cbn [gostrings.inb gostrings.TrimRight].
  intros [Hc Hs]%orb_false_iff. rewrite (IH Hs).
  destruct s; [|reflexivity].
  rewrite orb_false_r. rewrite Ascii.eqb_sym in Hc. by rewrite Hc.
Qed.

Lemma lastElement_no_separator_id (s : string) :
  gostrings.inb "/" s = false → filepath.lastElement s = s.
Proof.
  destruct s as [|c s]; [reflexivity|].
  cbn [gostrings.inb filepath.lastElement].
  intros [Hc Hs]%orb_false_iff. rewrite Hs. rewrite Ascii.eqb_sym in Hc. by rewrite Hc.
Qed.

(** [filepath.Base] of a base name is the name itself. *)
Lemma Base_idem (path : string) :
  filepath.Base (filepath.Base path) = filepath.Base path.
Proof.
  unfold filepath.Base at 2 3.
  destruct (String.eqb path ""); [reflexivity|].
  pose proof (lastElement_no_separator (gostrings.TrimRight path "/")) as Hsep.
  destruct (filepath.lastElement (gostrings.TrimRight path "/")) as [|c e];
    [reflexivity|].
  unfold filepath.Base. cbn [String.eqb].
  rewrite (TrimRight_no_separator _ Hsep), (lastElement_no_separator_id _ Hsep).
  reflexivity.
Qed.

Section remote_image.
Context `{Environment} `{Platform}.

Lemma downloadAsset_ok (assetURL assetsDir : string) (w : World) (resp : Response) :
  http_Get (length (requests w)) assetURL = Some resp →
  StatusCode resp = 200%Z →
  BodyErr resp = false →
  let fileName := assets.generateFileName assetURL (ContentType resp) in
  let filePath := filepath_Join assetsDir fileName in
  create_ok filePath = true →
  filePath ∉ dirs w →
  assets.downloadAsset assetURL assetsDir w
  = (Ok fileName,
     mkWorld (<[filePath := Body resp]> (<[filePath := ""]> (files w))) (dirs w)
       (requests w ++ [assetURL])).
Proof.
  intros Hget Hstatus Hbody fileName filePath Hcreate Hnodir.
  unfold assets.downloadAsset, bind, httpGet. rewrite Hget, Hstatus. simpl.
  fold fileName. fold filePath.
  unfold osCreate. simpl. rewrite Hcreate.
  rewrite (bool_decide_eq_false_2 _ Hnodir). simpl.
  unfold ioCopy. rewrite Hbody. reflexivity.
Qed.

Lemma generateFileName_from_path (assetURL contentType path : string) :
  url_Parse_Path assetURL = Some path →
  path ≠ "" → filepath.Base path ≠ "" → filepath.Base path ≠ "." →
  assets.generateFileName assetURL contentType = filepath.Base path.
Proof.
  intros Hpath Hne Hbase Hdot. unfold assets.generateFileName. rewrite Hpath.
  apply String.eqb_neq in Hne, Hbase, Hdot. by rewrite Hne, Hbase, Hdot.
Qed.

(** The image pass on a remote markdown image: the match is downloaded
    and rewritten. *)
Lemma processImageMatch_remote (ap : assets.AssetProcessor)
    (alt url path assetsDir extensionID : string) (w : World) (resp : Response) :
  gostrings.inb ")" url = false →
  url ≠ "" →
  gostrings.HasPrefix url "data:" = false →
  gostrings.HasPrefix url "#" = false →
  gostrings.inb "]" alt = false →
  http_Get (length (requests w)) url = Some resp →
  StatusCode resp = 200%Z →
  BodyErr resp = false →
  url_Parse_Path url = Some path →
  path ≠ "" → filepath.Base path ≠ "" → filepath.Base path ≠ "." →
  create_ok (filepath_Join assetsDir (filepath.Base path)) = true →
  filepath_Join assetsDir (filepath.Base path) ∉ dirs w →
  assets.processImageMatch ap ("![" ++ alt ++ "](" ++ url ++ ")")
    assets.mdImage assetsDir extensionID w
  = ("![" ++ alt ++ "](" ++ assets.baseURL ap ++ "/_assets/" ++ extensionID ++ "/"
       ++ filepath.Base path ++ ")",
     mkWorld
       (<[filepath_Join assetsDir (filepath.Base path) := Body resp]>
          (<[filepath_Join assetsDir (filepath.Base path) := ""]> (files w)))
       (dirs w) (requests w ++ [url])).
Proof.
  intros Hurl Hne Hdata Hanchor Halt Hget Hstatus Hbody Hpath Hpne Hbase Hdot
    Hcreate Hnodir.
  unfold assets.processImageMatch.
  change assets.mdImage with (bracketed "![" 0).
  rewrite (FindStringSubmatch_bracketed "![" 0 alt url) by (done || lia).
  rewrite reference_two_groups, at_first_group.
  cbn [length Nat.ltb Nat.leb].
  rewrite Hdata, Hanchor.
  cbn [orb]. cbv iota. unfold bind.
  assert (Hname : assets.generateFileName url (ContentType resp) = filepath.Base path).
  { by rewrite (generateFileName_from_path _ _ path Hpath). }
  rewrite (downloadAsset_ok url assetsDir w resp Hget Hstatus Hbody);
    rewrite Hname; [|exact Hcreate|exact Hnodir].
  unfold assets.localURLOf.
  rewrite Base_idem.
  change (gostrings.Contains ("![" ++ alt ++ "](" ++ url ++ ")") "![") with true.
  cbv iota. unfold ret. f_equal.
  by rewrite !app_assoc_s.
Qed.
End remote_image.

Section rewritten_image.
Import regexp.

Lemma pieces_no_match_here (re : Regexp) (fuel : nat) (after : bool)
    (c : ascii) (s : string) :
  matchHere re (String c s) = None →
  pieces (S fuel) re after (String c s) = Text c :: pieces fuel re false s.
Proof. intros Hm. cbn [pieces]. by rewrite Hm. Qed.

Lemma mdLink_matches (alt ref : string) :
  gostrings.inb "]" alt = false →
  gostrings.inb ")" ref = false →
  gostrings.inb "[" ref = false →
  ref ≠ "" →
  ∀ m, m ∈ matchesIn (allPieces assets.mdLink ("![" ++ alt ++ "](" ++ ref ++ ")")) →
       m = "[" ++ alt ++ "](" ++ ref ++ ")" ∧ alt ≠ "".
Proof.
  intros Halt Hparen Hbracket Hne m.
  change assets.mdLink with (bracketed "[" 1). unfold allPieces.
  change ("![" ++ alt ++ "](" ++ ref ++ ")")
    with (String "!" ("[" ++ alt ++ "](" ++ ref ++ ")")).
  rewrite pieces_no_match_here by reflexivity.
  cbn [matchesIn String.length].
  destruct alt as [|a alt].
  - (* no text between the brackets: the link pattern finds nothing *)
    change ("[" ++ "" ++ "](" ++ ref ++ ")") with (String "[" ("](" ++ ref ++ ")")).
    cbn [String.length].
    rewrite pieces_no_match_here by reflexivity.
    cbn [matchesIn].
    rewrite (pieces_needs "[" (bracketed "[" 1)); [by intros ?%elem_of_nil| reflexivity |].
    change ("](" ++ ref ++ ")") with (String "]" (String "(" (ref ++ ")"))).
    simpl. by rewrite inb_app, Hbracket.
  - rewrite (matchesIn_bracketed "[" 1 (String a alt) ref);
      [|done|exact Halt|exact Hparen|simpl; lia|exact Hne].
    intros ->%list_elem_of_singleton. by split.
Qed.

Lemma no_angle_no_quote (alt ref : string) :
  gostrings.inb "<" alt = false → gostrings.inb "<" ref = false →
  gostrings.inb dquote alt = false → gostrings.inb dquote ref = false →
  gostrings.inb "<" ("![" ++ alt ++ "](" ++ ref ++ ")") = false ∧
  gostrings.inb dquote ("![" ++ alt ++ "](" ++ ref ++ ")") = false.
Proof.
  intros Ha Hr Hqa Hqr.
  change ("![" ++ alt ++ "](" ++ ref ++ ")")
    with (String "!" (String "[" (alt ++ String "]" (String "(" (ref ++ ")"))))).
  split; simpl; rewrite inb_app; simpl; rewrite inb_app.
  - by rewrite Ha, Hr.
  - by rewrite Hqa, Hqr.
Qed.
End rewritten_image.

Section remote_image_rewrite.
Context `{Environment} `{Platform}.

(** A pass of one pattern that needs a byte the content does not hold
    changes nothing. *)
Lemma ReplaceAllStringFunc_needs (c : ascii) (re : regexp.Regexp) (src : string)
    (repl : string → IO string) (w : World) :
  needs c re = true → gostrings.inb c src = false →
  assets.ReplaceAllStringFunc re src repl w = (src, w).
Proof.
  intros Hneeds Hsrc. apply ReplaceAllStringFunc_id. intros m Hm.
  unfold regexp.allPieces in Hm.
  rewrite (pieces_needs c re _ _ src Hneeds Hsrc) in Hm. by apply elem_of_nil in Hm.
Qed.

(** The run of [ProcessReadme] on a readme that is one remote markdown
    image, with the world it leaves. *)
Lemma ProcessReadme_remote_image_run (ap : assets.AssetProcessor)
    (alt url path extensionID : string) (w : World) (resp : Response) :
  let dir := filepath_Join (assets.assetsDir ap) extensionID in
  let name := filepath.Base path in
  let filePath := filepath_Join dir name in
  plain alt = true →
  plain (assets.baseURL ap) = true →
  plain extensionID = true →
  plain name = true →
  gostrings.inb ")" url = false →
  url ≠ "" →
  gostrings.HasPrefix url "data:" = false →
  gostrings.HasPrefix url "#" = false →
  gostrings.HasPrefix (assets.baseURL ap) "http" = true →
  fst (osMkdirAll dir w) = true →
  http_Get (length (requests w)) url = Some resp →
  StatusCode resp = 200%Z →
  BodyErr resp = false →
  url_Parse_Path url = Some path →
  path ≠ "" → name ≠ "" → name ≠ "." →
  create_ok filePath = true →
  filePath ∉ dirs w →
  filePath ≠ dir →
  assets.ProcessReadme ap ("![" ++ alt ++ "](" ++ url ++ ")") extensionID w
  = (Ok ("![" ++ alt ++ "](" ++ servedURL ap extensionID name ++ ")"),
     mkWorld (<[filePath := Body resp]> (<[filePath := ""]> (files w)))
       (dirs w ∪ {[dir]}) (requests w ++ [url])).
Proof.
  intros dir name filePath Halt Hbase Hext Hplain Hurl Hurl_ne Hdata Hanchor Hhttp
    Hmk Hget Hstatus Hbody Hpath Hpne Hname_ne Hname_dot Hcreate Hnodir Hne.
  set (ref := servedURL ap extensionID name).
  (* what the hypotheses say about the characters of the texts *)
  assert (Hfree : ∀ c, gostrings.inb c markupChars = true →
            gostrings.inb c alt = false ∧ gostrings.inb c ref = false).
  { intros c Hc. split; [by apply plain_inb|].
    unfold ref, servedURL. rewrite !inb_app.
    rewrite (plain_inb _ c Hbase Hc), (plain_inb _ c Hext Hc), (plain_inb _ c Hplain Hc).
    revert Hc. unfold markupChars. simpl.
    destruct (Ascii.eqb_spec c "[") as [->|]; [reflexivity|].
    destruct (Ascii.eqb_spec c "]") as [->|]; [reflexivity|].
    destruct (Ascii.eqb_spec c "(") as [->|]; [reflexivity|].
    destruct (Ascii.eqb_spec c ")") as [->|]; [reflexivity|].
    destruct (Ascii.eqb_spec c "<") as [->|]; [reflexivity|].
    destruct (Ascii.eqb_spec c dquote) as [->|]; [reflexivity|].
    discriminate. }
  destruct (Hfree "]"%char eq_refl) as [Halt_close _].
  destruct (Hfree ")"%char eq_refl) as [_ Href_paren].
  destruct (Hfree "["%char eq_refl) as [_ Href_open].
  destruct (Hfree "<"%char eq_refl) as [Halt_angle Href_angle].
  destruct (Hfree dquote eq_refl) as [Halt_quote Href_quote].
  assert (Href_ne : ref ≠ "").
  { unfold ref, servedURL. destruct (assets.baseURL ap); discriminate. }
  assert (Href_http : gostrings.HasPrefix ref "http" = true)
    by (apply HasPrefix_app_l; exact Hhttp).
  destruct (no_angle_no_quote alt ref Halt_angle Href_angle Halt_quote Href_quote)
    as [Hangle Hquote].
  (* the directory *)
  unfold assets.ProcessReadme.
  change (String.eqb ("![" ++ alt ++ "](" ++ url ++ ")") "") with false.
  cbv iota. fold dir. unfold bind at 1.
  destruct (osMkdirAll dir w) as [made w1] eqn:Hdir. simpl in Hmk. subst made.
  assert (Hw1 : w1 = mkWorld (files w) (dirs w ∪ {[dir]}) (requests w)).
  { unfold osMkdirAll in Hdir. case_match; [by injection Hdir as <-|discriminate]. }
  cbn [negb]. cbv iota.
  (* the image pass *)
  assert (Himages :
    assets.processImages ap ("![" ++ alt ++ "](" ++ url ++ ")") dir extensionID w1
    = ("![" ++ alt ++ "](" ++ ref ++ ")",
       mkWorld (<[filePath := Body resp]> (<[filePath := ""]> (files w)))
         (dirs w ∪ {[dir]}) (requests w ++ [url]))).
  { unfold assets.processImages, assets.imagePatterns.
    cbn [assets.eachPattern]. unfold bind at 1.
    assert (Hfirst :
      assets.ReplaceAllStringFunc assets.mdImage ("![" ++ alt ++ "](" ++ url ++ ")")
        (fun m => assets.processImageMatch ap m assets.mdImage dir extensionID) w1
      = ("![" ++ alt ++ "](" ++ ref ++ ")",
         mkWorld (<[filePath := Body resp]> (<[filePath := ""]> (files w)))
           (dirs w ∪ {[dir]}) (requests w ++ [url]))).
    { unfold assets.ReplaceAllStringFunc, regexp.allPieces.
      change assets.mdImage with (bracketed "![" 0).
      cbn [regexp.pieces].
      rewrite (matchHere_bracketed "![" 0 alt url) by (done || lia).
      change ("![" ++ alt ++ "](" ++ url ++ ")")
        with (String "!" ("[" ++ alt ++ "](" ++ url ++ ")")).
      cbv iota. cbn [assets.replacePieces]. unfold bind at 1.
      change (String "!" ("[" ++ alt ++ "](" ++ url ++ ")"))
        with ("![" ++ alt ++ "](" ++ url ++ ")").
      change (bracketed "![" 0) with assets.mdImage.
      rewrite (processImageMatch_remote ap alt url path dir extensionID w1 resp);
        [|exact Hurl|exact Hurl_ne|exact Hdata|exact Hanchor|exact Halt_close
         |by rewrite Hw1|exact Hstatus|exact Hbody|exact Hpath|exact Hpne
         |exact Hname_ne|exact Hname_dot|exact Hcreate|].
      2:{ rewrite Hw1. simpl. fold name. fold filePath.
          rewrite elem_of_union, elem_of_singleton. tauto. }
      unfold bind.
      rewrite (replacePieces_id _ _ _).
      2:{ intros m Hm.
          rewrite matchesIn_after_end in Hm by reflexivity. by apply elem_of_nil in Hm. }
      assert (Hjoin : ∀ fuel, joinPieces (regexp.pieces fuel assets.mdImage true "") = "")
        by (intros [|fuel]; reflexivity).
      rewrite Hjoin, app_empty_r, Hw1. unfold ret. simpl. f_equal.
      unfold ref, servedURL. f_equal. f_equal. by rewrite !app_assoc_s. }
    rewrite Hfirst.
    unfold bind at 1.
    rewrite (ReplaceAllStringFunc_needs "<" assets.htmlImg) by (reflexivity || exact Hangle).
    unfold bind at 1.
    rewrite (ReplaceAllStringFunc_needs dquote assets.mdImageTitle)
      by (reflexivity || exact Hquote).
    reflexivity. }
  unfold bind at 1. rewrite Himages.
  (* the pass over the other assets *)
  unfold bind at 1.
  unfold assets.processOtherAssets, assets.otherPatterns. cbn [assets.eachPattern].
  unfold bind at 1.
  rewrite (ReplaceAllStringFunc_needs "<" assets.htmlLink) by (reflexivity || exact Hangle).
  unfold bind at 1.
  rewrite (ReplaceAllStringFunc_needs "<" assets.htmlScript) by (reflexivity || exact Hangle).
  unfold bind at 1.
  rewrite ReplaceAllStringFunc_id.
  - reflexivity.
  - intros m Hm w'.
    destruct (mdLink_matches alt ref Halt_close Href_paren Href_open Href_ne m Hm)
      as [-> Halt_ne].
    apply processAssetMatch_skip. right.
    change assets.mdLink with (bracketed "[" 1).
    rewrite (FindStringSubmatch_bracketed "[" 1 alt ref);
      [|exact Halt_close|exact Href_paren| |exact Href_ne].
    + by rewrite reference_two_groups.
    + destruct alt; [done|simpl; lia].
Qed.

(** A readme that is one markdown image with a remote reference.  When
    the alternative text, the base URL, the extension identifier and the
    base name of the URL's path hold no markup character, the reference is
    neither a data URI nor an anchor and holds no closing parenthesis, the
    base URL starts with http, the asset directory can be created, the
    image is fetched with status 200 and its body read to the end, and the
    file can be created: the result is the image with the same alternative
    text and the served URL of the base name, the body of the response is
    the content of the file of that name in the asset directory of the
    extension, and exactly one request was made. *)
Theorem ProcessReadme_remote_image (ap : assets.AssetProcessor)
    (alt url path extensionID : string) (w : World) (resp : Response) :
  let dir := filepath_Join (assets.assetsDir ap) extensionID in
  let name := filepath.Base path in
  let filePath := filepath_Join dir name in
  plain alt = true →
  plain (assets.baseURL ap) = true →
  plain extensionID = true →
  plain name = true →
  gostrings.inb ")" url = false →
  url ≠ "" →
  gostrings.HasPrefix url "data:" = false →
  gostrings.HasPrefix url "#" = false →
  gostrings.HasPrefix (assets.baseURL ap) "http" = true →
  fst (osMkdirAll dir w) = true →
  http_Get (length (requests w)) url = Some resp →
  StatusCode resp = 200%Z →
  BodyErr resp = false →
  url_Parse_Path url = Some path →
  path ≠ "" → name ≠ "" → name ≠ "." →
  create_ok filePath = true →
  filePath ∉ dirs w →
  filePath ≠ dir →
  ∃ w',
    assets.ProcessReadme ap ("![" ++ alt ++ "](" ++ url ++ ")") extensionID w
    = (Ok ("![" ++ alt ++ "](" ++ servedURL ap extensionID name ++ ")"), w') ∧
    files w' !! filePath = Some (Body resp) ∧
    requests w' = (requests w ++ [url])%list.
Proof.
  intros dir name filePath Halt Hbase Hext Hplain Hurl Hurl_ne Hdata Hanchor Hhttp
    Hmk Hget Hstatus Hbody Hpath Hpne Hname_ne Hname_dot Hcreate Hnodir Hne.
  eexists. split.
  - by apply (ProcessReadme_remote_image_run ap alt url path extensionID w resp).
  - simpl. split; [apply lookup_insert_eq|reflexivity].
Qed.
End remote_image_rewrite.

Section rewriter_examples.
#[local] Existing Instance samplePlatform.
#[local] Existing Instance sampleEnvironment.

Lemma ProcessReadme_local_references_untouched_witness :
  ∃ w',
    assets.ProcessReadme (assets.NewAssetProcessor "assets" "https://domain:8080")
      "![logo](data:image/png;base64,AAAA) see [usage](#usage) <img src='data:x'>"
      "pub.ext" emptyWorld
    = (Ok "![logo](data:image/png;base64,AAAA) see [usage](#usage) <img src='data:x'>",
       w') ∧
    requests w' = requests emptyWorld ∧
    files w' = files emptyWorld.
Proof.
  apply (ProcessReadme_local_references_untouched
           (assets.NewAssetProcessor "assets" "https://domain:8080")).
  - vm_compute. reflexivity.
  - reflexivity.
Defined.

Lemma ProcessReadme_remote_image_witness :
  ∃ w',
    assets.ProcessReadme (assets.NewAssetProcessor "assets" "https://domain:8080")
      ("![" ++ "alt" ++ "](" ++ "http://x/img.png" ++ ")") "pub.ext" emptyWorld
    = (Ok ("![" ++ "alt" ++ "]("
             ++ servedURL (assets.NewAssetProcessor "assets" "https://domain:8080")
                  "pub.ext" "img.png" ++ ")"), w') ∧
    files w' !! "assets/pub.ext/img.png" = Some "PNG" ∧
    requests w' = ["http://x/img.png"].
Proof.
  refine (ProcessReadme_remote_image
            (assets.NewAssetProcessor "assets" "https://domain:8080")
            "alt" "http://x/img.png" "/img.png" "pub.ext" emptyWorld
            (mkResponse 200 "image/png" "PNG" false)
            _ _ _ _ _ _ _ _ _ _ _ _ _ _ _ _ _ _ _ _).
  all: try reflexivity.
  - discriminate.
  - discriminate.
  - discriminate.
  - discriminate.
  - apply not_elem_of_empty.
  - vm_compute. discriminate.
Defined.
End rewriter_examples.

(** ** The asset processor: what it requests and what it leaves alone *)

Lemma requestsOnly_refl (ok : string → bool) (w : World) : requestsOnly ok w w.
Proof. exists []. by rewrite app_nil_r. Qed.

Lemma requestsOnly_trans (ok : string → bool) (w1 w2 w3 : World) :
  requestsOnly ok w1 w2 → requestsOnly ok w2 w3 → requestsOnly ok w1 w3.
Proof.
  intros (n1 & H1 & Hok1) (n2 & H2 & Hok2). exists (n1 ++ n2)%list. split.
  - by rewrite H2, H1, app_assoc.
  - by rewrite forallb_app, Hok1, Hok2.
Qed.

Section processor_invariants.
Context `{Environment} `{Platform}.

(** [downloadAsset] makes exactly one request, to the given URL. *)
Lemma downloadAsset_requests (assetURL assetsDir : string) (w : World) :
  requests (snd (assets.downloadAsset assetURL assetsDir w))
  = (requests w ++ [assetURL])%list.
Proof.
  unfold assets.downloadAsset, bind, httpGet, osCreate, ioCopy, ret. simpl.
  repeat (case_match; simplify_eq/=; try reflexivity).
Qed.

(** An invariant of the world that every call of the callback keeps is
    kept by a whole replacement pass, and by a sequence of passes. *)
Lemma replacePieces_keeps (P : World → World → Prop)
    (ps : list regexp.piece) (repl : string → IO string) (w : World) :
  (∀ w, P w w) → (∀ w1 w2 w3, P w1 w2 → P w2 w3 → P w1 w3) →
  (∀ m w, P w (snd (repl m w))) →
  P w (snd (assets.replacePieces ps repl w)).
Proof.
  intros Hrefl Htrans Hrepl. revert w.
  induction ps as [|[c|m] ps IH]; intros w; simpl.
  - apply Hrefl.
  - unfold bind. specialize (IH w).
    destruct (assets.replacePieces ps repl w) as [out w']. exact IH.
  - unfold bind. specialize (Hrepl m w). destruct (repl m w) as [r w1].
    specialize (IH w1). destruct (assets.replacePieces ps repl w1) as [out w2].
    simpl in *. exact (Htrans _ _ _ Hrepl IH).
Qed.

Lemma eachPattern_keeps (P : World → World → Prop) (patterns : list regexp.Regexp)
    (f : string → regexp.Regexp → IO string) (content : string) (w : World) :
  (∀ w, P w w) → (∀ w1 w2 w3, P w1 w2 → P w2 w3 → P w1 w3) →
  (∀ m pattern w, P w (snd (f m pattern w))) →
  P w (snd (assets.eachPattern patterns f content w)).
Proof.
  intros Hrefl Htrans Hf. revert content w.
  induction patterns as [|pattern rest IH]; intros content w; simpl; [apply Hrefl|].
  unfold bind.
  pose proof (replacePieces_keeps P (regexp.allPieces pattern content)
                (fun m => f m pattern) w Hrefl Htrans (fun m w => Hf m pattern w)) as H1.
  unfold assets.ReplaceAllStringFunc.
  destruct (assets.replacePieces (regexp.allPieces pattern content)
              (fun m => f m pattern) w) as [content' w1].
  exact (Htrans _ _ _ H1 (IH content' w1)).
Qed.

Lemma processImageMatch_requests (ap : assets.AssetProcessor) (m : string)
    (pattern : regexp.Regexp) (assetsDir extensionID : string) (w : World) :
  requestsOnly remoteRef w
    (snd (assets.processImageMatch ap m pattern assetsDir extensionID w)).
Proof.
  unfold assets.processImageMatch.
  destruct (length (regexp.FindStringSubmatch pattern m) <? 2)%nat;
    [apply requestsOnly_refl|].
  set (u := assets.reference (regexp.FindStringSubmatch pattern m)).
  destruct (gostrings.HasPrefix u "data:" || gostrings.HasPrefix u "#") eqn:Hlocal;
    [apply requestsOnly_refl|].
  unfold bind. pose proof (downloadAsset_requests u assetsDir w) as Hreq.
  destruct (assets.downloadAsset u assetsDir w) as [r w1]. simpl in Hreq.
  assert (Hw1 : requestsOnly remoteRef w w1).
  { exists [u]. split; [exact Hreq|]. simpl. unfold remoteRef, isLocalRef.
    by rewrite Hlocal. }
  destruct r as [localPath|e]; repeat case_match; exact Hw1.
Qed.

Lemma processAssetMatch_requests (ap : assets.AssetProcessor) (m : string)
    (pattern : regexp.Regexp) (assetsDir extensionID : string) (w : World) :
  requestsOnly relativeRef w
    (snd (assets.processAssetMatch ap m pattern assetsDir extensionID w)).
Proof.
  unfold assets.processAssetMatch.
  destruct (length (regexp.FindStringSubmatch pattern m) <? 2)%nat;
    [apply requestsOnly_refl|].
  set (u := assets.reference (regexp.FindStringSubmatch pattern m)).
  destruct (gostrings.HasPrefix u "data:" || gostrings.HasPrefix u "#"
            || gostrings.HasPrefix u "http") eqn:Hskip;
    [apply requestsOnly_refl|].
  unfold bind. pose proof (downloadAsset_requests u assetsDir w) as Hreq.
  destruct (assets.downloadAsset u assetsDir w) as [r w1]. simpl in Hreq.
  assert (Hw1 : requestsOnly relativeRef w w1).
  { exists [u]. split; [exact Hreq|]. simpl. unfold relativeRef, isLocalRef.
    apply orb_false_iff in Hskip as [-> ->]. reflexivity. }
  destruct r as [localPath|e]; repeat case_match; exact Hw1.
Qed.

(** The pass over links, scripts and stylesheets requests relative
    references only: it never requests a data URI, an anchor or a
    reference that starts with http, whatever the content. *)
Theorem processOtherAssets_requests_relative_only (ap : assets.AssetProcessor)
    (content assetsDir extensionID : string) (w : World) :
  requestsOnly relativeRef w
    (snd (assets.processOtherAssets ap content assetsDir extensionID w)).
Proof.
  unfold assets.processOtherAssets.
  apply (eachPattern_keeps (requestsOnly relativeRef)).
  - apply requestsOnly_refl.
  - apply requestsOnly_trans.
  - intros m pattern w'. apply processAssetMatch_requests.
Qed.

Lemma relativeRef_remoteRef (l : list string) :
  forallb relativeRef l = true → forallb remoteRef l = true.
Proof.
  induction l as [|u l IH]; simpl; [done|].
  intros [Hu Hl]%andb_true_iff. rewrite (IH Hl), andb_true_r.
  unfold relativeRef in Hu. unfold remoteRef. by apply andb_true_iff in Hu as [-> _].
Qed.

(** Whatever the content and whatever the outcome, [ProcessReadme] never
    requests a data URI or an anchor: the requests it adds are all for
    other references. *)
Theorem ProcessReadme_never_requests_local_refs (ap : assets.AssetProcessor)
    (content extensionID : string) (w : World) :
  requestsOnly remoteRef w (snd (assets.ProcessReadme ap content extensionID w)).
Proof.
  unfold assets.ProcessReadme.
  destruct (String.eqb content ""); [apply requestsOnly_refl|].
  unfold bind.
  set (dir := filepath_Join (assets.assetsDir ap) extensionID).
  assert (Hdir : requestsOnly remoteRef w (snd (osMkdirAll dir w))).
  { unfold osMkdirAll. case_match; exists []; simpl; by rewrite app_nil_r. }
  destruct (osMkdirAll dir w) as [made w1]. simpl in Hdir.
  destruct made; simpl; [|exact Hdir].
  assert (Himg : requestsOnly remoteRef w1
            (snd (assets.processImages ap content dir extensionID w1))).
  { unfold assets.processImages.
    apply (eachPattern_keeps (requestsOnly remoteRef));
      [apply requestsOnly_refl|apply requestsOnly_trans|].
    intros m pattern w'. apply processImageMatch_requests. }
  destruct (assets.processImages ap content dir extensionID w1) as [c1 w2].
  assert (Hoth : requestsOnly relativeRef w2
            (snd (assets.processOtherAssets ap c1 dir extensionID w2))).
  { unfold assets.processOtherAssets.
    apply (eachPattern_keeps (requestsOnly relativeRef));
      [apply requestsOnly_refl|apply requestsOnly_trans|].
    intros m pattern w'. apply processAssetMatch_requests. }
  destruct (assets.processOtherAssets ap c1 dir extensionID w2) as [c2 w3].
  simpl in *. apply (requestsOnly_trans _ _ _ _ Hdir).
  apply (requestsOnly_trans _ _ _ _ Himg).
  destruct Hoth as (new & Hnew & Hok). exists new. split; [exact Hnew|].
  by apply relativeRef_remoteRef.
Qed.
End processor_invariants.

Section failed_fetches.
Context `{Environment} `{Platform}.

Lemma downloadAsset_fails (assetURL assetsDir : string) (w : World) :
  noFetchSucceeds →
  ∃ e w', assets.downloadAsset assetURL assetsDir w = (Err e, w') ∧ files w' = files w.
Proof.
  intros Hfail. unfold assets.downloadAsset, bind, httpGet. simpl.
  specialize (Hfail (length (requests w)) assetURL).
  destruct (http_Get (length (requests w)) assetURL) as [resp|]; simpl.
  - apply Z.eqb_neq in Hfail. unfold http.StatusOK. rewrite Hfail. simpl.
    by eexists _, _.
  - by eexists _, _.
Qed.

Lemma replacePieces_same (P : World → World → Prop)
    (ps : list regexp.piece) (repl : string → IO string) (w : World) :
  (∀ w, P w w) → (∀ w1 w2 w3, P w1 w2 → P w2 w3 → P w1 w3) →
  (∀ m w, ∃ w', repl m w = (m, w') ∧ P w w') →
  ∃ w', assets.replacePieces ps repl w = (joinPieces ps, w') ∧ P w w'.
Proof.
  intros Hrefl Htrans Hrepl. revert w.
  induction ps as [|[c|m] ps IH]; intros w; simpl.
  - by exists w.
  - unfold bind. destruct (IH w) as (w' & -> & HP). by exists w'.
  - unfold bind. destruct (Hrepl m w) as (w1 & -> & HP1).
    destruct (IH w1) as (w2 & -> & HP2). exists w2. split; [reflexivity|].
    exact (Htrans _ _ _ HP1 HP2).
Qed.

Lemma eachPattern_same (P : World → World → Prop) (patterns : list regexp.Regexp)
    (f : string → regexp.Regexp → IO string) (content : string) (w : World) :
  (∀ w, P w w) → (∀ w1 w2 w3, P w1 w2 → P w2 w3 → P w1 w3) →
  (∀ m pattern w, ∃ w', f m pattern w = (m, w') ∧ P w w') →
  ∃ w', assets.eachPattern patterns f content w = (content, w') ∧ P w w'.
Proof.
  intros Hrefl Htrans Hf. revert w.
  induction patterns as [|pattern rest IH]; intros w; simpl; [by exists w|].
  unfold bind, assets.ReplaceAllStringFunc.
  destruct (replacePieces_same P (regexp.allPieces pattern content)
              (fun m => f m pattern) w Hrefl Htrans (fun m w => Hf m pattern w))
    as (w1 & -> & HP1).
  rewrite joinPieces_allPieces.
  destruct (IH w1) as (w2 & -> & HP2). exists w2. split; [reflexivity|].
  exact (Htrans _ _ _ HP1 HP2).
Qed.

(** When no request is answered with status 200 and the asset directory
    can be created, [ProcessReadme] succeeds all the same: it returns the
    content with every reference as it was, and no file is created or
    changed. *)
Theorem ProcessReadme_failed_fetches_change_nothing (ap : assets.AssetProcessor)
    (content extensionID : string) (w : World) :
  noFetchSucceeds →
  fst (osMkdirAll (filepath_Join (assets.assetsDir ap) extensionID) w) = true →
  ∃ w',
    assets.ProcessReadme ap content extensionID w = (Ok content, w') ∧
    files w' = files w.
Proof.
  intros Hfail Hmk. unfold assets.ProcessReadme.
  destruct (String.eqb content "") eqn:Hempty.
  { apply String.eqb_eq in Hempty as ->. by exists w. }
  unfold bind.
  destruct (osMkdirAll (filepath_Join (assets.assetsDir ap) extensionID) w)
    as [made w1] eqn:Hdir.
  simpl in Hmk. subst made. simpl.
  assert (Hw1 : files w1 = files w).
  { unfold osMkdirAll in Hdir. case_match; by simplify_eq/=. }
  set (P := fun a b : World => files b = files a).
  assert (Hrefl : ∀ a, P a a) by done.
  assert (Htrans : ∀ a b c, P a b → P b c → P a c)
    by (unfold P; intros a b c H1 H2; by rewrite H2).
  destruct (eachPattern_same P assets.imagePatterns
              (fun m pattern => assets.processImageMatch ap m pattern
                 (filepath_Join (assets.assetsDir ap) extensionID) extensionID)
              content w1 Hrefl Htrans) as (w2 & Himg & HP2).
  { intros m pattern w0. unfold assets.processImageMatch.
    case_match; [by exists w0|]. case_match; [by exists w0|].
    unfold bind.
    destruct (downloadAsset_fails
                (assets.reference (regexp.FindStringSubmatch pattern m))
                (filepath_Join (assets.assetsDir ap) extensionID) w0 Hfail)
      as (e & w' & -> & Hfiles).
    by exists w'. }
  destruct (eachPattern_same P assets.otherPatterns
              (fun m pattern => assets.processAssetMatch ap m pattern
                 (filepath_Join (assets.assetsDir ap) extensionID) extensionID)
              content w2 Hrefl Htrans) as (w3 & Hoth & HP3).
  { intros m pattern w0. unfold assets.processAssetMatch.
    case_match; [by exists w0|]. case_match; [by exists w0|].
    unfold bind.
    destruct (downloadAsset_fails
                (assets.reference (regexp.FindStringSubmatch pattern m))
                (filepath_Join (assets.assetsDir ap) extensionID) w0 Hfail)
      as (e & w' & -> & Hfiles).
    by exists w'. }
  unfold assets.processImages, assets.processOtherAssets.
  rewrite Himg, Hoth. exists w3. split; [reflexivity|].
  unfold P in *. by rewrite HP3, HP2.
Qed.

Lemma app_long (h e : string) :
  (2 ≤ String.length e)%nat → h ++ e ≠ "" ∧ h ++ e ≠ ".".
Proof.
  intros He.
  assert (Hlen : (2 ≤ String.length (h ++ e))%nat) by (rewrite length_app_s; lia).
  split; intros Heq; rewrite Heq in Hlen; simpl in Hlen; lia.
Qed.

(** The local file name chosen for an asset is never empty and never the
    single dot, whatever the URL, the content type, the URL parser and the
    digest are. *)
Theorem generateFileName_is_a_name (assetURL contentType : string) :
  assets.generateFileName assetURL contentType ≠ "" ∧
  assets.generateFileName assetURL contentType ≠ ".".
Proof.
  unfold assets.generateFileName.
  destruct (url_Parse_Path assetURL) as [path|].
  - destruct (negb (String.eqb path "")).
    + destruct (String.eqb (filepath.Base path) "") eqn:H1; simpl.
      * repeat case_match; apply app_long; simpl; lia.
      * destruct (String.eqb (filepath.Base path) ".") eqn:H2; simpl.
        -- repeat case_match; apply app_long; simpl; lia.
        -- by apply String.eqb_neq in H1, H2.
    + repeat case_match; apply app_long; simpl; lia.
  - repeat case_match; apply app_long; simpl; lia.
Qed.
End failed_fetches.

Section failed_fetches_example.
#[local] Existing Instance samplePlatform.
#[local] Existing Instance offlineEnvironment.

Lemma ProcessReadme_failed_fetches_change_nothing_witness :
  ∃ w',
    assets.ProcessReadme (assets.NewAssetProcessor "assets" "https://domain:8080")
      "![alt](http://x/img.png) and <script src='app.js'></script>" "pub.ext" emptyWorld
    = (Ok "![alt](http://x/img.png) and <script src='app.js'></script>", w') ∧
    files w' = files emptyWorld.
Proof.
  apply (ProcessReadme_failed_fetches_change_nothing
           (assets.NewAssetProcessor "assets" "https://domain:8080")).
  - intros n url. exact I.
  - reflexivity.
Defined.
End failed_fetches_example.

(** ** The providers when a download fails *)

Section failed_download.
Context `{Environment} `{Platform}.

Lemma Marketplace_DownloadExtension_failed_request (m : marketplace.Marketplace)
    (info : marketplace.ExtensionInfo) (targetDir : string) (w : World) :
  fst (osMkdirAll targetDir w) = true →
  files w !! packagePath info targetDir = None →
  packagePath info targetDir ∉ dirs w →
  packagePath info targetDir ≠ targetDir →
  match http_Get (length (requests w)) (marketplace.DownloadURL info) with
  | None => True
  | Some resp => StatusCode resp ≠ 200%Z
  end →
  ∃ e w',
    marketplace.Marketplace_DownloadExtension m info targetDir w = (Err e, w') ∧
    files w' = files w ∧
    requests w' = (requests w ++ [marketplace.DownloadURL info])%list.
Proof.
  intros Hmk Hfile Hnodir Hne Hget.
  unfold marketplace.Marketplace_DownloadExtension,
    marketplace.Marketplace_downloadFile, marketplace.downloadFile.
  fold (packagePath info targetDir).
  set (filePath := packagePath info targetDir) in *.
  unfold bind, ret, osMkdirAll, osStat, httpGet in *. simpl in *.
  destruct (mkdir_ok targetDir && negb (bool_decide (is_Some (files w !! targetDir))));
    [|discriminate]. simpl.
  rewrite Hfile.
  rewrite (bool_decide_eq_false_2 (is_Some None)) by (by intros [? ?]).
  rewrite (bool_decide_eq_false_2 (filePath ∈ dirs w ∪ {[targetDir]})).
  2:{ rewrite elem_of_union, elem_of_singleton. tauto. }
  simpl.
  destruct (http_Get (length (requests w)) (marketplace.DownloadURL info)) as [resp|].
  - apply Z.eqb_neq in Hget. change http.StatusOK with 200%Z. rewrite Hget.
    simpl. by eexists _, _.
  - by eexists _, _.
Qed.

(** When the request for the package is not answered with status 200
    (transport error or another status), [DownloadExtension] of either
    provider returns an error, has made exactly that one request and leaves
    every file as it was: no empty or partial package appears. *)
Theorem DownloadExtension_failed_request_leaves_no_file
    (info : marketplace.ExtensionInfo) (targetDir : string) (w : World) :
  fst (osMkdirAll targetDir w) = true →
  files w !! packagePath info targetDir = None →
  packagePath info targetDir ∉ dirs w →
  packagePath info targetDir ≠ targetDir →
  match http_Get (length (requests w)) (marketplace.DownloadURL info) with
  | None => True
  | Some resp => StatusCode resp ≠ 200%Z
  end →
  (∀ m : marketplace.Marketplace, ∃ e w',
     marketplace.DownloadExtension m info targetDir w = (Err e, w') ∧
     files w' = files w ∧
     requests w' = (requests w ++ [marketplace.DownloadURL info])%list) ∧
  (∀ m : marketplace.OpenVSXMarketplace, ∃ e w',
     marketplace.DownloadExtension m info targetDir w = (Err e, w') ∧
     files w' = files w ∧
     requests w' = (requests w ++ [marketplace.DownloadURL info])%list).
Proof.
  intros Hmk Hfile Hnodir Hne Hget. split; intros m.
  - exact (Marketplace_DownloadExtension_failed_request m info targetDir w
             Hmk Hfile Hnodir Hne Hget).
  - exact (Marketplace_DownloadExtension_failed_request marketplace.New info targetDir w
             Hmk Hfile Hnodir Hne Hget).
Qed.

Lemma Marketplace_DownloadExtension_interrupted (m : marketplace.Marketplace)
    (info : marketplace.ExtensionInfo) (targetDir : string) (w : World)
    (resp : Response) :
  fst (osMkdirAll targetDir w) = true →
  files w !! packagePath info targetDir = None →
  packagePath info targetDir ∉ dirs w →
  packagePath info targetDir ≠ targetDir →
  http_Get (length (requests w)) (marketplace.DownloadURL info) = Some resp →
  StatusCode resp = 200%Z →
  BodyErr resp = true →
  create_ok (packagePath info targetDir) = true →
  ∃ e w1,
    marketplace.Marketplace_DownloadExtension m info targetDir w = (Err e, w1) ∧
    files w1 !! packagePath info targetDir = Some (Body resp) ∧
    marketplace.Marketplace_DownloadExtension m info targetDir w1
    = (Ok (marketplace.mkDownloadResult (packagePath info targetDir) false), w1).
Proof.
  intros Hmk Hfile Hnodir Hne Hget Hstatus Hbody Hcreate.
  unfold marketplace.Marketplace_DownloadExtension,
    marketplace.Marketplace_downloadFile, marketplace.downloadFile.
  fold (packagePath info targetDir).
  set (filePath := packagePath info targetDir) in *.
  assert (Hmk' : mkdir_ok targetDir = true ∧ files w !! targetDir = None).
  { unfold osMkdirAll in Hmk. case_match eqn:Hc; [|discriminate].
    apply andb_true_iff in Hc as [Hok Hno]. split; [exact Hok|].
    apply negb_true_iff, bool_decide_eq_false in Hno.
    destruct (files w !! targetDir) eqn:Hl; [|reflexivity].
    exfalso. apply Hno. by eexists. }
  destruct Hmk' as [Hok Hnofile].
  assert (Hindir : bool_decide (filePath ∈ dirs w ∪ {[targetDir]}) = false).
  { apply bool_decide_eq_false_2. rewrite elem_of_union, elem_of_singleton. tauto. }
  unfold bind, ret, osMkdirAll, osStat, httpGet, osCreate, ioCopy. simpl.
  assert (Hnone : bool_decide (is_Some (@None string)) = false)
    by (apply bool_decide_eq_false_2; by intros [? ?]).
  rewrite Hok, Hnofile, Hnone. simpl.
  rewrite Hfile, Hnone, Hindir. simpl.
  rewrite Hget, Hstatus. change (200 =? http.StatusOK)%Z with true. simpl.
  rewrite Hcreate, Hindir. simpl. rewrite Hbody. simpl.
  eexists _, _. split; [reflexivity|]. simpl.
  split; [apply lookup_insert_eq|].
  rewrite !lookup_insert_ne by (intros Heq; by apply Hne).
  rewrite Hnofile, Hnone.
  simpl. rewrite lookup_insert_eq.
  rewrite (bool_decide_eq_true_2 (is_Some (Some (Body resp)))) by (by eexists).
  simpl. by rewrite union_singleton_absorb.
Qed.

(** When the body of the package breaks off during the copy,
    [DownloadExtension] of either provider returns an error but leaves the
    file with the bytes received so far; a second call with the same
    arguments then takes that partial file for the package: it makes no
    request and reports the path with [WasDownloaded = false]. *)
Theorem DownloadExtension_interrupted_copy_is_taken_for_the_package
    (info : marketplace.ExtensionInfo) (targetDir : string) (w : World)
    (resp : Response) :
  fst (osMkdirAll targetDir w) = true →
  files w !! packagePath info targetDir = None →
  packagePath info targetDir ∉ dirs w →
  packagePath info targetDir ≠ targetDir →
  http_Get (length (requests w)) (marketplace.DownloadURL info) = Some resp →
  StatusCode resp = 200%Z →
  BodyErr resp = true →
  create_ok (packagePath info targetDir) = true →
  (∀ m : marketplace.Marketplace, ∃ e w1,
     marketplace.DownloadExtension m info targetDir w = (Err e, w1) ∧
     files w1 !! packagePath info targetDir = Some (Body resp) ∧
     marketplace.DownloadExtension m info targetDir w1
     = (Ok (marketplace.mkDownloadResult (packagePath info targetDir) false), w1)) ∧
  (∀ m : marketplace.OpenVSXMarketplace, ∃ e w1,
     marketplace.DownloadExtension m info targetDir w = (Err e, w1) ∧
     files w1 !! packagePath info targetDir = Some (Body resp) ∧
     marketplace.DownloadExtension m info targetDir w1
     = (Ok (marketplace.mkDownloadResult (packagePath info targetDir) false), w1)).
Proof.
  intros Hmk Hfile Hnodir Hne Hget Hstatus Hbody Hcreate. split; intros m.
  - exact (Marketplace_DownloadExtension_interrupted m info targetDir w resp
             Hmk Hfile Hnodir Hne Hget Hstatus Hbody Hcreate).
  - exact (Marketplace_DownloadExtension_interrupted marketplace.New info targetDir w resp
             Hmk Hfile Hnodir Hne Hget Hstatus Hbody Hcreate).
Qed.
End failed_download.

Section failed_download_examples.
#[local] Existing Instance samplePlatform.

Lemma DownloadExtension_failed_request_leaves_no_file_witness :
  (∀ m : marketplace.Marketplace, ∃ e w',
     @marketplace.DownloadExtension _ (@marketplace.Marketplace_provider
        offlineEnvironment samplePlatform) m sampleInfo "extensions" emptyWorld
     = (Err e, w') ∧
     files w' = files emptyWorld ∧
     requests w' = ["https://upstream/ext.vsix"]) ∧
  (∀ m : marketplace.OpenVSXMarketplace, ∃ e w',
     @marketplace.DownloadExtension _ (@marketplace.OpenVSX_provider
        offlineEnvironment samplePlatform) m sampleInfo "extensions" emptyWorld
     = (Err e, w') ∧
     files w' = files emptyWorld ∧
     requests w' = ["https://upstream/ext.vsix"]).
Proof.
  apply (@DownloadExtension_failed_request_leaves_no_file offlineEnvironment
           samplePlatform sampleInfo "extensions" emptyWorld).
  - reflexivity.
  - reflexivity.
  - apply not_elem_of_empty.
  - vm_compute. discriminate.
  - exact I.
Defined.

Lemma DownloadExtension_interrupted_copy_is_taken_for_the_package_witness :
  (∀ m : marketplace.Marketplace, ∃ e w1,
     @marketplace.DownloadExtension _ (@marketplace.Marketplace_provider
        flakyEnvironment samplePlatform) m sampleInfo "extensions" emptyWorld
     = (Err e, w1) ∧
     files w1 !! "extensions/ext-1.0.0.vsix" = Some "PART" ∧
     @marketplace.DownloadExtension _ (@marketplace.Marketplace_provider
        flakyEnvironment samplePlatform) m sampleInfo "extensions" w1
     = (Ok (marketplace.mkDownloadResult "extensions/ext-1.0.0.vsix" false), w1)) ∧
  (∀ m : marketplace.OpenVSXMarketplace, ∃ e w1,
     @marketplace.DownloadExtension _ (@marketplace.OpenVSX_provider
        flakyEnvironment samplePlatform) m sampleInfo "extensions" emptyWorld
     = (Err e, w1) ∧
     files w1 !! "extensions/ext-1.0.0.vsix" = Some "PART" ∧
     @marketplace.DownloadExtension _ (@marketplace.OpenVSX_provider
        flakyEnvironment samplePlatform) m sampleInfo "extensions" w1
     = (Ok (marketplace.mkDownloadResult "extensions/ext-1.0.0.vsix" false), w1)).
Proof.
  apply (@DownloadExtension_interrupted_copy_is_taken_for_the_package flakyEnvironment
           samplePlatform sampleInfo "extensions" emptyWorld
           (mkResponse 200 "application/octet-stream" "PART" true)).
  - reflexivity.
  - reflexivity.
  - apply not_elem_of_empty.
  - vm_compute. discriminate.
  - reflexivity.
  - reflexivity.
  - reflexivity.
  - reflexivity.
Defined.
End failed_download_examples.

(** ** The storage layer: invariants and listings *)

Lemma NoDup_ids_filter (P : database.ExtensionDB → bool) (l : list database.ExtensionDB) :
  NoDup (map database.ID l) → NoDup (map database.ID (filter P l)).
Proof.
  intros Hnd. apply (NoDup_fmap_1 database.ID) in Hnd as Hl.
  induction l as [|r l IH]; [constructor|].
  apply NoDup_cons in Hnd as [Hr Hnd].
  rewrite filter_cons. case_decide; [|apply IH; [exact Hnd|by apply NoDup_fmap_1 in Hnd]].
  simpl. apply NoDup_cons. split.
  - intros Hin. apply Hr. apply list_elem_of_fmap in Hin as (r' & -> & Hin).
    apply list_elem_of_fmap. exists r'. split; [reflexivity|].
    by apply list_elem_of_filter in Hin as [_ Hin].
  - apply IH; [exact Hnd|by apply NoDup_fmap_1 in Hnd].
Qed.

Lemma ids_excluded (id : string) (l : list database.ExtensionDB) :
  id ∉ map database.ID (filter (fun r => negb (database.hasID id r)) l).
Proof.
  intros Hin. apply list_elem_of_fmap in Hin as (r & -> & Hin).
  apply list_elem_of_filter in Hin as [Hr _].
  unfold database.hasID in Hr. by rewrite String.eqb_refl in Hr.
Qed.

(** Every table that the writing statements produce from the empty table
    holds each identifier at most once. *)
Theorem reachable_ids_unique (d : database.Database) :
  reachable d → NoDup (ids d).
Proof.
  unfold ids. induction 1 as [|d b _ IH|d ext _ IH|d id _ IH|d _ IH]; simpl.
  - constructor.
  - exact IH.
  - unfold database.UpsertExtension. destruct (database.broken d); simpl; [exact IH|].
    rewrite map_app. apply NoDup_app. split; [by apply NoDup_ids_filter|].
    split; [|apply NoDup_singleton].
    intros x Hx ->%list_elem_of_singleton. by apply ids_excluded in Hx.
  - unfold database.DeleteExtension. destruct (database.broken d); simpl; [exact IH|].
    by apply NoDup_ids_filter.
  - unfold database_queries.DeleteAllExtensions.
    destruct (database.broken d); simpl; [exact IH|constructor].
Qed.

Lemma reachable_ids_unique_witness :
  NoDup (ids (fst (database.UpsertExtension
                     (fst (database.UpsertExtension (database.mkDatabase [] false)
                             (sampleRow "pub" "ext" "1.0.0" 1)))
                     (sampleRow "pub" "ext" "1.0.1" 2)))).
Proof.
  apply reachable_ids_unique. apply reach_upsert, reach_upsert, reach_empty.
Defined.

Lemma find_filter_other (id id' : string) (l : list database.ExtensionDB) :
  id' ≠ id →
  List.find (database.hasID id') (filter (fun r => negb (database.hasID id r)) l)
  = List.find (database.hasID id') l.
Proof.
  intros Hne. induction l as [|r l IH]; [reflexivity|].
  rewrite filter_cons. simpl. case_decide as Hr.
  - simpl. by rewrite IH.
  - rewrite IH. destruct (database.hasID id' r) eqn:Hr'; [|reflexivity].
    exfalso. unfold database.hasID in *.
    apply String.eqb_eq in Hr'. destruct (String.eqb_spec (database.ID r) id); simpl in Hr.
    + congruence.
    + by apply Hr.
Qed.

Lemma filter_absent (id : string) (l : list database.ExtensionDB) :
  id ∉ map database.ID l → filter (fun r => negb (database.hasID id r)) l = l.
Proof.
  intros Hno. induction l as [|r l IH]; [reflexivity|].
  simpl in Hno. apply not_elem_of_cons in Hno as [Hr Hno].
  rewrite filter_cons. case_decide as Hd; [by rewrite IH|].
  exfalso. apply Hd. unfold database.hasID.
  destruct (String.eqb_spec (database.ID r) id); [congruence|exact I].
Qed.

(** [DeleteExtension] on a working store reports no error; afterwards a
    lookup of the identifier finds no row, the lookups of all other
    identifiers answer as before, and when the identifier was not stored
    the table is unchanged (deleting an unknown identifier is no error). *)
Theorem DeleteExtension_removes_the_row (d : database.Database) (id : string) :
  database.broken d = false →
  let d' := fst (database.DeleteExtension d id) in
  snd (database.DeleteExtension d id) = None ∧
  database.GetExtensionByID d' id = (None, None) ∧
  (∀ id', id' ≠ id →
     database.GetExtensionByID d' id' = database.GetExtensionByID d id') ∧
  (id ∉ ids d → database.rows d' = database.rows d).
Proof.
  intros Hok d'. unfold d', database.DeleteExtension, database.GetExtensionByID.
  rewrite Hok. simpl. split; [reflexivity|]. split; [|split].
  - by rewrite find_hasID_excluded.
  - intros id' Hne. by rewrite (find_filter_other id id' _ Hne).
  - apply filter_absent.
Qed.

Lemma DeleteExtension_removes_the_row_witness :
  let d := database.mkDatabase
             [sampleRow "pub" "a" "1.0.0" 1; sampleRow "pub" "b" "1.0.0" 2] false in
  let d' := fst (database.DeleteExtension d "pub.a") in
  snd (database.DeleteExtension d "pub.a") = None ∧
  database.GetExtensionByID d' "pub.a" = (None, None) ∧
  (∀ id', id' ≠ "pub.a" →
     database.GetExtensionByID d' id' = database.GetExtensionByID d id') ∧
  ("pub.a" ∉ ids d → database.rows d' = database.rows d).
Proof.
  exact (DeleteExtension_removes_the_row
           (database.mkDatabase
              [sampleRow "pub" "a" "1.0.0" 1; sampleRow "pub" "b" "1.0.0" 2] false)
           "pub.a" eq_refl).
Defined.

#[global] Instance newerFirst_total : Total database.newerFirst.
Proof. intros a b. unfold database.newerFirst. lia. Qed.

#[global] Instance newerFirst_trans : Transitive database.newerFirst.
Proof. intros a b c. unfold database.newerFirst. lia. Qed.

Lemma wrap64_small (z : Z) : (0 ≤ z < 2 ^ 63)%Z → database.wrap64 z = z.
Proof.
  intros Hz. unfold database.wrap64.
  rewrite Z.mod_small; lia.
Qed.

Lemma StronglySorted_sublist {A} (R : relation A) (l k : list A) :
  l `sublist_of` k → StronglySorted R k → StronglySorted R l.
Proof.
  induction 1 as [|x l k Hsub IH|x l k Hsub IH]; intros Hk.
  - constructor.
  - apply StronglySorted_inv in Hk as [Hk Hall]. constructor; [by apply IH|].
    rewrite Forall_forall in Hall |- *. intros y Hy. apply Hall.
    exact (elem_of_sublist l k y Hy Hsub).
  - apply StronglySorted_inv in Hk as [Hk _]. by apply IH.
Qed.

Lemma limitOffset_sublist {A} (limit offset : Z) (l : list A) :
  database.limitOffset limit offset l `sublist_of` l.
Proof.
  unfold database.limitOffset. destruct (limit <? 0)%Z.
  - apply sublist_drop.
  - etrans; [apply sublist_take|apply sublist_drop].
Qed.

Lemma limitOffset_length {A} (limit offset : Z) (l : list A) :
  (0 ≤ limit)%Z → (Z.of_nat (length (database.limitOffset limit offset l)) ≤ limit)%Z.
Proof.
  intros Hl. unfold database.limitOffset.
  destruct (limit <? 0)%Z eqn:Hneg; [lia|]. rewrite length_take. lia.
Qed.

(** On a working store every page of [GetAllExtensions] is ordered from
    the newest to the oldest record, consists of stored rows, none of them
    twice when the identifiers are unique, and holds at most [limit] rows
    when the limit is not negative; the total is the number of stored rows
    whatever the page is. *)
Theorem GetAllExtensions_page (d : database.Database) (page limit : Z) :
  database.broken d = false →
  ∃ exts,
    database.GetAllExtensions d page limit
    = (exts, Z.of_nat (length (database.rows d)), None) ∧
    StronglySorted database.newerFirst exts ∧
    (∀ r, r ∈ exts → r ∈ database.rows d) ∧
    (NoDup (ids d) → NoDup (map database.ID exts)) ∧
    ((0 ≤ limit)%Z → (Z.of_nat (length exts) ≤ limit)%Z).
Proof.
  intros Hok. unfold database.GetAllExtensions. rewrite Hok.
  eexists. split; [reflexivity|].
  set (sorted := merge_sort database.newerFirst (database.rows d)).
  set (offset := database.wrap64 ((page - 1) * limit)).
  pose proof (limitOffset_sublist limit offset sorted) as Hsub.
  pose proof (merge_sort_Permutation database.newerFirst (database.rows d)) as Hperm.
  fold sorted in Hperm.
  split; [|split; [|split]].
  - apply (StronglySorted_sublist _ _ sorted Hsub).
    apply StronglySorted_merge_sort; apply _.
  - intros r Hr. rewrite <- Hperm. by apply (elem_of_sublist _ sorted r Hr).
  - intros Hnd. unfold ids in Hnd.
    apply (sublist_NoDup _ (map database.ID sorted)); [|by apply fmap_sublist].
    change (NoDup (database.ID <$> sorted)). by rewrite Hperm.
  - apply limitOffset_length.
Qed.

Lemma GetAllExtensions_page_witness :
  ∃ exts,
    database.GetAllExtensions
      (database.mkDatabase
         [sampleRow "pub" "a" "1.0.0" 1; sampleRow "pub" "b" "1.0.0" 2] false) 1 1
    = (exts, 2%Z, None) ∧
    StronglySorted database.newerFirst exts ∧
    (∀ r, r ∈ exts →
          r ∈ [sampleRow "pub" "a" "1.0.0" 1; sampleRow "pub" "b" "1.0.0" 2]) ∧
    (NoDup ["pub.a"; "pub.b"] → NoDup (map database.ID exts)) ∧
    ((0 ≤ 1)%Z → (Z.of_nat (length exts) ≤ 1)%Z).
Proof.
  exact (GetAllExtensions_page
           (database.mkDatabase
              [sampleRow "pub" "a" "1.0.0" 1; sampleRow "pub" "b" "1.0.0" 2] false)
           1 1 eq_refl).
Defined.





Section search_properties.
Context `{Platform}.

Lemma search_page_rows (rows : list database.ExtensionDB) (searchPattern : string)
    (limit offset : Z) (row : database.ExtensionDB) :
  row ∈ database.limitOffset limit offset
          (merge_sort database.newerFirst
             (filter (database.matchesSearch searchPattern) rows)) →
  row ∈ rows ∧ database.matchesSearch searchPattern row = true.
Proof.
  intros Hrow.
  pose proof (elem_of_sublist _ _ row Hrow
                (limitOffset_sublist limit offset
                   (merge_sort database.newerFirst
                      (filter (database.matchesSearch searchPattern) rows)))) as Hin.
  rewrite (merge_sort_Permutation database.newerFirst _) in Hin.
  apply list_elem_of_filter in Hin as [Hm Hin].
  split; [exact Hin|by apply Is_true_true].
Qed.

(** On a working store [SearchExtensions] returns only stored rows that
    match the pattern in the name, the display name, the description or
    the publisher, ordered from the newest to the oldest, at most [limit]
    of them when the limit is not negative; the total is the number of all
    matching rows and never less than the number of rows returned. *)
Theorem SearchExtensions_sound (d : database.Database) (query : string)
    (page limit : Z) :
  database.broken d = false →
  let matching :=
    filter (database.matchesSearch ("%" ++ query ++ "%")) (database.rows d) in
  ∃ exts,
    database.SearchExtensions d query page limit
    = (exts, Z.of_nat (length matching), None) ∧
    (∀ r, r ∈ exts →
          r ∈ database.rows d ∧ database.matchesSearch ("%" ++ query ++ "%") r = true) ∧
    StronglySorted database.newerFirst exts ∧
    (length exts ≤ length matching)%nat ∧
    ((0 ≤ limit)%Z → (Z.of_nat (length exts) ≤ limit)%Z).
Proof.
  intros Hok matching. unfold database.SearchExtensions. rewrite Hok.
  eexists. split; [reflexivity|]. fold matching.
  set (sorted := merge_sort database.newerFirst matching).
  set (offset := database.wrap64 ((page - 1) * limit)).
  pose proof (limitOffset_sublist limit offset sorted) as Hsub.
  pose proof (merge_sort_Permutation database.newerFirst matching) as Hperm.
  fold sorted in Hperm.
  split; [|split; [|split]].
  - intros r Hr. by apply (search_page_rows _ _ limit offset).
  - apply (StronglySorted_sublist _ _ sorted Hsub).
    apply StronglySorted_merge_sort; apply _.
  - rewrite <- (Permutation_length Hperm). by apply sublist_length.
  - apply limitOffset_length.
Qed.
End search_properties.

Section search_examples.
#[local] Existing Instance samplePlatform.

Lemma SearchExtensions_sound_witness :
  let d := database.mkDatabase [sampleRow "pub" "a" "1.0.0" 1] false in
  let matching := filter (database.matchesSearch ("%" ++ "a" ++ "%")) (database.rows d) in
  ∃ exts,
    database.SearchExtensions d "a" 1 1000
    = (exts, Z.of_nat (length matching), None) ∧
    (∀ r, r ∈ exts →
          r ∈ database.rows d ∧ database.matchesSearch ("%" ++ "a" ++ "%") r = true) ∧
    StronglySorted database.newerFirst exts ∧
    (length exts ≤ length matching)%nat ∧
    ((0 ≤ 1000)%Z → (Z.of_nat (length exts) ≤ 1000)%Z).
Proof.
  exact (SearchExtensions_sound
           (database.mkDatabase [sampleRow "pub" "a" "1.0.0" 1] false) "a" 1 1000 eq_refl).
Defined.
End search_examples.

(** ** The converters and the way of a record through the store *)

Section converter_properties.
Context `{Platform}.

Lemma convert_ToDBExtension (ext : models.Extension) :
  roundTrips ext → database.convert (database.ToDBExtension ext) = ext.
Proof.
  intros (He & Hc & Ht). destruct ext. unfold database.convert, database.ToDBExtension.
  simpl in *. by rewrite He, Hc, Ht.
Qed.

(** Converting a record to its stored form and back gives the record
    itself, field for field, when its engines, categories and tags
    survive the JSON encoding; the same holds for a list of records. *)
Theorem ToExtension_ToDBExtension_round_trip (exts : list models.Extension) :
  Forall roundTrips exts →
  Forall (fun ext => database.ToExtension (Some (database.ToDBExtension ext)) = Return ext)
    exts ∧
  database.ToExtensionSlice (map database.ToDBExtension exts) = map Some exts.
Proof.
  intros Hall. split.
  - eapply Forall_impl; [exact Hall|]. intros ext Hext. simpl.
    by rewrite (convert_ToDBExtension ext Hext).
  - unfold database.ToExtensionSlice. rewrite map_map.
    induction Hall as [|ext exts Hext _ IH]; [reflexivity|].
    simpl. by rewrite (convert_ToDBExtension ext Hext), IH.
Qed.

(** A record ingested into a working store is what the manager returns
    for its identifier afterwards, field for field, and it stays so when
    records with other identifiers are ingested or deleted later. *)
Theorem ingested_record_is_found (m : extensions.Manager) (ext : models.Extension)
    (later : list (database.ExtensionDB + string)) :
  database.broken (extensions.db m) = false →
  roundTrips ext →
  Forall (fun op => match op with
                    | inl row => database.ID row ≠ models.ID ext
                    | inr id => id ≠ models.ID ext
                    end) later →
  let d1 := fst (database.UpsertExtension (extensions.db m) (database.ToDBExtension ext)) in
  let d2 := foldl (fun d op => match op with
                               | inl row => fst (database.UpsertExtension d row)
                               | inr id => fst (database.DeleteExtension d id)
                               end) d1 later in
  extensions.GetByID (extensions.mkManager (extensions.directory m) d2) (models.ID ext)
  = Return (Some ext, true).
Proof.
  intros Hok Hrt Hlater d1 d2.
  assert (Hd1 : database.broken d1 = false ∧
                List.find (database.hasID (models.ID ext)) (database.rows d1)
                = Some (database.ToDBExtension ext)).
  { unfold d1, database.UpsertExtension. rewrite Hok. simpl. split; [reflexivity|].
    rewrite find_app_none by apply find_hasID_excluded.
    simpl. unfold database.hasID. simpl. by rewrite String.eqb_refl. }
  assert (Hd2 : database.broken d2 = false ∧
                List.find (database.hasID (models.ID ext)) (database.rows d2)
                = Some (database.ToDBExtension ext)).
  { unfold d2. clearbody d1. clear d2. revert d1 Hd1.
    induction Hlater as [|op later Hop _ IH]; intros d1 Hd1; [exact Hd1|].
    simpl. apply IH. destruct Hd1 as [Hb Hf]. destruct op as [row|id].
    - unfold database.UpsertExtension. rewrite Hb. simpl. split; [reflexivity|].
      assert (Hkeep : List.find (database.hasID (models.ID ext))
                (filter (fun r => negb (database.hasID (database.ID row) r))
                   (database.rows d1)) = Some (database.ToDBExtension ext)).
      { rewrite find_filter_other by (intros Heq; by apply Hop). exact Hf. }
      clear Hf. revert Hkeep.
      generalize (filter (fun r => negb (database.hasID (database.ID row) r))
                    (database.rows d1)).
      intros l. induction l as [|r l IHl]; [discriminate|]. simpl.
      destruct (database.hasID (models.ID ext) r); [done|exact IHl].
    - unfold database.DeleteExtension. rewrite Hb. simpl. split; [reflexivity|].
      rewrite find_filter_other by (intros Heq; by apply Hop). exact Hf. }
  destruct Hd2 as [Hb Hf].
  rewrite (GetByID_present _ _ (database.ToDBExtension ext)) by done.
  by rewrite (convert_ToDBExtension ext Hrt).
Qed.
End converter_properties.

Section converter_examples.
#[local] Existing Instance samplePlatform.

Lemma ToExtension_ToDBExtension_round_trip_witness :
  Forall (fun ext => database.ToExtension (Some (database.ToDBExtension ext)) = Return ext)
    [sampleExtension] ∧
  database.ToExtensionSlice (map database.ToDBExtension [sampleExtension])
  = map Some [sampleExtension].
Proof.
  apply (ToExtension_ToDBExtension_round_trip [sampleExtension]).
  constructor; [|constructor]. by repeat split.
Defined.

Lemma ingested_record_is_found_witness :
  let m := extensions.mkManager "extensions" (database.mkDatabase [] false) in
  let d1 := fst (database.UpsertExtension (extensions.db m)
                   (database.ToDBExtension sampleExtension)) in
  let d2 := foldl (fun d op => match op with
                               | inl row => fst (database.UpsertExtension d row)
                               | inr id => fst (database.DeleteExtension d id)
                               end) d1
              [inl (sampleRow "pub" "other" "2.0.0" 9); inr "pub.other"] in
  extensions.GetByID (extensions.mkManager (extensions.directory m) d2)
    (models.ID sampleExtension)
  = Return (Some sampleExtension, true).
Proof.
  apply (ingested_record_is_found
           (extensions.mkManager "extensions" (database.mkDatabase [] false))
           sampleExtension
           [inl (sampleRow "pub" "other" "2.0.0" 9); inr "pub.other"]).
  - reflexivity.
  - by repeat split.
  - repeat constructor; simpl; discriminate.
Defined.
End converter_examples.

(** ** The manager: reading a package *)

Lemma readmePaths_accepted (name : string) :
  existsb (fun path => String.eqb name path || manager.isReadmeFile name)
    manager.readmePaths
  = manager.isReadmeFile name.
Proof.
  unfold manager.readmePaths. cbn [existsb].
  destruct (manager.isReadmeFile name) eqn:Hname.
  - by rewrite orb_true_r.
  - rewrite !orb_false_r.
    repeat match goal with
    | |- context [String.eqb name ?p] =>
        destruct (String.eqb_spec name p) as [->|_];
          [vm_compute in Hname; discriminate|]
    end.
    reflexivity.
Qed.

Lemma readReadme_firstReadme (reader : extensions.zipFiles) :
  manager.readReadme reader = firstReadme reader.
Proof.
  unfold firstReadme. induction reader as [|file rest IH]; [reflexivity|].
  cbn [manager.readReadme List.find]. rewrite readmePaths_accepted.
  destruct (manager.isReadmeFile (fst file)); [reflexivity|exact IH].
Qed.

Section manager_properties.
Context `{Platform} `{Library}.

Lemma replaceLocalizedStrings_untranslated (pkg : extensions.packageInfo)
    (nls : gmap string string) :
  untranslated (extensions.replaceLocalizedStrings pkg nls) = untranslated pkg.
Proof.
  unfold extensions.replaceLocalizedStrings.
  repeat case_match; reflexivity.
Qed.

Lemma processLocalization_untranslated (reader : extensions.zipFiles)
    (pkg : extensions.packageInfo) :
  untranslated (extensions.processLocalization reader pkg) = untranslated pkg.
Proof.
  unfold extensions.processLocalization.
  repeat case_match; try reflexivity. apply replaceLocalizedStrings_untranslated.
Qed.

(** Localization touches the display name and the description only: the
    name, version, publisher and all other fields of the manifest are as
    before, hence so is the identifier publisher.name under which the
    package is stored; a manifest without a percent sign in the two texts
    is not changed at all. *)
Theorem processLocalization_keeps_the_identity (reader : extensions.zipFiles)
    (pkg : extensions.packageInfo) (filePath : string) (size modTime : Z)
    (readme : string) :
  let pkg' := extensions.processLocalization reader pkg in
  untranslated pkg' = untranslated pkg ∧
  models.ID (extensions.createExtension pkg' filePath size modTime readme)
  = extensions.Publisher pkg ++ "." ++ extensions.Name pkg ∧
  (gostrings.Contains (extensions.DisplayName pkg) "%" = false →
   gostrings.Contains (extensions.Description pkg) "%" = false →
   pkg' = pkg).
Proof.
  intros pkg'.
  pose proof (processLocalization_untranslated reader pkg) as Hsame. fold pkg' in Hsame.
  split; [exact Hsame|]. split.
  - unfold untranslated in Hsame. simpl. congruence.
  - intros Hd He. unfold pkg', extensions.processLocalization. by rewrite Hd, He.
Qed.

(** The readme that [readReadmeFromVSIX] returns is the content of the
    first entry of the archive whose name [isReadmeFile] accepts, empty
    when that entry cannot be read, when there is none or when the file is
    no archive: the list of the eight usual paths never decides, so an
    accepted entry that comes earlier in the archive, such as the readme
    of a bundled dependency, is taken instead of extension/README.md. *)
Theorem readReadmeFromVSIX_is_first_accepted_entry (w : World) (filePath : string) :
  manager.readReadmeFromVSIX w filePath
  = match files w !! filePath ≫= zip_Read with
    | Some reader => firstReadme reader
    | None => ""
    end.
Proof.
  unfold manager.readReadmeFromVSIX.
  destruct (files w !! filePath ≫= zip_Read) as [reader|]; [|reflexivity].
  apply readReadme_firstReadme.
Qed.

(** A package file that is a readable archive with a readable and
    well-formed extension/package.json is read successfully, whether or
    not it holds a localization table or a readme: the record is stored
    under publisher.name of the manifest, carries the path and the size of
    the file, the modification time as its three dates, and as readme the
    first accepted entry of the archive. *)
Theorem ReadExtensionInfo_reads_the_manifest (w : World) (filePath bytes : string)
    (reader : extensions.zipFiles) (packageJSON : string)
    (pkg : extensions.packageInfo) :
  files w !! filePath = Some bytes →
  zip_Read bytes = Some reader →
  manager.readPackageJSON reader = Ok packageJSON →
  json_Unmarshal_package packageJSON = Some pkg →
  ∃ ext,
    manager.ReadExtensionInfo w filePath = Ok ext ∧
    models.ID ext = extensions.Publisher pkg ++ "." ++ extensions.Name pkg ∧
    models.ExtensionID ext = models.ID ext ∧
    models.Version ext = extensions.Version pkg ∧
    models.FilePath ext = filePath ∧
    models.FileSize ext = Z.of_nat (String.length bytes) ∧
    models.LastUpdated ext = stat_ModTime filePath ∧
    models.PublishedDate ext = stat_ModTime filePath ∧
    models.ReleaseDate ext = stat_ModTime filePath ∧
    models.ReadmeContent ext = firstReadme reader.
Proof.
  intros Hfile Hzip Hjson Hpkg.
  unfold manager.ReadExtensionInfo, manager.parsePackageJSON,
    manager.readReadmeFromVSIX.
  rewrite Hfile. simpl. rewrite Hzip, Hjson, Hpkg.
  eexists. split; [reflexivity|].
  pose proof (processLocalization_untranslated reader pkg) as Hsame.
  unfold untranslated in Hsame. simpl. rewrite readReadme_firstReadme.
  repeat split; congruence.
Qed.
End manager_properties.

Section manager_examples.
#[local] Existing Instance archivePlatform.
#[local] Existing Instance sampleLibrary.

Lemma ReadExtensionInfo_reads_the_manifest_witness :
  ∃ ext,
    manager.ReadExtensionInfo
      (mkWorld {[ "extensions/ext-1.0.0.vsix" := "ZIP!" ]} ∅ [])
      "extensions/ext-1.0.0.vsix" = Ok ext ∧
    models.ID ext = "pub" ++ "." ++ "ext" ∧
    models.ExtensionID ext = models.ID ext ∧
    models.Version ext = "1.0.0" ∧
    models.FilePath ext = "extensions/ext-1.0.0.vsix" ∧
    models.FileSize ext = Z.of_nat (String.length "ZIP!") ∧
    models.LastUpdated ext = 7%Z ∧
    models.PublishedDate ext = 7%Z ∧
    models.ReleaseDate ext = 7%Z ∧
    models.ReadmeContent ext = "dependency".
Proof.
  exact (ReadExtensionInfo_reads_the_manifest
           (mkWorld {[ "extensions/ext-1.0.0.vsix" := "ZIP!" ]} ∅ [])
           "extensions/ext-1.0.0.vsix" "ZIP!"
           [("extension/node_modules/dep/README.md", Some "dependency");
            ("extension/package.json", Some "{ext}");
            ("extension/README.md", Some "the readme")]
           "{ext}" (samplePackage "Ext" "An extension")
           eq_refl eq_refl eq_refl eq_refl).
Defined.
End manager_examples.

(** ** The manager: queries with filters and paging *)

Lemma applyPagination_segment {A} (exts : list A) (offset size : Z) :
  (0 ≤ offset)%Z → (0 ≤ size)%Z → (offset + size < 2 ^ 63)%Z →
  manager.applyPagination exts offset size
  = Return (take (Z.to_nat size) (drop (Z.to_nat offset) exts)).
Proof.
  intros Ho Hs Hsum. unfold manager.applyPagination.
  destruct (Z.leb_spec (Z.of_nat (length exts)) offset) as [Hbeyond|Hin].
  - rewrite drop_ge by lia. by rewrite take_nil.
  - rewrite wrap64_small by lia.
    destruct (Z.ltb_spec offset 0) as [?|_]; [lia|].
    destruct (Z.ltb_spec (Z.of_nat (length exts)) (offset + size)) as [Hcut|Hfit].
    + destruct (Z.ltb_spec (Z.of_nat (length exts)) offset) as [?|_]; [lia|].
      simpl. f_equal.
      rewrite !take_ge; [reflexivity| |]; rewrite length_drop; lia.
    + destruct (Z.ltb_spec (offset + size) offset) as [?|_]; [lia|].
      simpl. do 2 f_equal. lia.
Qed.

Lemma applyPagination_negative_offset {A} (exts : list A) (offset size : Z) :
  (offset < 0)%Z →
  manager.applyPagination exts offset size = Panic "slice bounds out of range".
Proof.
  intros Ho. unfold manager.applyPagination.
  destruct (Z.leb_spec (Z.of_nat (length exts)) offset) as [?|_]; [lia|].
  destruct (Z.ltb_spec offset 0) as [_|?]; [reflexivity|lia].
Qed.

Lemma applyPagination_negative_size {A} (exts : list A) (offset size : Z) :
  (0 ≤ offset < Z.of_nat (length exts))%Z → (offset < 2 ^ 63)%Z →
  (- 2 ^ 63 ≤ size < 0)%Z →
  manager.applyPagination exts offset size = Panic "slice bounds out of range".
Proof.
  intros Ho Hint Hs. unfold manager.applyPagination.
  destruct (Z.leb_spec (Z.of_nat (length exts)) offset) as [?|_]; [lia|].
  assert (Hend : database.wrap64 (offset + size) = (offset + size)%Z).
  { unfold database.wrap64. rewrite Z.mod_small; lia. }
  rewrite Hend.
  destruct (Z.ltb_spec (Z.of_nat (length exts)) (offset + size)) as [?|_]; [lia|].
  destruct (Z.ltb_spec offset 0) as [?|_]; [lia|].
  destruct (Z.ltb_spec (offset + size) offset) as [_|?]; [reflexivity|lia].
Qed.

Lemma applyPagination_page {A} (exts : list A) (offset size : Z) :
  (0 ≤ offset)%Z → (0 ≤ size)%Z → (Z.of_nat (length exts) + size < 2 ^ 63)%Z →
  manager.applyPagination exts offset size
  = Return (take (Z.to_nat size) (drop (Z.to_nat offset) exts)).
Proof.
  intros Ho Hs Hsum.
  destruct (Z.leb_spec (Z.of_nat (length exts)) offset) as [Hbeyond|Hin].
  - unfold manager.applyPagination.
    destruct (Z.leb_spec (Z.of_nat (length exts)) offset) as [_|?]; [|lia].
    rewrite drop_ge by lia. by rewrite take_nil.
  - apply applyPagination_segment; lia.
Qed.

Lemma matchesQuery_returns (ext : models.Extension) (params : gmap string string) :
  manager.matchesQuery (Some ext) params = Return (accepted params ext).
Proof.
  unfold accepted, manager.matchesQuery, manager.mismatch.
  repeat case_match; reflexivity.
Qed.

Lemma filterExtensions_records (exts : list models.Extension)
    (params : gmap string string) :
  manager.filterExtensions (map Some exts) params
  = Return (map Some (List.filter (accepted params) exts)).
Proof.
  induction exts as [|ext exts IH]; [reflexivity|].
  cbn [map manager.filterExtensions List.filter].
  rewrite matchesQuery_returns, IH.
  by destruct (accepted params ext).
Qed.

Lemma toExtensionSlice_records (exts : list models.Extension) :
  manager.toExtensionSlice (map Some exts) = Return exts.
Proof.
  induction exts as [|ext exts IH]; [reflexivity|].
  cbn [map manager.toExtensionSlice]. by rewrite IH.
Qed.

Lemma accepted_without_filters (params : gmap string string) (ext : models.Extension) :
  Forall (fun key => extensions.index params key = "")
    ["namespaceName"; "extensionName"; "extensionVersion"; "extensionId";
     "targetPlatform"] →
  accepted params ext = true.
Proof.
  intros Hall. unfold accepted, manager.matchesQuery, manager.mismatch.
  repeat (apply Forall_cons_1 in Hall as [-> Hall]). reflexivity.
Qed.

Lemma filter_all {A} (p : A → bool) (l : list A) :
  (∀ x, p x = true) → List.filter p l = l.
Proof.
  intros Hp. induction l as [|x l IH]; [reflexivity|]. simpl. by rewrite Hp, IH.
Qed.

Section query_properties.
Context `{Platform} `{Library}.

Lemma GetAll_records (m : extensions.Manager) :
  ∃ all, extensions.GetAll m = map Some all ∧ (Z.of_nat (length all) ≤ 10000)%Z.
Proof.
  unfold extensions.GetAll, database.GetAllExtensions.
  destruct (database.broken (extensions.db m)).
  - exists []. split; [reflexivity|simpl; lia].
  - set (page := database.limitOffset _ _ _).
    exists (map database.convert page). split.
    + unfold database.ToExtensionSlice. by rewrite map_map.
    + rewrite length_map. unfold page. by apply limitOffset_length.
Qed.

Lemma getPaginationParams_size (params : gmap string string) :
  (snd (manager.getPaginationParams params) ≤ 100)%Z.
Proof.
  unfold manager.getPaginationParams, manager.maxQueryLimit. simpl.
  destruct (Z.ltb_spec 100 (default 100%Z (fmt_Sscanf_int (extensions.index params "size"))));
    lia.
Qed.

(** A query with an offset and a size that are not negative returns: the
    total size is the number of the listed records that pass the filters,
    whatever the page; the extensions are the segment of at most [size]
    of them that starts at [offset], never more than 100; without filter
    parameters every listed record passes. *)
Theorem QueryExtensions_page (m : extensions.Manager) (params : gmap string string) :
  let offset := fst (manager.getPaginationParams params) in
  let size := snd (manager.getPaginationParams params) in
  (0 ≤ offset)%Z → (0 ≤ size)%Z →
  ∃ all result,
    extensions.GetAll m = map Some all ∧
    manager.QueryExtensions m params = Return result ∧
    manager.Offset result = offset ∧
    manager.TotalSize result = Z.of_nat (length (List.filter (accepted params) all)) ∧
    manager.Extensions result
    = take (Z.to_nat size) (drop (Z.to_nat offset) (List.filter (accepted params) all)) ∧
    (length (manager.Extensions result) ≤ 100)%nat ∧
    (Forall (fun key => extensions.index params key = "")
       ["namespaceName"; "extensionName"; "extensionVersion"; "extensionId";
        "targetPlatform"] →
     manager.TotalSize result = Z.of_nat (length all)).
Proof.
  intros offset size Ho Hs.
  destruct (GetAll_records m) as (all & Hall & Hlen).
  pose proof (getPaginationParams_size params) as Hsize. fold size in Hsize.
  set (filtered := List.filter (accepted params) all).
  assert (Hflen : (length filtered ≤ length all)%nat).
  { unfold filtered. clear. induction all as [|x l IH]; simpl; [lia|].
    destruct (accepted params x); simpl; lia. }
  exists all. eexists. split; [exact Hall|].
  unfold manager.QueryExtensions. rewrite Hall, filterExtensions_records.
  fold filtered.
  destruct (manager.getPaginationParams params) as [o s] eqn:Hp.
  simpl in offset, size. subst offset size.
  rewrite applyPagination_page; [|exact Ho|exact Hs|rewrite length_map; lia].
  rewrite <- fmap_drop, <- fmap_take.
  change (Some <$> take (Z.to_nat s) (drop (Z.to_nat o) filtered))
    with (map Some (take (Z.to_nat s) (drop (Z.to_nat o) filtered))).
  rewrite toExtensionSlice_records. rewrite length_map.
  split; [reflexivity|]. simpl.
  split; [reflexivity|]. split; [reflexivity|]. split; [reflexivity|]. split.
  - rewrite length_take. lia.
  - intros Hnone. unfold filtered.
    rewrite filter_all; [reflexivity|].
    intros ext. by apply accepted_without_filters.
Qed.

(** A query whose offset is negative faults in the slice expression of
    [applyPagination], whatever the catalog holds; so does a query whose
    size is negative when its offset is the position of a record that
    passes the filters. *)
Theorem QueryExtensions_faults_on_negative_paging (m : extensions.Manager)
    (params : gmap string string) (all : list models.Extension) :
  let offset := fst (manager.getPaginationParams params) in
  let size := snd (manager.getPaginationParams params) in
  extensions.GetAll m = map Some all →
  (offset < 0)%Z ∨
  ((0 ≤ offset < Z.of_nat (length (List.filter (accepted params) all)))%Z ∧
   (- 2 ^ 63 ≤ size < 0)%Z) →
  manager.QueryExtensions m params = Panic "slice bounds out of range".
Proof.
  intros offset size Hall Hbad.
  destruct (GetAll_records m) as (all' & Hall' & Hlen).
  assert (all' = all) as ->.
  { rewrite Hall in Hall'. apply (inj (fmap Some)). symmetry. exact Hall'. }
  set (filtered := List.filter (accepted params) all) in *.
  assert (Hflen : (length filtered ≤ length all)%nat).
  { unfold filtered. clear. induction all as [|x l IH]; simpl; [lia|].
    destruct (accepted params x); simpl; lia. }
  unfold manager.QueryExtensions. rewrite Hall, filterExtensions_records.
  fold filtered.
  destruct (manager.getPaginationParams params) as [o s] eqn:Hp.
  simpl in offset, size. subst offset size.
  destruct Hbad as [Ho|[Ho Hs]].
  - by rewrite applyPagination_negative_offset.
  - rewrite applyPagination_negative_size; [reflexivity| | |exact Hs];
      rewrite ?length_map; lia.
Qed.
End query_properties.

Section query_examples.
#[local] Existing Instance samplePlatform.
#[local] Existing Instance sampleLibrary.

Lemma QueryExtensions_page_witness :
  let m := extensions.mkManager "extensions"
             (database.mkDatabase [sampleRow "pub" "a" "1.0.0" 1] false) in
  let params : gmap string string := {[ "offset" := "1" ]} in
  let offset := fst (manager.getPaginationParams params) in
  let size := snd (manager.getPaginationParams params) in
  ∃ all result,
    extensions.GetAll m = map Some all ∧
    manager.QueryExtensions m params = Return result ∧
    manager.Offset result = offset ∧
    manager.TotalSize result = Z.of_nat (length (List.filter (accepted params) all)) ∧
    manager.Extensions result
    = take (Z.to_nat size) (drop (Z.to_nat offset) (List.filter (accepted params) all)) ∧
    (length (manager.Extensions result) ≤ 100)%nat ∧
    (Forall (fun key => extensions.index params key = "")
       ["namespaceName"; "extensionName"; "extensionVersion"; "extensionId";
        "targetPlatform"] →
     manager.TotalSize result = Z.of_nat (length all)).
Proof.
  intros m params offset size.
  apply (QueryExtensions_page m params).
  - vm_compute. discriminate.
  - vm_compute. discriminate.
Defined.

Lemma QueryExtensions_faults_on_negative_paging_witness :
  manager.QueryExtensions
    (extensions.mkManager "extensions"
       (database.mkDatabase [sampleRow "pub" "a" "1.0.0" 1] false))
    {[ "offset" := "-1" ]}
  = Panic "slice bounds out of range".
Proof.
  apply (QueryExtensions_faults_on_negative_paging
           (extensions.mkManager "extensions"
              (database.mkDatabase [sampleRow "pub" "a" "1.0.0" 1] false))
           {[ "offset" := "-1" ]}
           [database.convert (sampleRow "pub" "a" "1.0.0" 1)]).
  - reflexivity.
  - left. vm_compute. reflexivity.
Defined.
End query_examples.

(** ** Lookups of the manager that read the row without a nil check *)

Lemma find_absent (id : string) (l : list database.ExtensionDB) :
  id ∉ map database.ID l → List.find (database.hasID id) l = None.
Proof.
  induction l as [|r l IH]; [reflexivity|]. simpl.
  intros [Hr Hl]%not_elem_of_cons. unfold database.hasID at 1.
  destruct (String.eqb_spec (database.ID r) id); [congruence|by apply IH].
Qed.

Section unchecked_lookups.
Context `{Platform} `{Library}.

(** On a working store [GetFile] returns the path of the package of a
    stored identifier with true, and faults on an identifier that is not
    stored: the row is read without a nil check, so the answer empty
    path with false is given only when the store fails. *)
Theorem GetFile_faults_on_unknown_identifier (m : extensions.Manager) (id : string) :
  database.broken (extensions.db m) = false →
  (∀ row, List.find (database.hasID id) (database.rows (extensions.db m)) = Some row →
          manager.GetFile m id = Return (database.FilePath row, true)) ∧
  (id ∉ ids (extensions.db m) →
   manager.GetFile m id = Panic "invalid memory address or nil pointer dereference").
Proof.
  intros Hok. unfold manager.GetFile, database.GetExtensionByID. rewrite Hok.
  split.
  - by intros row ->.
  - intros Hno. by rewrite (find_absent id _ Hno).
Qed.

Lemma GetFile_faults_on_unknown_identifier_witness :
  let m := extensions.mkManager "extensions"
             (database.mkDatabase [sampleRow "pub" "a" "1.0.0" 1] false) in
  (∀ row, List.find (database.hasID "pub.b") (database.rows (extensions.db m)) = Some row →
          manager.GetFile m "pub.b" = Return (database.FilePath row, true)) ∧
  ("pub.b" ∉ ids (extensions.db m) →
   manager.GetFile m "pub.b" = Panic "invalid memory address or nil pointer dereference").
Proof.
  exact (GetFile_faults_on_unknown_identifier
           (extensions.mkManager "extensions"
              (database.mkDatabase [sampleRow "pub" "a" "1.0.0" 1] false))
           "pub.b" eq_refl).
Defined.
End unchecked_lookups.

(** ** The download command *)

Section download_properties.
Context `{Environment} `{Platform} `{Library}.

Lemma processReadmeAssets_sameBut (ext : models.Extension) (config : download.Config)
    (w : World) :
  sameBut ext (fst (fst (download.processReadmeAssets ext config w))) ∧
  (snd (fst (download.processReadmeAssets ext config w)) ≠ None →
   fst (fst (download.processReadmeAssets ext config w)) = ext).
Proof.
  unfold download.processReadmeAssets.
  destruct (String.eqb (models.ReadmeContent ext) ""); [by repeat split|].
  unfold bind.
  destruct (assets.ProcessReadme _ _ _ w) as [[processed|e] w']; simpl.
  - by repeat split.
  - by repeat split.
Qed.

Lemma sameBut_roundTrips (ext ext' : models.Extension) :
  sameBut ext ext' → roundTrips ext → roundTrips ext'.
Proof.
  intros (_ & _ & _ & _ & He & Hc & Ht & _) (Re & Rc & Rt).
  unfold roundTrips. by rewrite He, Hc, Ht.
Qed.

(** A package that [ReadExtensionInfo] reads is stored on a working
    store even when the processing of its readme assets fails (that error
    is only a warning): afterwards the manager finds under the identifier
    of the package a record with the same identity and path, whose readme
    is the processed one, or the original one when processing failed. *)
Theorem addExtensionToDatabase_stores_the_package (filePath : string)
    (extManager : extensions.Manager) (config : download.Config) (w : World)
    (ext : models.Extension) :
  manager.ReadExtensionInfo w filePath = Ok ext →
  database.broken (extensions.db extManager) = false →
  roundTrips ext →
  ∃ extManager' w' ext',
    download.addExtensionToDatabase filePath extManager config w
    = (None, extManager', w') ∧
    extensions.GetByID extManager' (models.ID ext) = Return (Some ext', true) ∧
    sameBut ext ext' ∧
    (ext', w') = (fst (fst (download.processReadmeAssets ext config w)),
                  snd (download.processReadmeAssets ext config w)) ∧
    (snd (fst (download.processReadmeAssets ext config w)) ≠ None → ext' = ext).
Proof.
  intros Hread Hok Hrt. unfold download.addExtensionToDatabase. rewrite Hread.
  destruct (processReadmeAssets_sameBut ext config w) as [Hsame Hwarn].
  destruct (download.processReadmeAssets ext config w) as [[ext' warning] w'].
  simpl in Hsame, Hwarn.
  unfold database.UpsertExtension. rewrite Hok.
  eexists _, w', ext'. split; [reflexivity|].
  split; [|split; [exact Hsame|split; [reflexivity|exact Hwarn]]].
  destruct Hsame as (Hid & Hrest).
  rewrite <- Hid.
  rewrite (GetByID_present _ _ (database.ToDBExtension ext')).
  - by rewrite (convert_ToDBExtension ext'
                  (sameBut_roundTrips ext ext' (conj Hid Hrest) Hrt)).
  - reflexivity.
  - simpl. rewrite find_app_none by apply find_hasID_excluded.
    simpl. unfold database.hasID. simpl. by rewrite String.eqb_refl.
Qed.

(** When the package file was already in place, the command looks the
    record up under the identifier that [extractExtensionID] gives, which
    is always empty: on a working store with no row of the empty
    identifier this lookup faults, so the command never reaches the
    database for a file that is already downloaded. *)
Theorem processExistingFile_faults (result : marketplace.DownloadResult)
    (extManager : extensions.Manager) (config : download.Config) (w : World) :
  database.broken (extensions.db extManager) = false →
  "" ∉ ids (extensions.db extManager) →
  marketplace.WasDownloaded result = false →
  download.processDownloadResult result extManager config w
  = Panic "invalid memory address or nil pointer dereference".
Proof.
  intros Hok Hno Hold.
  unfold download.processDownloadResult, download.processExistingFile,
    download.extractExtensionID.
  rewrite Hold.
  by rewrite (GetByID_absent extManager "" Hok (find_absent "" _ Hno)).
Qed.
End download_properties.

Section download_examples.
#[local] Existing Instance archivePlatform.
#[local] Existing Instance sampleLibrary.
#[local] Existing Instance offlineEnvironment.

Lemma addExtensionToDatabase_stores_the_package_witness :
  let w := mkWorld {[ "extensions/ext-1.0.0.vsix" := "ZIP!" ]} ∅ [] in
  let m := extensions.mkManager "extensions" (database.mkDatabase [] false) in
  let config := download.mkConfig "extensions" "extensions/assets" "https://domain:8080" in
  ∃ ext, manager.ReadExtensionInfo w "extensions/ext-1.0.0.vsix" = Ok ext ∧
  ∃ extManager' w' ext',
    download.addExtensionToDatabase "extensions/ext-1.0.0.vsix" m config w
    = (None, extManager', w') ∧
    extensions.GetByID extManager' (models.ID ext) = Return (Some ext', true) ∧
    sameBut ext ext' ∧
    (ext', w') = (fst (fst (download.processReadmeAssets ext config w)),
                  snd (download.processReadmeAssets ext config w)) ∧
    (snd (fst (download.processReadmeAssets ext config w)) ≠ None → ext' = ext).
Proof.
  intros w m config. eexists. split; [reflexivity|].
  apply (addExtensionToDatabase_stores_the_package "extensions/ext-1.0.0.vsix" m config w).
  - reflexivity.
  - reflexivity.
  - by repeat split.
Defined.

Lemma processExistingFile_faults_witness :
  download.processDownloadResult
    (marketplace.mkDownloadResult "extensions/ext-1.0.0.vsix" false)
    (extensions.mkManager "extensions"
       (database.mkDatabase [sampleRow "pub" "a" "1.0.0" 1] false))
    (download.mkConfig "extensions" "extensions/assets" "https://domain:8080")
    emptyWorld
  = Panic "invalid memory address or nil pointer dereference".
Proof.
  apply processExistingFile_faults.
  - reflexivity.
  - unfold ids. simpl. intros Hin. apply list_elem_of_singleton in Hin. discriminate.
  - reflexivity.
Defined.
End download_examples.

(** ** The asset route and the middleware *)

Section asset_route.
Context `{Environment} `{Platform} `{Library}.



(** Behind the middleware a preflight request never reaches a handler:
    whatever the handler is, an OPTIONS request is answered with status
    204, the CORS and security headers and no body.  For any other
    request the asset route keeps the origin header of the middleware,
    and its cache header depends on what the handler does: when the
    handler answers with an error (bad parameters, missing asset) the
    no-cache header of the middleware stays, with the status and the body
    of the handler; when it calls [http.ServeFile], it does so for the
    same file with the cache header public, max-age=300 in place of the
    one of the middleware. *)
Theorem middleware_preflight_and_asset_headers (s : server.Server) (w : World)
    (next : server.Request → outcome server_routes.handled) (r : server.Request) :
  (server.Method r = "OPTIONS" →
   server_routes.corsMiddleware next r
   = Return (server_routes.Answered
               (server.mkResponseWriter 204 server_routes.corsHeaders (server.RawBody "")))) ∧
  (server.Method r ≠ "OPTIONS" →
   ∃ behind,
     server_routes.corsMiddleware
       (fun r => Return (server_routes.handleExtensionAssets s w r)) r = Return behind ∧
     server_routes.headersOf behind !! "Access-Control-Allow-Origin" = Some "*" ∧
     match server_routes.handleExtensionAssets s w r, behind with
     | server_routes.Answered a, server_routes.Answered b =>
         server.status b = server.status a ∧ server.body b = server.body a ∧
         (server.status a = 400%Z ∨ server.status a = 404%Z) ∧
         server.header b !! "Cache-Control"
         = Some "no-cache, no-store, max-age=0, must-revalidate"
     | server_routes.ServeFile _ name, server_routes.ServeFile hdr name' =>
         name' = name ∧ hdr !! "Cache-Control" = Some "public, max-age=300"
     | _, _ => False
     end).
Proof.
  split.
  - intros Hm. unfold server_routes.corsMiddleware. by rewrite Hm.
  - intros Hm. apply String.eqb_neq in Hm.
    unfold server_routes.corsMiddleware. rewrite Hm.
    unfold server_routes.handleExtensionAssets.
    destruct (String.eqb (server.var (server.Vars r) "extensionID") ""
              || String.eqb (server.var (server.Vars r) "filename") "").
    + eexists. split; [reflexivity|]. split; [vm_compute; reflexivity|].
      split; [reflexivity|]. split; [reflexivity|]. split; [by left|].
      vm_compute. reflexivity.
    + destruct (negb (fst (osStat _ w))).
      * eexists. split; [reflexivity|]. split; [vm_compute; reflexivity|].
        split; [reflexivity|]. split; [reflexivity|]. split; [by right|].
        vm_compute. reflexivity.
      * eexists. split; [reflexivity|]. simpl. split.
        -- rewrite lookup_union_r; [reflexivity|].
           rewrite lookup_insert_ne by done. by rewrite lookup_singleton_ne.
        -- split; [reflexivity|].
           rewrite lookup_union_l'; [|by rewrite lookup_insert_eq].
           by rewrite lookup_insert_eq.
Qed.
End asset_route.

Section asset_route_examples.
#[local] Existing Instance samplePlatform.
#[local] Existing Instance sampleEnvironment.
#[local] Existing Instance sampleLibrary.

End asset_route_examples.

(** ** The asset types and the query modes of the gallery *)

Section gallery_routes.
Context `{Environment} `{Platform}.

(** For a stored record and its version, the signature and the public
    key are answered with status 200, the octet stream type and an empty
    body, whatever the package file holds; an asset type token outside
    the eight known ones is answered with status 404 and the error
    envelope. *)
Theorem assets_without_content (s : server.Server) (w : World) (r : server.Request)
    (row : database.ExtensionDB) :
  server.Method r = "GET" →
  database.broken (extensions.db (server.extManager s)) = false →
  List.find
    (database.hasID
       (server.var (server.Vars r) "publisher" ++ "." ++ server.var (server.Vars r) "name"))
    (database.rows (extensions.db (server.extManager s))) = Some row →
  database.Version row = server.var (server.Vars r) "version" →
  (server.var (server.Vars r) "assetType" = "Microsoft.VisualStudio.Services.VsixSignature" ∨
   server.var (server.Vars r) "assetType" = "Microsoft.VisualStudio.Services.PublicKey" →
   server.handleVSCodeAsset s w r
   = Return (server.mkResponseWriter 200
               {[ "Content-Type" := "application/octet-stream" ]} (server.RawBody ""))) ∧
  (server.var (server.Vars r) "assetType" ∉ knownAssetTypes →
   server.handleVSCodeAsset s w r
   = Return (server.mkResponseWriter 404
               {[ "Content-Type" := "application/json" ]}
               (server.JSONBody
                  (server.obj [("error", VString "Not Found");
                               ("message", VString "Asset type not supported");
                               ("status", VInt 404)])))).
Proof.
  intros Hm Hok Hrow Hver. unfold server.handleVSCodeAsset.
  rewrite Hm. simpl String.eqb. cbv iota.
  rewrite (GetByID_present _ _ row Hok Hrow). simpl models.Version.
  rewrite Hver, String.eqb_refl. simpl negb. cbv iota.
  split.
  - intros [-> | ->]; reflexivity.
  - intros Hunknown. unfold server.serveAsset.
    unfold knownAssetTypes in Hunknown.
    repeat (apply not_elem_of_cons in Hunknown as [Hne Hunknown];
            apply String.eqb_neq in Hne; rewrite Hne; clear Hne).
    reflexivity.
Qed.

(** An identifier criterion takes precedence over a search text: two
    query requests that decode to the same non-empty identifier get the
    same answer, whatever search texts they carry besides. *)
Theorem identifier_takes_precedence_over_search (s : server.Server)
    (r1 r2 : server.Request) (n : nat) (query1 query2 : gmap string value)
    (searchQuery1 searchQuery2 extensionId : string) :
  server.Method r1 ≠ "OPTIONS" → server.Method r2 ≠ "OPTIONS" →
  json_Decode_object (server.RequestBody r1) = Some query1 →
  json_Decode_object (server.RequestBody r2) = Some query2 →
  server.decodeQuery query1 = (searchQuery1, extensionId) →
  server.decodeQuery query2 = (searchQuery2, extensionId) →
  extensionId ≠ "" →
  server.handleExtensionQuery s r1 n = server.handleExtensionQuery s r2 n.
Proof.
  intros Hm1 Hm2 Hb1 Hb2 Hd1 Hd2 Hid.
  apply String.eqb_neq in Hm1, Hm2, Hid.
  unfold server.handleExtensionQuery.
  by rewrite Hm1, Hm2, Hb1, Hb2, Hd1, Hd2, Hid.
Qed.

End gallery_routes.

Section gallery_routes_examples.
#[local] Existing Instance queryPlatform.
#[local] Existing Instance sampleEnvironment.

Lemma assets_without_content_witness :
  let s := serverOn [sampleRow "pub" "a" "1.0.0" 1] in
  (server.var (server.Vars (assetRequest "pub" "a" "1.0.0" "Unknown")) "assetType"
   = "Microsoft.VisualStudio.Services.VsixSignature" ∨
   server.var (server.Vars (assetRequest "pub" "a" "1.0.0" "Unknown")) "assetType"
   = "Microsoft.VisualStudio.Services.PublicKey" →
   server.handleVSCodeAsset s emptyWorld (assetRequest "pub" "a" "1.0.0" "Unknown")
   = Return (server.mkResponseWriter 200
               {[ "Content-Type" := "application/octet-stream" ]} (server.RawBody ""))) ∧
  (server.var (server.Vars (assetRequest "pub" "a" "1.0.0" "Unknown")) "assetType"
   ∉ knownAssetTypes →
   server.handleVSCodeAsset s emptyWorld (assetRequest "pub" "a" "1.0.0" "Unknown")
   = Return (server.mkResponseWriter 404
               {[ "Content-Type" := "application/json" ]}
               (server.JSONBody
                  (server.obj [("error", VString "Not Found");
                               ("message", VString "Asset type not supported");
                               ("status", VInt 404)])))).
Proof.
  intros s.
  apply (assets_without_content s emptyWorld (assetRequest "pub" "a" "1.0.0" "Unknown")
           (sampleRow "pub" "a" "1.0.0" 1)).
  - reflexivity.
  - reflexivity.
  - vm_compute. reflexivity.
  - vm_compute. reflexivity.
Defined.

Lemma identifier_takes_precedence_over_search_witness :
  server.handleExtensionQuery (serverOn [sampleRow "pub" "a" "1.0.0" 1])
    (server.mkRequest "POST" ∅ "{id}") 0
  = server.handleExtensionQuery (serverOn [sampleRow "pub" "a" "1.0.0" 1])
      (server.mkRequest "POST" ∅ "{id,search}") 0.
Proof.
  apply (identifier_takes_precedence_over_search
           (serverOn [sampleRow "pub" "a" "1.0.0" 1])
           (server.mkRequest "POST" ∅ "{id}") (server.mkRequest "POST" ∅ "{id,search}") 0
           (queryOf [criterion 4 (VString "pub.a")])
           (queryOf [criterion 10 (VString "python"); criterion 4 (VString "pub.a")])
           "" "python" "pub.a").
  - discriminate.
  - discriminate.
  - reflexivity.
  - reflexivity.
  - vm_compute. reflexivity.
  - vm_compute. reflexivity.
  - discriminate.
Defined.

End gallery_routes_examples.

(** ** The file utilities *)

Lemma detectContentType_1 (c0 : ascii) :
  utils.detectContentType (String c0 "") = Return (utils.textOrBinary (String c0 "")).
Proof. reflexivity. Qed.

Lemma detectContentType_2 (c0 c1 : ascii) :
  utils.detectContentType (String c0 (String c1 ""))
  = if Ascii.eqb c0 "255" && Ascii.eqb c1 "216" then Return "image/jpeg"
    else if Ascii.eqb c0 "137" && Ascii.eqb c1 "080" then Panic "index out of range"
    else if Ascii.eqb c0 "071" && Ascii.eqb c1 "073" then Panic "index out of range"
    else Return (utils.textOrBinary (String c0 (String c1 ""))).
Proof.
  unfold utils.detectContentType, utils.and_, utils.is_, utils.at_.
  cbn [String.length Nat.eqb Nat.leb String.get].
  destruct (Ascii.eqb c0 "255"), (Ascii.eqb c1 "216"), (Ascii.eqb c0 "137"),
    (Ascii.eqb c1 "080"), (Ascii.eqb c0 "071"), (Ascii.eqb c1 "073"); reflexivity.
Qed.

Lemma detectContentType_3 (c0 c1 c2 : ascii) :
  utils.detectContentType (String c0 (String c1 (String c2 "")))
  = if Ascii.eqb c0 "255" && Ascii.eqb c1 "216" then Return "image/jpeg"
    else if Ascii.eqb c0 "137" && Ascii.eqb c1 "080" && Ascii.eqb c2 "078"
    then Panic "index out of range"
    else if Ascii.eqb c0 "071" && Ascii.eqb c1 "073" && Ascii.eqb c2 "070"
    then Return "image/gif"
    else Return (utils.textOrBinary (String c0 (String c1 (String c2 "")))).
Proof.
  unfold utils.detectContentType, utils.and_, utils.is_, utils.at_.
  cbn [String.length Nat.eqb Nat.leb String.get].
  destruct (Ascii.eqb c0 "255"), (Ascii.eqb c1 "216"), (Ascii.eqb c0 "137"),
    (Ascii.eqb c1 "080"), (Ascii.eqb c2 "078"), (Ascii.eqb c0 "071"),
    (Ascii.eqb c1 "073"), (Ascii.eqb c2 "070"); reflexivity.
Qed.

Lemma detectContentType_4 (c0 c1 c2 c3 : ascii) (rest : string) :
  ∃ contentType,
    utils.detectContentType (String c0 (String c1 (String c2 (String c3 rest))))
    = Return contentType.
Proof.
  unfold utils.detectContentType, utils.and_, utils.is_, utils.at_.
  cbn [String.length Nat.eqb Nat.leb String.get].
  destruct (Ascii.eqb c0 "255"), (Ascii.eqb c1 "216"), (Ascii.eqb c0 "137"),
    (Ascii.eqb c1 "080"), (Ascii.eqb c2 "078"), (Ascii.eqb c3 "071"),
    (Ascii.eqb c0 "071"), (Ascii.eqb c1 "073"), (Ascii.eqb c2 "070");
    eexists; reflexivity.
Qed.

(** [detectContentType] returns a content type on every input but three:
    it faults, by reading beyond the end of the data, exactly on the two
    bytes 0x89 0x50, on the three bytes 0x89 0x50 0x4E and on the two
    bytes GI, the inputs that start like a PNG or GIF signature and end
    before the last byte that is compared. *)
Theorem detectContentType_faults_on_truncated_signatures (data : string) :
  (∃ msg, utils.detectContentType data = Panic msg) ↔ data ∈ truncatedSignatures.
Proof.
  unfold truncatedSignatures. split.
  - intros [msg Hm].
    destruct data as [|c0 [|c1 [|c2 [|c3 rest]]]].
    + discriminate.
    + rewrite detectContentType_1 in Hm. discriminate.
    + rewrite detectContentType_2 in Hm.
      destruct (Ascii.eqb c0 "255" && Ascii.eqb c1 "216"); [discriminate|].
      destruct (Ascii.eqb c0 "137" && Ascii.eqb c1 "080") eqn:Epng.
      { apply andb_true_iff in Epng as [->%Ascii.eqb_eq ->%Ascii.eqb_eq]. by left. }
      destruct (Ascii.eqb c0 "071" && Ascii.eqb c1 "073") eqn:Egif; [|discriminate].
      apply andb_true_iff in Egif as [->%Ascii.eqb_eq ->%Ascii.eqb_eq].
      right. right. by left.
    + rewrite detectContentType_3 in Hm.
      destruct (Ascii.eqb c0 "255" && Ascii.eqb c1 "216"); [discriminate|].
      destruct (Ascii.eqb c0 "137" && Ascii.eqb c1 "080" && Ascii.eqb c2 "078") eqn:Epng.
      { apply andb_true_iff in Epng as [Epng ->%Ascii.eqb_eq].
        apply andb_true_iff in Epng as [->%Ascii.eqb_eq ->%Ascii.eqb_eq].
        right. by left. }
      destruct (Ascii.eqb c0 "071" && Ascii.eqb c1 "073" && Ascii.eqb c2 "070");
        discriminate.
    + destruct (detectContentType_4 c0 c1 c2 c3 rest) as [t Ht]. congruence.
  - intros Hin.
    repeat (apply elem_of_cons in Hin as [->|Hin]; [eexists; reflexivity|]).
    by apply elem_of_nil in Hin.
Qed.

Lemma lower_idem (c : ascii) : gostrings.lower (gostrings.lower c) = gostrings.lower c.
Proof. destruct c as [[] [] [] [] [] [] [] []]; reflexivity. Qed.

Lemma lower_is_separator (c : ascii) :
  Ascii.eqb "/" (gostrings.lower c) = Ascii.eqb "/" c ∧
  Ascii.eqb (gostrings.lower c) "/" = Ascii.eqb c "/".
Proof. destruct c as [[] [] [] [] [] [] [] []]; split; reflexivity. Qed.

Lemma lower_is_dot (c : ascii) :
  Ascii.eqb "." (gostrings.lower c) = Ascii.eqb "." c ∧
  Ascii.eqb (gostrings.lower c) "." = Ascii.eqb c ".".
Proof. destruct c as [[] [] [] [] [] [] [] []]; split; reflexivity. Qed.

Lemma ToLower_idem (s : string) :
  gostrings.ToLower (gostrings.ToLower s) = gostrings.ToLower s.
Proof.
  induction s as [|c s IH]; [reflexivity|].
  cbn [gostrings.ToLower]. by rewrite lower_idem, IH.
Qed.

Lemma inb_separator_ToLower (s : string) :
  gostrings.inb "/" (gostrings.ToLower s) = gostrings.inb "/" s.
Proof.
  induction s as [|c s IH]; [reflexivity|].
  cbn [gostrings.ToLower gostrings.inb]. by rewrite (proj1 (lower_is_separator c)), IH.
Qed.

Lemma inb_dot_ToLower (s : string) :
  gostrings.inb "." (gostrings.ToLower s) = gostrings.inb "." s.
Proof.
  induction s as [|c s IH]; [reflexivity|].
  cbn [gostrings.ToLower gostrings.inb]. by rewrite (proj1 (lower_is_dot c)), IH.
Qed.

Lemma lastElement_ToLower (s : string) :
  filepath.lastElement (gostrings.ToLower s) = gostrings.ToLower (filepath.lastElement s).
Proof.
  induction s as [|c s IH]; [reflexivity|].
  cbn [gostrings.ToLower filepath.lastElement].
  rewrite inb_separator_ToLower, (proj2 (lower_is_separator c)), IH.
  destruct (gostrings.inb "/" s); [reflexivity|].
  destruct (Ascii.eqb c "/"); reflexivity.
Qed.

Lemma fromLastDot_ToLower (s : string) :
  filepath.fromLastDot (gostrings.ToLower s) = gostrings.ToLower (filepath.fromLastDot s).
Proof.
  induction s as [|c s IH]; [reflexivity|].
  cbn [gostrings.ToLower filepath.fromLastDot].
  rewrite inb_dot_ToLower, (proj2 (lower_is_dot c)), IH.
  destruct (gostrings.inb "." s); [reflexivity|].
  destruct (Ascii.eqb c "."); reflexivity.
Qed.

Lemma Ext_ToLower (path : string) :
  gostrings.ToLower (filepath.Ext (gostrings.ToLower path))
  = gostrings.ToLower (filepath.Ext path).
Proof.
  unfold filepath.Ext.
  by rewrite lastElement_ToLower, fromLastDot_ToLower, ToLower_idem.
Qed.

Section mime_types.
Context `{Environment} `{Platform} `{Library}.

(** The content type by extension does not depend on the case of the
    file name, and the table of the asset route of the server agrees with
    it: whenever the extension is one of the table, the asset route
    chooses the same type without looking at the content of the file. *)
Theorem GetMimeTypeByExtension_ignores_case (filename filePath : string) (w : World) :
  utils.GetMimeTypeByExtension (gostrings.ToLower filename)
  = utils.GetMimeTypeByExtension filename ∧
  (utils.GetMimeTypeByExtension filename ≠ utils.OctetStreamContentType →
   server_routes.assetContentType w filename filePath
   = utils.GetMimeTypeByExtension filename).
Proof.
  split.
  - unfold utils.GetMimeTypeByExtension. by rewrite Ext_ToLower.
  - unfold utils.GetMimeTypeByExtension, server_routes.assetContentType.
    intros Hknown.
    repeat match goal with
    | |- context [if ?b then _ else _] => destruct b; [reflexivity|]
    end.
    by destruct Hknown.
Qed.
End mime_types.
